(** * binance-trading-bot: bot lifecycle and strategy engine

    A shallow embedding of the engine's pure and stateful parts and the
    properties of the specification that were checked against it,
    followed by further properties of the code:

    - [JsNumber]    JavaScript numbers (binary64) with [Math.floor],
                    [toString], [toFixed] and [parseFloat];
    - [MathUtil]    src/utils/math.js;
    - [Retry]       src/utils/retry.js;
    - [Persistence] src/services/persistence.js;
    - [Gateway]     src/binance/client.js;
    - [BotManager]  src/core/botManager.js;
    - [Grid]        src/strategies/grid.js;
    - [DcaBuy]      src/strategies/dcaBuy.js;
    - [WsClient]    src/binance/wsClient.js;
    - [Cache]       src/services/cache.js;
    - [ClockSync]   src/binance/client.js, the clock offset;
    - [BotRegistry] src/core/botManager.js, the rest of the registry;
    - [Server]      src/server.js, the runner factory and shutdown;
    - [GridRunner]  src/strategies/grid.js, reconciliation and stop;
    - [DcaSell]     src/strategies/dcaSell.js.

    Numbers are primitive binary64 floats, so every arithmetic step of the
    JavaScript code is reproduced bit for bit.  Asynchronous calls to the
    exchange are answered by an explicit environment (the outcome of each
    call), and side effects are recorded in a log. *)

From Stdlib Require Import ZArith List String Ascii Bool Lia.
From Stdlib Require Import Floats DecimalString.
From stdpp Require Import base gmap strings list.
From Equations Require Import Equations.

#[local] Set Warnings "-inexact-float,-register-all".
#[local] Open Scope string_scope.
#[local] Open Scope Z_scope.

(** ** JavaScript numbers *)

Module JsNumber.

Definition number := float.

Definition of_Z (z : Z) : number :=
  SF2Prim (binary_normalize prec emax z 0 false).

(** The binary64 nearest to the rational [num/den] (ties to even), for
    [0 <= num] and [0 < den]: the quotient is taken with at least 63
    significant bits, the remainder is kept as a sticky bit, and the
    result is normalised. *)
Definition round_ratio (neg : bool) (num den : Z) : number :=
  if num =? 0 then (if neg then neg_zero else zero)
  else
    let k := Z.max 0 (Z.log2 den - Z.log2 num + 64) in
    let scaled := Z.shiftl num k in
    let q := scaled / den in
    let sticky := if scaled mod den =? 0 then 0 else 1 in
    SF2Prim (binary_normalize prec emax
               (cond_Zopp neg (2 * q + sticky)) (- k - 1) neg).

(** [m * 2^e] as a fraction. *)
Definition frac_of (m : positive) (e : Z) : Z * Z :=
  if 0 <=? e then (Z.shiftl (Zpos m) e, 1) else (Zpos m, Z.shiftl 1 (- e)).

(** [Math.floor] *)
Definition floor (x : number) : number :=
  match Prim2SF x with
  | S754_finite s m e =>
      if 0 <=? e then x
      else
        let q := Z.shiftr (Zpos m) (- e) in
        let exact := Z.shiftl q (- e) =? Zpos m in
        if s then of_Z (- (if exact then q else q + 1))
        else of_Z q
  | _ => x
  end.

(** ToBoolean on a number: [0], [-0] and [NaN] are falsy. *)
Definition truthy (x : number) : bool := negb (is_zero x || is_nan x).

(** [Math.max] of two numbers *)
Definition max (a b : number) : number :=
  if is_nan a || is_nan b then nan
  else if (a <? b)%float then b
  else if (b <? a)%float then a
  else if get_sign a then b else a.

Definition digits_of (n : Z) : string :=
  NilZero.string_of_uint (N.to_uint (Z.to_N n)).

Fixpoint zeros (n : nat) : string :=
  match n with
  | O => ""
  | S n' => String "0" (zeros n')
  end.

Fixpoint take (n : nat) (s : string) : string :=
  match n, s with
  | S n', String c s' => String c (take n' s')
  | _, _ => ""
  end.

Fixpoint drop (n : nat) (s : string) : string :=
  match n, s with
  | S n', String _ s' => drop n' s'
  | _, _ => s
  end.

(** Is [10^n <= num/den]? *)
Definition ge_pow10 (num den n : Z) : bool :=
  if 0 <=? n then den * 10 ^ n <=? num else den <=? num * 10 ^ (- n).

(** Search upwards for the decimal exponent [n], the least one with
    [num/den < 10^n]. *)
Fixpoint adjust_exp (fuel : nat) (num den n : Z) : Z :=
  match fuel with
  | O => n
  | S fuel' =>
      if ge_pow10 num den n then adjust_exp fuel' num den (n + 1) else n
  end.

Definition decimal_exp (num den : Z) : Z :=
  let l := Z.log2 num - Z.log2 den in
  adjust_exp 8 num den (l * 30103 / 100000 - 2).

(** [num/den] divided by [10^p], as a fraction. *)
Definition scale10 (num den p : Z) : Z * Z :=
  if 0 <=? p then (num, den * 10 ^ p) else (num * 10 ^ (- p), den).

(** Among the two [k]-digit decimals around [num/den] (decimal exponent
    [n]), the one that reads back as [x]; when both do, the closer one. *)
Definition candidate (x : number) (num den n k : Z) : option (Z * Z) :=
  let '(a, b) := scale10 num den (n - k) in
  let lo := a / b in
  let hi := if a mod b =? 0 then lo else lo + 1 in
  let back s := let '(c, d) := scale10 s 1 (k - n) in round_ratio false c d in
  let ok s := PrimFloat.Leibniz.eqb (back s) x in
  let pick s := if s =? 10 ^ k then (1, n + 1) else (s, n) in
  let lo_closer := (a - lo * b) * 2 <? b in
  let tie := (a - lo * b) * 2 =? b in
  match ok lo, ok hi with
  | true, true =>
      if lo_closer then Some (pick lo)
      else if tie then Some (pick (if Z.even lo then lo else hi))
      else Some (pick hi)
  | true, false => Some (pick lo)
  | false, true => Some (pick hi)
  | false, false => None
  end.

(** The shortest digit string that reads back as [x]: try 1, 2, ... digits. *)
Fixpoint shortest (fuel : nat) (x : number) (num den n k : Z) : Z * Z :=
  match fuel with
  | O => (0, n)
  | S fuel' =>
      match candidate x num den n k with
      | Some r => r
      | None => shortest fuel' x num den n (k + 1)
      end
  end.

Definition show_exp (e : Z) : string :=
  ((if (e <? 0)%Z then "-" else "+") ++ digits_of (Z.abs e))%string.

(** Number::toString (radix 10) on the positive finite value [m * 2^e]. *)
Definition toString_pos (x : number) (m : positive) (e : Z) : string :=
  let '(num, den) := frac_of m e in
  let '(s, n) := shortest 17 x num den (decimal_exp num den) 1 in
  let ds := digits_of s in
  let k := Z.of_nat (String.length ds) in
  if (k <=? n) && (n <=? 21) then (ds ++ zeros (Z.to_nat (n - k)))%string
  else if (0 <? n) && (n <=? 21) then
    (take (Z.to_nat n) ds ++ "." ++ drop (Z.to_nat n) ds)%string
  else if (-6 <? n) && (n <=? 0) then
    ("0." ++ zeros (Z.to_nat (- n)) ++ ds)%string
  else if k =? 1 then (ds ++ "e" ++ show_exp (n - 1))%string
  else (take 1 ds ++ "." ++ drop 1 ds ++ "e" ++ show_exp (n - 1))%string.

(** [Number.prototype.toString()] *)
Definition toString (x : number) : string :=
  match Prim2SF x with
  | S754_nan => "NaN"
  | S754_zero _ => "0"
  | S754_infinity s => if s then "-Infinity" else "Infinity"
  | S754_finite s m e =>
      ((if s then "-" else "") ++ toString_pos (abs x) m e)%string
  end.

(** The integer [n] printed with [f] digits after the point. *)
Definition fixed_digits (n : Z) (f : nat) : string :=
  let m := digits_of n in
  match f with
  | O => m
  | _ =>
      let k := String.length m in
      let m' := if (k <=? f)%nat then (zeros (f + 1 - k) ++ m)%string else m in
      let k' := String.length m' in
      (take (k' - f) m' ++ "." ++ drop (k' - f) m')%string
  end.

(** [Number.prototype.toFixed(f)] for [0 <= f <= 100] (JavaScript raises a
    RangeError beyond): the integer [n] nearest to [|x| * 10^f], the larger
    one on a tie, printed with [f] decimals; values from [1e21] on are
    printed as [toString] does. *)
Definition toFixed (x : number) (f : nat) : string :=
  match Prim2SF x with
  | S754_finite s m e =>
      let '(num, den) := frac_of m e in
      if 10 ^ 21 * den <=? num then toString x
      else
        let a := num * 10 ^ Z.of_nat f in
        let n := (2 * a + den) / (2 * den) in
        ((if s then "-" else "") ++ fixed_digits n f)%string
  | S754_zero _ => fixed_digits 0 f
  | _ => toString x
  end.

Definition is_digit (c : ascii) : bool :=
  let n := nat_of_ascii c in (48 <=? n)%nat && (n <=? 57)%nat.

Definition digit_val (c : ascii) : Z := Z.of_nat (nat_of_ascii c) - 48.

(** The longest run of decimal digits at the head of [s]: the value read
    so far, the number of digits read so far, and the rest. *)
Fixpoint read_digits (s : string) (acc : Z) (len : nat) : Z * nat * string :=
  match s with
  | String c s' =>
      if is_digit c then read_digits s' (10 * acc + digit_val c) (S len)
      else (acc, len, s)
  | EmptyString => (acc, len, s)
  end.

Definition is_space (c : ascii) : bool :=
  let n := nat_of_ascii c in
  (n =? 32)%nat || ((9 <=? n)%nat && (n <=? 13)%nat).

Fixpoint skip_spaces (s : string) : string :=
  match s with
  | String c s' => if is_space c then skip_spaces s' else s
  | EmptyString => s
  end.

Definition read_sign (s : string) : bool * string :=
  match s with
  | String "-" s' => (true, s')
  | String "+" s' => (false, s')
  | _ => (false, s)
  end.

(** The exponent part [e[+-]digits], when one is present. *)
Definition read_exponent (s : string) : Z :=
  match s with
  | String c s' =>
      if (Ascii.eqb c "e" || Ascii.eqb c "E")%bool then
        let '(neg, s'') := read_sign s' in
        let '(v, len, _) := read_digits s'' 0 O in
        match len with
        | O => 0
        | _ => if neg then - v else v
        end
      else 0
  | EmptyString => 0
  end.

(** [parseFloat]: the longest decimal literal at the head of the string,
    rounded to the nearest number; [NaN] when there is none. *)
Definition parseFloat (str : string) : number :=
  let '(neg, s) := read_sign (skip_spaces str) in
  if String.prefix "Infinity" s then (if neg then neg_infinity else infinity)
  else
    let '(i, ilen, s1) := read_digits s 0 O in
    let '(m, flen, s2) :=
      match s1 with
      | String "." s1' =>
          let '(v, tlen, r) := read_digits s1' i ilen in
          (v, (tlen - ilen)%nat, r)
      | _ => (i, O, s1)
      end in
    match (ilen + flen)%nat with
    | O => nan
    | _ =>
        let p := read_exponent s2 - Z.of_nat flen in
        if 0 <=? p then round_ratio neg (m * 10 ^ p) 1
        else round_ratio neg m (10 ^ (- p))
    end.

(** [String.prototype.split('.')] *)
Fixpoint split_dot (s : string) (cur : string) : list string :=
  match s with
  | EmptyString => [cur]
  | String c s' =>
      if Ascii.eqb c "." then cur :: split_dot s' ""
      else split_dot s' (cur ++ String c "")%string
  end.

End JsNumber.

(** ** src/utils/math.js *)

Module MathUtil.
Import JsNumber.

(** [Math.max(0, (t.toString().split('.')[1] || '').length)] *)
Definition precision (t : number) : nat :=
  Nat.max 0 (String.length (nth 1 (split_dot (toString t) "") "")).

Definition roundToTickSize (value tickSize : number) : number :=
  if (tickSize <=? 0)%float then value
  else
    let precision := precision tickSize in
    let multiplier := (value / tickSize)%float in
    let roundedMultiplier := floor multiplier in
    let roundedValue := (roundedMultiplier * tickSize)%float in
    parseFloat (toFixed roundedValue precision).

Definition roundToStepSize (value stepSize : number) : number :=
  if (stepSize <=? 0)%float then value
  else
    let precision := precision stepSize in
    let multiplier := (value / stepSize)%float in
    let roundedMultiplier := floor multiplier in
    let roundedValue := (roundedMultiplier * stepSize)%float in
    parseFloat (toFixed roundedValue precision).

End MathUtil.

(** ** The rounding helpers as the specification words them (section 4.8) *)

Module MathSpec.
Import JsNumber.







End MathSpec.

(** ** Values, errors and outcomes *)

Module Js.
Import JsNumber.

(** Plain JavaScript data: what [JSON.parse] produces, plus [undefined]. *)
Inductive data :=
| DUndefined
| DNull
| DBool (b : bool)
| DNum (n : number)
| DStr (s : string)
| DArr (items : list data)
| DObj (props : list (string * data)).

(** An [Error] object: its [message] and, for a rejected HTTP call, the
    exchange's [response.data.code] and [response.data.msg]. *)
Record error := mkError {
  message : string;
  response_code : option Z;
  response_msg : option string
}.

Definition TypeError (msg : string) : error := mkError msg None None.

(** An exchange rejection with a logical error code. *)
Definition ApiError (code : Z) (msg : string) : error :=
  mkError "Request failed" (Some code) (Some msg).

(** [e.response?.data?.code === code] *)
Definition has_code (e : error) (code : Z) : bool :=
  match response_code e with
  | Some c => c =? code
  | None => false
  end.

(** How a call ends: it returns a value or throws (a promise resolves or
    rejects). *)
Inductive outcome (A : Type) :=
| Return (a : A)
| Throw (e : error).
Arguments Return {A} a.
Arguments Throw {A} e.

Definition bind {A B} (m : outcome A) (k : A -> outcome B) : outcome B :=
  match m with
  | Return a => k a
  | Throw e => Throw e
  end.

Declare Scope outcome_scope.
Delimit Scope outcome_scope with outcome.
Notation "'let*' x ':=' m 'in' k" := (bind m (fun x => k))
  (at level 10, x name, m at level 100, k at level 200) : outcome_scope.

(** [try { body } catch (e) { handler(e) }] *)
Definition try_catch {A} (body : outcome A) (handler : error -> outcome A)
  : outcome A :=
  match body with
  | Return a => Return a
  | Throw e => handler e
  end.

Fixpoint mapM {A B} (f : A -> outcome B) (l : list A) : outcome (list B) :=
  match l with
  | [] => Return []
  | x :: l' =>
      bind (f x) (fun y => bind (mapM f l') (fun ys => Return (y :: ys)))
  end.

Fixpoint assoc {V} (key : string) (props : list (string * V)) : option V :=
  match props with
  | [] => None
  | (k, v) :: rest => if String.eqb k key then Some v else assoc key rest
  end.

(** Property read [v.key] for a key that only plain objects carry. *)
Definition prop (key : string) (v : data) : outcome data :=
  match v with
  | DUndefined | DNull =>
      Throw (TypeError ("Cannot read properties of undefined (reading '" ++ key ++ "')"))
  | DObj props => Return (default DUndefined (assoc key props))
  | _ => Return DUndefined
  end.

(** ToBoolean *)
Definition is_truthy (v : data) : bool :=
  match v with
  | DUndefined | DNull => false
  | DBool b => b
  | DNum n => truthy n
  | DStr s => negb (String.eqb s "")
  | DArr _ | DObj _ => true
  end.

(** [a || b] *)
Definition or_else (a b : data) : data := if is_truthy a then a else b.

Section DataInduction.
Variable P : data -> Prop.
Hypothesis P_undefined : P DUndefined.
Hypothesis P_null : P DNull.
Hypothesis P_bool : forall b, P (DBool b).
Hypothesis P_num : forall n, P (DNum n).
Hypothesis P_str : forall s, P (DStr s).
Hypothesis P_arr : forall items, Forall P items -> P (DArr items).
Hypothesis P_obj :
  forall props, Forall (fun kv => P (snd kv)) props -> P (DObj props).

(** Induction on plain data, with the hypothesis at hand for every element
    of an array and every property value of an object. *)
Fixpoint data_induction (v : data) : P v :=
  match v with
  | DUndefined => P_undefined
  | DNull => P_null
  | DBool b => P_bool b
  | DNum n => P_num n
  | DStr s => P_str s
  | DArr items =>
      P_arr items
        ((fix each (l : list data) : Forall P l :=
            match l with
            | [] => List.Forall_nil P
            | x :: l' => List.Forall_cons P x l' (data_induction x) (each l')
            end) items)
  | DObj props =>
      P_obj props
        ((fix each (l : list (string * data))
            : Forall (fun kv => P (snd kv)) l :=
            match l with
            | [] => List.Forall_nil _
            | kv :: l' =>
                List.Forall_cons (fun kv => P (snd kv)) kv l'
                  (data_induction (snd kv)) (each l')
            end) props)
  end.

End DataInduction.

End Js.

(** ** src/utils/retry.js *)

Module Retry.
Import Js.

(** The options object; [retries] is a count, [minTimeout] and [factor] are
    whole numbers at every call site, so [Math.floor(delay * factor)] is the
    product.  [onRetry] tells whether a callback was passed. *)
Record options := mkOptions {
  retries : nat;
  minTimeout : Z;
  factor : Z;
  onRetry : bool
}.

(** [retry(fn)] with the defaults [{ retries = 3, minTimeout = 200, factor = 2 }] *)
Definition defaults : options := mkOptions 3 200 2 false.

(** What a run of [retry] did: how it ended ([None] is the [undefined] of a
    loop that ran out), how often [fn] was invoked, the [onRetry] callbacks
    made and the delays slept, in order. *)
Record run (A : Type) := mkRun {
  result : outcome (option A);
  invocations : nat;
  notified : list (nat * error);
  slept : list Z
}.
Arguments mkRun {A}.
Arguments result {A}.
Arguments invocations {A}.
Arguments notified {A}.
Arguments slept {A}.

Section loop.
Context {A : Type}.
(** [fn i] is how the [i]-th invocation of the wrapped function ends
    (counting from 0). *)
Variable fn : nat -> outcome A.
Variable opts : options.

(** The body of [catch (err)] after the [attempt === retries] test:
    [attempt++], [onRetry], [wait(delay)], then the rest of the loop. *)
Definition after_failure (attempt : nat) (err : error) (delay : Z)
  (rest : run A) : run A :=
  mkRun (result rest) (invocations rest)
    ((if onRetry opts then [(attempt, err)] else []) ++ notified rest)
    (delay :: slept rest).

(** [while (attempt <= retries) { try { return await fn(); } catch ... }];
    [calls] counts the invocations of [fn] made so far. *)
Equations? retry_loop (attempt : nat) (delay : Z) (calls : nat) : run A
  by wf (S (retries opts) - attempt)%nat lt :=
retry_loop attempt delay calls with le_lt_dec attempt (retries opts) := {
  | right _ => mkRun (Return None) calls [] []
  | left _ with fn calls := {
    | Return v => mkRun (Return (Some v)) (S calls) [] []
    | Throw err with Nat.eq_dec attempt (retries opts) := {
      | left _ => mkRun (Throw err) (S calls) [] []
      | right _ =>
          after_failure (S attempt) err delay
            (retry_loop (S attempt) (delay * factor opts) (S calls)) } } }.
Proof. lia. Qed.

Definition retry : run A := retry_loop 0%nat (minTimeout opts) 0%nat.

End loop.

End Retry.

(** ** src/binance/client.js *)

Module Gateway.
Import JsNumber Js.

(** [_signedRequest]: the signed HTTP call wrapped in
    [retry(fn, { retries: 3, minTimeout: 300, factor: 2, onRetry })].
    [http i] is how the [i]-th HTTP attempt ends. *)
Definition signed_options : Retry.options := Retry.mkOptions 3 300 2 true.

Definition signedRequest_run (http : nat -> outcome data) : Retry.run data :=
  Retry.retry http signed_options.

Definition signedRequest (http : nat -> outcome data) : outcome data :=
  match Retry.result (signedRequest_run http) with
  | Return (Some d) => Return d
  | Return None => Return DUndefined
  | Throw e => Throw e
  end.

(** A property of the objects built by [getOpenOrders]: a value copied
    from the exchange order, or [new Date(v)]. *)
Inductive cell :=
| Copy (v : data)
| NewDate (v : data).

Definition view := list (string * cell).

(** The arrow function mapped over the exchange's orders. *)
Definition order_view (order : data) : outcome view :=
  (let* orderId := prop "orderId" order in
   let* clientOrderId := prop "clientOrderId" order in
   let* side := prop "side" order in
   let* price := prop "price" order in
   let* origQty := prop "origQty" order in
   let* executedQty := prop "executedQty" order in
   let* symbol := prop "symbol" order in
   let* status := prop "status" order in
   let* timeInForce := prop "timeInForce" order in
   let* time := prop "time" order in
   let* updateTime := prop "updateTime" order in
   Return [ ("order_id", Copy orderId);
            ("client_order_id", Copy clientOrderId);
            ("type", Copy side);
            ("price", Copy price);
            ("quantity", Copy origQty);
            ("executed_quantity", Copy executedQty);
            ("symbol", Copy symbol);
            ("status", Copy status);
            ("time_in_force", Copy timeInForce);
            ("created_at", NewDate time);
            ("updated_at", NewDate (or_else updateTime time)) ])%outcome.

(** [orders.map(f)]: only an array has [map]. *)
Definition array_map {B} (f : data -> outcome B) (orders : data)
  : outcome (list B) :=
  match orders with
  | DArr items => mapM f items
  | DUndefined | DNull =>
      Throw (TypeError "Cannot read properties of undefined (reading 'map')")
  | _ => Throw (TypeError "orders.map is not a function")
  end.

(** [getOpenOrders(symbol)]; the [catch] logs the error and returns [[]]. *)
Definition getOpenOrders (http : nat -> outcome data) : outcome (list view) :=
  try_catch
    (let* orders := signedRequest http in array_map order_view orders)%outcome
    (fun err => Return []).

(** [getAllOrders(symbol, options)] *)
Definition getAllOrders (http : nat -> outcome data) : outcome (list view) :=
  try_catch
    (let* orders := signedRequest http in array_map order_view orders)%outcome
    (fun err => Return []).

(** Property read on a returned order, as the strategy runners do
    ([o.orderId], [o.clientOrderId]): [None] is [undefined]. *)
Definition view_prop (key : string) (o : view) : option cell := assoc key o.

End Gateway.

(** ** src/services/persistence.js *)

Module Persistence.
Import JsNumber Js.

(** JSON documents.  A [JNumber] stands for the digits [JSON.stringify]
    prints for it, which [JSON.parse] reads back as the same number. *)
Inductive json :=
| JNull
| JBool (b : bool)
| JNumber (n : number)
| JString (s : string)
| JArray (items : list json)
| JObject (members : list (string * json)).

(** [JSON.stringify(v)]: [None] when nothing is produced ([undefined]).
    Inside an array [undefined] is written as [null], inside an object the
    property is left out; [NaN] and the infinities are written as [null],
    and [-0] as [0]. *)
Fixpoint stringify (v : data) : option json :=
  match v with
  | DUndefined => None
  | DNull => Some JNull
  | DBool b => Some (JBool b)
  | DNum n =>
      Some (if is_finite n
            then JNumber (if PrimFloat.Leibniz.eqb n neg_zero then zero else n)
            else JNull)
  | DStr s => Some (JString s)
  | DArr items =>
      Some (JArray (List.map (fun x => default JNull (stringify x)) items))
  | DObj props =>
      Some (JObject
        ((fix members (ps : list (string * data)) : list (string * json) :=
            match ps with
            | [] => []
            | (k, x) :: ps' =>
                match stringify x with
                | Some j => (k, j) :: members ps'
                | None => members ps'
                end
            end) props))
  end.

(** [JSON.parse] of a well-formed document *)
Fixpoint parse (j : json) : data :=
  match j with
  | JNull => DNull
  | JBool b => DBool b
  | JNumber n => DNum n
  | JString s => DStr s
  | JArray items => DArr (List.map parse items)
  | JObject members =>
      DObj ((fix props (ms : list (string * json)) : list (string * data) :=
               match ms with
               | [] => []
               | (k, x) :: ms' => (k, parse x) :: props ms'
               end) members)
  end.

(** What a file holds: a JSON document, or text [JSON.parse] rejects. *)
Inductive content :=
| Doc (j : json)
| Garbage.

(** The data directory: the files in it, and the paths on which
    [writeFileSync] fails. *)
Record disk := mkDisk {
  files : gmap string content;
  locked : gset string
}.

Definition dataDir : string := "data/bots".

Definition fileForBot (botId : string) : string :=
  (dataDir ++ "/" ++ botId ++ ".json")%string.

(** [fs.writeFileSync(file, text)] *)
Definition writeFileSync (file : string) (text : option json) (d : disk)
  : outcome disk :=
  match text with
  | None => Throw (TypeError "The data argument must be of type string")
  | Some j =>
      if decide (file ∈ locked d) then Throw (mkError "EACCES" None None)
      else Return (mkDisk (<[file := Doc j]> (files d)) (locked d))
  end.

(** [saveBotState(botId, state)] at time [now]; a failed write is logged
    and swallowed. *)
Definition saveBotState (botId : string) (state : data) (now : number)
  (d : disk) : disk :=
  match writeFileSync (fileForBot botId)
          (stringify (DObj [("updatedAt", DNum now); ("state", state)])) d with
  | Return d' => d'
  | Throw _ => d
  end.

(** [loadBotState(botId)]: [parsed.state || null], and [null] when the
    file is missing or unreadable. *)
Definition loadBotState (botId : string) (d : disk) : data :=
  match files d !! fileForBot botId with
  | None => DNull
  | Some Garbage => DNull
  | Some (Doc j) =>
      match prop "state" (parse j) with
      | Return st => or_else st DNull
      | Throw _ => DNull
      end
  end.

(** [deleteBotState(botId)] *)
Definition deleteBotState (botId : string) (d : disk) : disk :=
  if decide (fileForBot botId ∈ locked d) then d
  else mkDisk (delete (fileForBot botId) (files d)) (locked d).

(** Values that JSON represents exactly: no [undefined], no [NaN] or
    infinity, no negative zero. *)
Fixpoint json_safe (v : data) : bool :=
  match v with
  | DUndefined => false
  | DNull | DBool _ | DStr _ => true
  | DNum n => is_finite n && negb (PrimFloat.Leibniz.eqb n neg_zero)
  | DArr items => forallb json_safe items
  | DObj props =>
      (fix all (ps : list (string * data)) : bool :=
         match ps with
         | [] => true
         | (_, x) :: ps' => json_safe x && all ps'
         end) props
  end.

End Persistence.

(** ** src/core/botManager.js *)

Module BotManager.
Import JsNumber Js.

(** Epoch milliseconds as [Date.now()] gives them; [None] is [null] (or an
    absent property). *)
Definition time := option Z.

(** ToBoolean on a time field: [null] and [0] are falsy. *)
Definition present (t : time) : bool :=
  match t with
  | Some z => negb (z =? 0)
  | None => false
  end.

(** [t || null] *)
Definition or_null (t : time) : time := if present t then t else None.

(** [bot.config]: the strategy parameters and the three time fields. *)
Record bot_config := mkConfig {
  params : list (string * data);
  timeCreated : time;
  timeStarted : time;
  timeStopped : time
}.

(** [bot.stats]; a counter missing from a loaded snapshot is [None]. *)
Record bot_stats := mkStats {
  completedRounds : option number;
  realizedPnl : option number;
  lastDurationMs : time
}.

(** The state object written by [_persistBot] and read by [loadBotState]. *)
Record snapshot := mkSnapshot {
  s_name : option string;
  s_strategy : string;
  s_symbol : string;
  s_status : option string;
  s_config : option bot_config;
  s_stats : option bot_stats
}.

Record bot := mkBot {
  id : string;
  name : option string;
  strategy : string;
  symbol : string;
  status : string;
  config : bot_config;
  stats : bot_stats;
  runStartTime : time
}.

(** What the manager asks of its collaborators, in order. *)
Inductive effect :=
| RunnerStart (botId : string)
| RunnerStop (botId : string)
| CleanupSubscriptions (botId : string)
| Persist (botId : string) (state : snapshot).

(** The registry [this.bots] (a [Map], in insertion order) and the log. *)
Record manager := mkManager {
  bots : list (string * bot);
  log : list effect
}.

Definition empty : manager := mkManager [] [].

Fixpoint map_get (key : string) (m : list (string * bot)) : option bot :=
  match m with
  | [] => None
  | (k, b) :: rest => if String.eqb k key then Some b else map_get key rest
  end.

(** [Map.prototype.set]: an existing key keeps its place. *)
Fixpoint map_set (key : string) (b : bot) (m : list (string * bot))
  : list (string * bot) :=
  match m with
  | [] => [(key, b)]
  | (k, b') :: rest =>
      if String.eqb k key then (k, b) :: rest else (k, b') :: map_set key b rest
  end.

Definition is_running (b : bot) : bool := String.eqb (status b) "running".
Definition is_stopped (b : bot) : bool := String.eqb (status b) "stopped".

(** The object [_persistBot] hands to [saveBotState]. *)
Definition persistBot (b : bot) : effect :=
  Persist (id b)
    (mkSnapshot (name b) (strategy b) (symbol b) (Some (status b))
       (Some (config b)) (Some (stats b))).

Definition with_times (c : bot_config) (started stopped : time)
  : bot_config :=
  mkConfig (params c) (timeCreated c) started stopped.

(** [_buildBotInstance(id, state, runnerFactory)] up to the call of the
    factory, at clock reading [timeNow]. *)
Definition buildBotInstance (botId : string) (state : snapshot) (timeNow : Z)
  : bot :=
  let cfg := default (mkConfig [] None None None) (s_config state) in
  let status :=
    match s_status state with
    | Some s => if String.eqb s "" then "stopped" else s
    | None => "stopped"
    end in
  let config :=
    mkConfig (params cfg)
      (if present (timeCreated cfg) then timeCreated cfg else Some timeNow)
      (or_null (timeStarted cfg))
      (or_null (timeStopped cfg)) in
  let stats :=
    default (mkStats (Some 0%float) (Some 0%float) (Some 0)) (s_stats state) in
  let runStartTime :=
    if String.eqb status "running" && present (timeStarted config)
       && negb (present (timeStopped config))
    then timeStarted config else None in
  mkBot botId (s_name state) (s_strategy state) (s_symbol state) status
    config stats runStartTime.

(** [bot.start()] at clock reading [now]: the new bot and what it asked
    of the runner and of persistence.  The runner's [start] is not awaited
    and what it throws is logged. *)
Definition start (now : Z) (b : bot) : bot * list effect :=
  if is_running b then (b, [])
  else
    let started :=
      if present (timeStarted (config b)) then timeStarted (config b)
      else Some now in
    let b' :=
      mkBot (id b) (name b) (strategy b) (symbol b) "running"
        (with_times (config b) started None) (stats b) started in
    (b', [RunnerStart (id b); persistBot b']).

(** [bot.stop()] at clock reading [now] *)
Definition stop (now : Z) (b : bot) : bot * list effect :=
  if is_stopped b then (b, [])
  else
    let stats' :=
      if present (runStartTime b)
      then mkStats (completedRounds (stats b)) (realizedPnl (stats b))
             (Some (now - default 0 (runStartTime b)))
      else stats b in
    let b' :=
      mkBot (id b) (name b) (strategy b) (symbol b) "stopped"
        (with_times (config b) (timeStarted (config b)) (Some now))
        stats' (if present (runStartTime b) then None else runStartTime b) in
    (b', [RunnerStop (id b); CleanupSubscriptions (id b); persistBot b']).

(** [x += (d || 0)] on a counter that may be [undefined] *)
Definition add_delta (x : option number) (d : number) : option number :=
  let d' := if truthy d then d else 0%float in
  Some (match x with
        | Some v => (v + d')%float
        | None => nan
        end).

(** [bot.updateStats(delta)] *)
Definition updateStats (dRounds dPnl : number) (b : bot) : bot * list effect :=
  let b' :=
    mkBot (id b) (name b) (strategy b) (symbol b) (status b) (config b)
      (mkStats (add_delta (completedRounds (stats b)) dRounds)
         (add_delta (realizedPnl (stats b)) dPnl)
         (lastDurationMs (stats b)))
      (runStartTime b) in
  (b', [persistBot b']).

(** A bot method called through the registry. *)
Definition call (f : bot -> bot * list effect) (botId : string) (m : manager)
  : manager :=
  match map_get botId (bots m) with
  | None => m
  | Some b =>
      let '(b', effs) := f b in
      mkManager (map_set botId b' (bots m)) (log m ++ effs)
  end.

(** [createBot({ name, strategy, symbol, config, runnerFactory })] with the
    fresh id [botId], at clock reading [timeNow].  [runnerFactory] tells
    whether the factory returns a runner; when it throws, the snapshot is
    already saved and the bot is not registered. *)
Definition createBot (runnerFactory : bot -> bool) (botId : string)
  (name strategy symbol : string) (cfg : list (string * data)) (timeNow : Z)
  (m : manager) : manager :=
  let initialState :=
    mkSnapshot (Some name) strategy symbol (Some "stopped")
      (Some (mkConfig cfg (Some timeNow) None None))
      (Some (mkStats (Some 0%float) (Some 0%float) (Some 0))) in
  let b := buildBotInstance botId initialState timeNow in
  let log' := (log m ++ [Persist botId initialState])%list in
  if runnerFactory b then mkManager (map_set botId b (bots m)) log'
  else mkManager (bots m) log'.

(** One [.json] file found at start-up: the bot id in its name, what
    [loadBotState] returned for it ([None] is [null]) and the clock
    reading while it is handled. *)
Record entry := mkEntry {
  file_id : string;
  loaded : option snapshot;
  read_at : Z
}.

(** The resume branch: status and times are set on the bot directly,
    [bot.start()] is not called. *)
Definition resume (now : Z) (b : bot) : bot * list effect :=
  let started :=
    if present (timeStarted (config b)) then timeStarted (config b)
    else Some now in
  (mkBot (id b) (name b) (strategy b) (symbol b) "running"
     (with_times (config b) started None) (stats b) started,
   [RunnerStart (id b)]).

(** [savedState.status === 'running'] *)
Definition saved_running (saved : snapshot) : bool :=
  match s_status saved with
  | Some s => String.eqb s "running"
  | None => false
  end.

(** [loadBotsFromDisk(runnerFactory)]: a snapshot without a name is
    skipped; a throwing factory ends the loop. *)
Fixpoint loadBotsFromDisk (runnerFactory : bot -> bool) (found : list entry)
  (m : manager) : manager :=
  match found with
  | [] => m
  | e :: rest =>
      match loaded e with
      | Some saved =>
          match s_name saved with
          | Some n =>
              if String.eqb n "" then loadBotsFromDisk runnerFactory rest m
              else
                let saved' :=
                  let st := default (mkStats None None None) (s_stats saved) in
                  mkSnapshot (s_name saved) (s_strategy saved) (s_symbol saved)
                    (s_status saved) (s_config saved)
                    (Some (mkStats (completedRounds st) (realizedPnl st)
                             (if present (lastDurationMs st)
                              then lastDurationMs st else Some 0))) in
                let b := buildBotInstance (file_id e) saved' (read_at e) in
                if runnerFactory b then
                  let '(b', effs) :=
                    if saved_running saved then resume (read_at e) b
                    else (b, []) in
                  loadBotsFromDisk runnerFactory rest
                    (mkManager (map_set (file_id e) b' (bots m)) (log m ++ effs))
                else m
          | None => loadBotsFromDisk runnerFactory rest m
          end
      | None => loadBotsFromDisk runnerFactory rest m
      end
  end.

(** One row of [listBots()] *)
Record row := mkRow {
  r_id : string;
  r_status : string;
  r_timeStarted : time;
  r_timeStopped : time;
  r_stats : bot_stats;
  currentDurationMs : Z
}.

Definition list_row (now : Z) (b : bot) : row :=
  let currentDurationMs :=
    if is_running b && present (runStartTime b)
    then now - default 0 (runStartTime b)
    else if present (lastDurationMs (stats b))
         then default 0 (lastDurationMs (stats b))
         else 0 in
  mkRow (id b) (status b) (or_null (timeStarted (config b)))
    (or_null (timeStopped (config b))) (stats b) currentDurationMs.

(** [listBots()] at clock reading [now] *)
Definition listBots (now : Z) (m : manager) : list row :=
  List.map (fun kb => list_row now (snd kb)) (bots m).

(** What [loadBotState(botId)] returns after the effects [l], when the
    manager is the only writer of the file: the state persisted last. *)
Fixpoint on_disk (botId : string) (l : list effect) : option snapshot :=
  match l with
  | [] => None
  | e :: rest =>
      match on_disk botId rest, e with
      | Some later, _ => Some later
      | None, Persist i state => if String.eqb i botId then Some state else None
      | None, _ => None
      end
  end.

(** The manager operations of the bot lifecycle. *)
Inductive op :=
| CreateBot (botId name strategy symbol : string)
    (cfg : list (string * data)) (timeNow : Z)
| Start (botId : string) (now : Z)
| Stop (botId : string) (now : Z).

Definition step (runnerFactory : bot -> bool) (o : op) (m : manager) : manager :=
  match o with
  | CreateBot botId name strategy symbol cfg timeNow =>
      createBot runnerFactory botId name strategy symbol cfg timeNow m
  | Start botId now => call (start now) botId m
  | Stop botId now => call (stop now) botId m
  end.

(** The states reached from the empty registry. *)
Inductive reachable (runnerFactory : bot -> bool) : manager -> Prop :=
| reach_empty : reachable runnerFactory empty
| reach_step o m :
    reachable runnerFactory m -> reachable runnerFactory (step runnerFactory o m).

(** [status = running  <->  timeStarted <> nil /\ timeStopped = nil] *)
Definition lifecycle_invariant (b : bot) : Prop :=
  status b = "running" <->
  (timeStarted (config b) <> None /\ timeStopped (config b) = None).

End BotManager.

(** ** The exchange's symbol filters *)

Module Exchange.
Import JsNumber.

(** [filters]: the minimum price and quantity increments of the symbol. *)
Record filters := mkFilters {
  tickSize : number;
  stepSize : number
}.

(** [let filters = { tickSize: 0.01, stepSize: 0.0001 }] *)
Definition initial_filters : filters := mkFilters 0.01%float 0.0001%float.

End Exchange.

(** ** src/strategies/grid.js *)

Module Grid.
Import JsNumber Js MathUtil Exchange.

(** An element of [gridOrders].  [orderId], [clientOrderId] and
    [quantity] are [undefined] until the exchange has accepted the order. *)
Record order := mkOrder {
  orderId : option Z;
  clientOrderId : option string;
  price : number;
  side : string;
  status : string;
  quantity : option number
}.

(** An element of [unmatchedBuys]. *)
Record unmatched := mkUnmatched {
  u_price : number;
  u_quantity : number
}.

(** The constants fixed when the runner is created. *)
Record settings := mkSettings {
  symbol : string;
  orderSize : number;
  gridSpread : number;
  botTag : string
}.

(** The execution report [raw.raw || raw]: its fields [s], [X], [S], [i]
    and [z]; [None] is a missing property. *)
Record report := mkReport {
  ev_s : option string;
  ev_X : option string;
  ev_S : option string;
  ev_i : option Z;
  ev_z : option string
}.

Inductive effect :=
| NewOrder (side quantity price clientOrderId : string)
| EmitPlaced (side : string) (price quantity : number)
| EmitFilled (side : option string) (orderId : Z)
| EmitBotError (msg : string)
| Sleep (ms : Z)
| Manager (e : BotManager.effect)
| SaveBotState (orders : list order) (held : list unmatched).

(** The runner's variables, the bot it refers to, and the effects so far. *)
Record state := mkState {
  isRunning : bool;
  filt : filters;
  gridOrders : list order;
  unmatchedBuys : list unmatched;
  bot : BotManager.bot;
  log : list effect
}.

(** What the outside answers while one report is handled: the clock and
    the random suffix of the client order id, how [binance.newOrder] ends
    (with the exchange's [orderId]), and the same for the one retry after
    a filter failure. *)
Record env := mkEnv {
  now : Z;
  rand : string;
  placed : outcome Z;
  retry_now : Z;
  replaced : outcome Z
}.

Definition show_time (t : Z) : string := toString (of_Z t).

(** [side.charAt(0)] *)
Definition initial (side : string) : string :=
  match side with
  | String c _ => String c ""
  | EmptyString => ""
  end.

Definition accepted (o : order) (id : Z) (clientId : string) (q : number)
  : order :=
  mkOrder (Some id) (Some clientId) (price o) (side o) "open" (Some q).

Definition with_status (o : order) (st : string) : order :=
  mkOrder (orderId o) (clientOrderId o) (price o) (side o) st (quantity o).

(** [handlePlaceOrderError(e, orderData, quantity)]: the order as it is
    left, the effects, and whether [bot.stop()] was called. *)
Definition handlePlaceOrderError (cfg : settings) (ev : env) (e : error)
  (o : order) (q : number) : order * list effect * bool :=
  let msg := default (message e) (response_msg e) in
  if has_code e (-2014) || has_code e (-2015) then
    (o, [EmitBotError ("Fatal API Error: " ++ msg)%string], true)
  else if has_code e (-2010) then (with_status o "ignored_balance", [], false)
  else if has_code e (-1013) then
    let clientOrderId :=
      (botTag cfg ++ "-" ++ show_time (retry_now ev) ++ "-RETRY-"
         ++ initial (side o))%string in
    let call :=
      NewOrder (side o) (toString q) (toString (price o)) clientOrderId in
    match replaced ev with
    | Return id =>
        (accepted o id clientOrderId q,
         [Sleep 3000; call; EmitPlaced (side o) (price o) q], false)
    | Throw _ => (with_status o "error", [Sleep 3000; call], false)
    end
  else (with_status o "error", [], false).

(** The quantity [placeOrder] computes for an order at price [p]. *)
Definition order_quantity (cfg : settings) (f : filters) (p : number) : number :=
  let calculatedQuantity := (orderSize cfg / p)%float in
  roundToStepSize (max calculatedQuantity (stepSize f)) (stepSize f).

(** [placeOrder(orderData)] *)
Definition placeOrder (cfg : settings) (f : filters) (ev : env) (o : order)
  : order * list effect * bool :=
  let quantity := order_quantity cfg f (price o) in
  if (quantity <=? 0)%float then (o, [], false)
  else
    let clientOrderId :=
      (botTag cfg ++ "-" ++ show_time (now ev) ++ "-" ++ initial (side o)
         ++ "-" ++ rand ev)%string in
    let call :=
      NewOrder (side o) (toString quantity) (toString (price o)) clientOrderId in
    match placed ev with
    | Return id =>
        (accepted o id clientOrderId quantity,
         [call; EmitPlaced (side o) (price o) quantity], false)
    | Throw e =>
        let '(o', effs, stopped) := handlePlaceOrderError cfg ev e o quantity in
        (o', call :: effs, stopped)
    end.

(** [o.orderId && o.orderId.toString() === orderId] *)
Definition has_id (i : Z) (o : order) : bool :=
  match orderId o with
  | Some j => negb (j =? 0) && (j =? i)
  | None => false
  end.

(** [Array.prototype.findIndex]; [None] is [-1]. *)
Fixpoint findIndex {A} (p : A -> bool) (l : list A) : option nat :=
  match l with
  | [] => None
  | x :: l' => if p x then Some O else option_map S (findIndex p l')
  end.

(** [l.splice(i, 1)]: the list without its [i]-th element. *)
Fixpoint splice1 {A} (i : nat) (l : list A) : list A :=
  match i, l with
  | _, [] => []
  | O, _ :: l' => l'
  | S i', x :: l' => x :: splice1 i' l'
  end.

(** [l] without the first of its elements that satisfies [p]: what
    [findIndex] followed by [splice(index, 1)] leaves. *)
Fixpoint remove_first {A} (p : A -> bool) (l : list A) : list A :=
  match l with
  | [] => []
  | x :: l' => if p x then l' else x :: remove_first p l'
  end.

(** [Math.abs(b.price - buyPrice) < tickSize / 2] *)
Definition pairs_with (f : filters) (buyPrice : number) (b : unmatched) : bool :=
  (abs (u_price b - buyPrice) <? tickSize f / 2)%float.

(** [bot.stop()] called from the error handler: the manager's [stop], and
    the part of the runner's [stop] that runs before its first [await]. *)
Definition stop_bot (at_ : Z) (st : state) : state :=
  let '(b', effs) := BotManager.stop at_ (bot st) in
  mkState (if BotManager.is_stopped (bot st) then isRunning st else false)
    (filt st) (gridOrders st) (unmatchedBuys st) b'
    (log st ++ List.map Manager effs)%list.

(** [persist()] *)
Definition persist (st : state) : state :=
  mkState (isRunning st) (filt st) (gridOrders st) (unmatchedBuys st) (bot st)
    (log st ++ [SaveBotState (gridOrders st) (unmatchedBuys st)])%list.

(** [gridOrders.push(counterOrder); await placeOrder(counterOrder)] *)
Definition push_and_place (cfg : settings) (ev : env) (counter : order)
  (st : state) : state :=
  let '(o', effs, stopped) := placeOrder cfg (filt st) ev counter in
  let st' :=
    mkState (isRunning st) (filt st) (gridOrders st ++ [o'])%list
      (unmatchedBuys st) (bot st) (log st ++ effs)%list in
  if stopped then stop_bot (now ev) st' else st'.

Definition is_fill (X : option string) : bool :=
  match X with
  | Some x => String.eqb x "FILLED" || String.eqb x "PARTIALLY_FILLED"
  | None => false
  end.

Definition same_symbol (cfg : settings) (s : option string) : bool :=
  match s with
  | Some x => String.eqb x (symbol cfg)
  | None => false
  end.

Definition side_is (S : option string) (name : string) : bool :=
  match S with
  | Some x => String.eqb x name
  | None => false
  end.

(** [parseFloat(evt.z)] *)
Definition filled_quantity (evt : report) : number :=
  match ev_z evt with
  | Some z => parseFloat z
  | None => nan
  end.

(** [onExecutionReport(raw)].  Whatever is thrown inside is caught and
    logged: a report without [i] leaves the runner as it was. *)
Definition onExecutionReport (cfg : settings) (ev : env) (evt : report)
  (st : state) : state :=
  if negb (same_symbol cfg (ev_s evt)) || negb (is_fill (ev_X evt)) then st
  else
    match ev_i evt with
    | None => st
    | Some i =>
        let filledQty := filled_quantity evt in
        match findIndex (has_id i) (gridOrders st) with
        | None => st
        | Some filledOrderIndex =>
            match nth_error (gridOrders st) filledOrderIndex with
            | None => st
            | Some filledOrder =>
                let st1 :=
                  mkState (isRunning st) (filt st)
                    (splice1 filledOrderIndex (gridOrders st))
                    (unmatchedBuys st) (bot st)
                    (log st ++ [EmitFilled (ev_S evt) i])%list in
                if side_is (ev_S evt) "BUY" then
                  let sellPrice :=
                    roundToTickSize (price filledOrder + gridSpread cfg)%float
                      (tickSize (filt st)) in
                  let counterOrder :=
                    mkOrder None None sellPrice "SELL" "pending" None in
                  let st2 :=
                    mkState (isRunning st1) (filt st1) (gridOrders st1)
                      (unmatchedBuys st1
                         ++ [mkUnmatched (price filledOrder) filledQty])%list
                      (bot st1) (log st1) in
                  persist (push_and_place cfg ev counterOrder st2)
                else if side_is (ev_S evt) "SELL" then
                  let buyPrice :=
                    roundToTickSize (price filledOrder - gridSpread cfg)%float
                      (tickSize (filt st)) in
                  let counterOrder :=
                    mkOrder None None buyPrice "BUY" "pending" None in
                  let held :=
                    match findIndex (pairs_with (filt st) buyPrice)
                            (unmatchedBuys st1) with
                    | Some matchIndex => splice1 matchIndex (unmatchedBuys st1)
                    | None => unmatchedBuys st1
                    end in
                  let pnl := ((price filledOrder - buyPrice) * filledQty)%float in
                  let '(b', effs) := BotManager.updateStats 1%float pnl (bot st1) in
                  let st2 :=
                    mkState (isRunning st1) (filt st1) (gridOrders st1) held b'
                      (log st1 ++ List.map Manager effs)%list in
                  persist (push_and_place cfg ev counterOrder st2)
                else persist st1
            end
        end
    end.

End Grid.

(** ** src/strategies/dcaBuy.js *)

Module DcaBuy.
Import JsNumber Js MathUtil Exchange.

(** An element of [placedBuys] and [filledBuys], and the shape of
    [sellTp]. *)
Record placement := mkPlacement {
  orderId : Z;
  clientOrderId : string;
  price : number;
  qty : number
}.

(** The constants read from [bot.config] when the runner is created;
    [takeProfit] is [undefined] when none was configured. *)
Record settings := mkSettings {
  symbol : string;
  gridLevels : nat;
  gridSpread : number;
  orderSize : number;
  takeProfit : option number;
  botTag : string
}.

(** The execution report [raw.raw || raw]; the exchange's [i] is a
    whole number. *)
Record report := mkReport {
  ev_s : option string;
  ev_X : option string;
  ev_S : option string;
  ev_i : Z
}.

Inductive effect :=
| NewOrder (side quantity price clientOrderId : string)
| CancelOrder (orderId : Z)
| CancelOpenOrder (orderId : option Gateway.cell)
| EmitPlaced (side : string) (price qty : number) (orderId : Z)
| EmitCanceled (orderId : Z)
| EmitCanceledOpen (orderId : option Gateway.cell)
| EmitFilled (side : string) (orderId : Z)
| EmitBotError (context : string) (code : option Z)
| Warn (context : string)
| RunnerStop
| Manager (e : BotManager.effect).

Record state := mkState {
  isRunning : bool;
  listening : bool;
  filt : filters;
  placedBuys : list placement;
  filledBuys : list placement;
  sellTp : option placement;
  lastActivityMs : option Z;
  bot : BotManager.bot;
  log : list effect
}.

Definition set_sellTp (tp : option placement) (st : state) : state :=
  mkState (isRunning st) (listening st) (filt st) (placedBuys st)
    (filledBuys st) tp (lastActivityMs st) (bot st) (log st).

Definition say (effs : list effect) (st : state) : state :=
  mkState (isRunning st) (listening st) (filt st) (placedBuys st)
    (filledBuys st) (sellTp st) (lastActivityMs st) (bot st)
    (log st ++ effs)%list.

(** [stop()] up to its first [await]: the flag, the listener. *)
Definition stop (st : state) : state :=
  if isRunning st then
    mkState false false (filt st) (placedBuys st) (filledBuys st) (sellTp st)
      (lastActivityMs st) (bot st) (log st ++ [RunnerStop])%list
  else st.

Definition FATAL_CODES : list Z := [-2015; -2014; -1102].

(** [handleApiError(error, context)] *)
Definition handleApiError (e : error) (context : string) (st : state) : state :=
  match response_code e with
  | Some code =>
      if existsb (Z.eqb code) FATAL_CODES
      then stop (say [EmitBotError context (Some code)] st)
      else say [Warn context] st
  | None => say [Warn context] st
  end.

(** The result of [buyStats()] *)
Record totals := mkTotals {
  avg : number;
  totalQty : number;
  totalValue : number
}.

(** [buyStats()]; [None] is [null]. *)
Definition buyStats (filledBuys : list placement) : option totals :=
  match filledBuys with
  | [] => None
  | _ =>
      let quantity :=
        fold_left (fun a b => (a + qty b)%float) filledBuys 0%float in
      let value :=
        fold_left (fun a b => (a + qty b * price b)%float) filledBuys 0%float in
      Some (mkTotals (value / quantity)%float quantity value)
  end.

(** What the exchange answers while the take-profit order is brought up
    to date: the clock, how [cancelOrder] ends and how [newOrder] ends. *)
Record tp_env := mkTpEnv {
  now : Z;
  canceled : outcome unit;
  placed : outcome Z
}.

Definition show_time (t : Z) : string := toString (of_Z t).

(** The take-profit price and quantity wanted for the filled buys. *)
Definition desired (f : filters) (tp : number) (t : totals) : number * number :=
  (roundToTickSize (avg t + tp)%float (tickSize f),
   roundToStepSize (totalQty t) (stepSize f)).

(** [Math.abs(sellTp.price - desiredPrice) > tickSize / 2 ||
     Math.abs(sellTp.qty - qtyToSell) > stepSize / 2] *)
Definition out_of_date (f : filters) (cur : placement) (want : number * number)
  : bool :=
  (tickSize f / 2 <? abs (price cur - fst want))%float
  || (stepSize f / 2 <? abs (qty cur - snd want))%float.

(** The first half of [ensureTakeProfitSellUpToDate]: cancel a take-profit
    order that is out of date. *)
Definition cancel_stale (ev : tp_env) (want : number * number) (st : state)
  : state :=
  match sellTp st with
  | Some cur =>
      if out_of_date (filt st) cur want then
        match canceled ev with
        | Return _ =>
            set_sellTp None
              (say [CancelOrder (orderId cur); EmitCanceled (orderId cur)] st)
        | Throw e =>
            let st' := say [CancelOrder (orderId cur)] st in
            if has_code e (-2011) then set_sellTp None st'
            else handleApiError e "cancel TP order" st'
        end
      else st
  | None => st
  end.

(** The second half: place the order when there is none. *)
Definition place_missing (cfg : settings) (ev : tp_env) (want : number * number)
  (st : state) : state :=
  match sellTp st with
  | Some _ => st
  | None =>
      let clientOrderId :=
        (botTag cfg ++ "-" ++ show_time (now ev) ++ "-S-TP")%string in
      let call :=
        NewOrder "SELL" (toString (snd want)) (toString (fst want))
          clientOrderId in
      match placed ev with
      | Return id =>
          set_sellTp (Some (mkPlacement id clientOrderId (fst want) (snd want)))
            (say [call; EmitPlaced "SELL" (fst want) (snd want) id] st)
      | Throw e =>
          handleApiError e "place initial/replace TP sell" (say [call] st)
      end
  end.

(** [ensureTakeProfitSellUpToDate()] *)
Definition ensureTakeProfitSellUpToDate (cfg : settings) (ev : tp_env)
  (st : state) : state :=
  match takeProfit cfg with
  | None => st
  | Some tp =>
      if negb (truthy tp) then st
      else
        match buyStats (filledBuys st) with
        | None => st
        | Some stats =>
            let want := desired (filt st) tp stats in
            if (snd want <=? 0)%float then st
            else place_missing cfg ev want (cancel_stale ev want st)
        end
  end.

(** [Set.prototype.has] on numbers (SameValueZero) *)
Definition same_value_zero (a b : number) : bool :=
  (a =? b)%float || (is_nan a && is_nan b).

(** What the exchange answers while the buys are placed again:
    [exchangeInfo] (its filters, [None] when the symbol is not listed),
    [getPrice], [newOrder] for level [i], and the clock at level [i]. *)
Record buys_env := mkBuysEnv {
  info : outcome (option filters);
  ticker : outcome number;
  buy_placed : nat -> outcome Z;
  buy_time : nat -> Z;
  done_at : Z
}.

(** [loadFilters()] *)
Definition loadFilters (ev : buys_env) (st : state) : state :=
  match info ev with
  | Return (Some f) =>
      mkState (isRunning st) (listening st) f (placedBuys st) (filledBuys st)
        (sellTp st) (lastActivityMs st) (bot st) (log st)
  | Return None => stop st
  | Throw e => handleApiError e "loadFilters" st
  end.

(** The loop of [placeBuys] over the levels [i .. gridLevels], [todo]
    levels being left; [seen] is the set [placed]. *)
Fixpoint place_levels (cfg : settings) (ev : buys_env) (base : number)
  (todo i : nat) (seen : list number) (st : state) : state :=
  match todo with
  | O => st
  | S todo' =>
      let p :=
        roundToTickSize (base - gridSpread cfg * of_Z (Z.of_nat i))%float
          (tickSize (filt st)) in
      if existsb (same_value_zero p) seen
      then place_levels cfg ev base todo' (S i) seen st
      else
        let q := roundToStepSize (orderSize cfg) (stepSize (filt st)) in
        let clientOrderId :=
          (botTag cfg ++ "-" ++ show_time (buy_time ev i) ++ "-B-"
             ++ show_time (Z.of_nat i))%string in
        let call := NewOrder "BUY" (toString q) (toString p) clientOrderId in
        match buy_placed ev i with
        | Return id =>
            let st' :=
              mkState (isRunning st) (listening st) (filt st)
                (placedBuys st ++ [mkPlacement id clientOrderId p q])%list
                (filledBuys st) (sellTp st) (lastActivityMs st) (bot st)
                (log st ++ [call; EmitPlaced "BUY" p q id])%list in
            place_levels cfg ev base todo' (S i) (p :: seen) st'
        | Throw e =>
            place_levels cfg ev base todo' (S i) seen
              (handleApiError e "placeBuys loop" (say [call] st))
        end
  end.

(** [placeBuys()] *)
Definition placeBuys (cfg : settings) (ev : buys_env) (st : state) : state :=
  let st1 := loadFilters ev st in
  match ticker ev with
  | Return base =>
      let st2 := place_levels cfg ev base (gridLevels cfg) 1 [] st1 in
      mkState (isRunning st2) (listening st2) (filt st2) (placedBuys st2)
        (filledBuys st2) (sellTp st2) (Some (done_at ev)) (bot st2) (log st2)
  | Throw e => handleApiError e "placeBuys getPrice" st1
  end.

(** [o.clientOrderId && o.clientOrderId.startsWith(botTag + '-')] on an
    element of what [getOpenOrders] returned *)
Definition tagged (cfg : settings) (o : Gateway.view) : bool :=
  match Gateway.view_prop "clientOrderId" o with
  | Some (Gateway.Copy (DStr s)) => String.prefix (botTag cfg ++ "-")%string s
  | _ => false
  end.

(** The loop of [cancelAllRelatedOrders] over the orders [getOpenOrders]
    returned; [cancels i] is how the cancellation of the [i]-th one ends. *)
Fixpoint cancel_tagged (cfg : settings) (cancels : nat -> outcome unit)
  (open : list Gateway.view) (i : nat) (st : state) : state :=
  match open with
  | [] => st
  | o :: rest =>
      if tagged cfg o then
        let id := Gateway.view_prop "orderId" o in
        let st' :=
          match cancels i with
          | Return _ => say [CancelOpenOrder id; EmitCanceledOpen id] st
          | Throw e =>
              if has_code e (-2011) then say [CancelOpenOrder id] st
              else
                handleApiError e "cancelAll loop" (say [CancelOpenOrder id] st)
          end in
        cancel_tagged cfg cancels rest (S i) st'
      else cancel_tagged cfg cancels rest (S i) st
  end.

(** [cancelAllRelatedOrders()]: [http] answers the signed request made by
    [getOpenOrders]. *)
Definition cancelAllRelatedOrders (cfg : settings)
  (http : nat -> outcome data) (cancels : nat -> outcome unit) (st : state)
  : state :=
  match Gateway.getOpenOrders http with
  | Return open => cancel_tagged cfg cancels open 0 st
  | Throw e => handleApiError e "cancelAllRelatedOrders" st
  end.

(** What the exchange answers after the take-profit order was filled. *)
Record restart_env := mkRestartEnv {
  open_orders : nat -> outcome data;
  cancels : nat -> outcome unit;
  buys : buys_env
}.

Record env := mkEnv {
  at_ : Z;
  tp : tp_env;
  restart : restart_env
}.

Definition same_symbol (cfg : settings) (s : option string) : bool :=
  match s with
  | Some x => String.eqb x (symbol cfg)
  | None => false
  end.

Definition is_filled (X : option string) : bool :=
  match X with
  | Some x => String.eqb x "FILLED"
  | None => false
  end.

Definition side_is (S : option string) (name : string) : bool :=
  match S with
  | Some x => String.eqb x name
  | None => false
  end.

(** The branch [side === 'BUY'] of [onExecutionReport] *)
Definition on_buy_filled (cfg : settings) (ev : env) (i : Z) (st : state)
  : state :=
  match find (fun b => orderId b =? i) (placedBuys st) with
  | Some buy =>
      if existsb (fun fb => orderId fb =? orderId buy) (filledBuys st) then st
      else
        let st' :=
          mkState (isRunning st) (listening st) (filt st) (placedBuys st)
            (filledBuys st ++ [buy])%list (sellTp st) (Some (at_ ev)) (bot st)
            (log st ++ [EmitFilled "BUY" (orderId buy)])%list in
        ensureTakeProfitSellUpToDate cfg (tp ev) st'
  | None => st
  end.

(** The branch [side === 'SELL'] *)
Definition on_sell_filled (cfg : settings) (ev : env) (i : Z) (st : state)
  : state :=
  match sellTp st with
  | Some cur =>
      if orderId cur =? i then
        match buyStats (filledBuys st) with
        | None => st
        | Some stats =>
            let pnl := (price cur * qty cur - totalValue stats)%float in
            let '(b', effs) := BotManager.updateStats 1%float pnl (bot st) in
            let st' :=
              mkState (isRunning st) (listening st) (filt st) [] [] None
                (lastActivityMs st) b'
                (log st ++ List.map Manager effs
                   ++ [EmitFilled "SELL" (orderId cur)])%list in
            placeBuys cfg (buys (restart ev))
              (cancelAllRelatedOrders cfg (open_orders (restart ev))
                 (cancels (restart ev)) st')
        end
      else st
  | None => st
  end.

(** [onExecutionReport(raw)] *)
Definition onExecutionReport (cfg : settings) (ev : env) (evt : report)
  (st : state) : state :=
  if negb (same_symbol cfg (ev_s evt)) || negb (is_filled (ev_X evt)) then st
  else if side_is (ev_S evt) "BUY" then on_buy_filled cfg ev (ev_i evt) st
  else if side_is (ev_S evt) "SELL" then on_sell_filled cfg ev (ev_i evt) st
  else st.

(** Reports handled one after the other, each with its own answers. *)
Fixpoint run (cfg : settings) (events : list (env * report)) (st : state)
  : state :=
  match events with
  | [] => st
  | (ev, evt) :: rest => run cfg rest (onExecutionReport cfg ev evt st)
  end.

End DcaBuy.

(** ** src/binance/wsClient.js *)

Module WsClient.
Import Js.

(** What a [WebSocket] was opened for. *)
Inductive purpose :=
| UserStream (listenKey : string)
| MarketStream (symbol streamType : string).

(** A socket is live until [close()] or [terminate()] is called on it or
    the peer hangs up; its [close] event is delivered once, later. *)
Inductive phase :=
| Live
| Closing
| Closed.

Record socket := mkSocket {
  opened_for : purpose;
  phase_of : phase
}.

(** The callbacks handed to [setTimeout]. *)
Inductive callback :=
| RecreateUserStream
| Resubscribe (symbol streamType : string).

(** Network activity, in order. *)
Inductive action :=
| RequestListenKey
| Connect (to : purpose)
| KeepAlive (listenKey : string).

(** The fields of [BinanceWS], then the runtime around it: every socket
    created so far (a socket is named by its position), the pending
    timeouts, the running intervals (named by number), the listen-key
    requests in flight, and the network activity so far. *)
Record state := mkState {
  userListenKey : option string;
  userWs : option nat;
  marketWss : list (string * nat);
  keepAliveTimer : option nat;
  closed : bool;
  sockets : list socket;
  timeouts : list callback;
  intervals : list nat;
  next_interval : nat;
  in_flight : nat;
  activity : list action
}.

Definition init : state :=
  mkState None None [] None false [] [] [] 0%nat 0%nat [].

Definition lower_char (c : ascii) : ascii :=
  let n := nat_of_ascii c in
  if (65 <=? n)%nat && (n <=? 90)%nat then ascii_of_nat (n + 32) else c.

(** [String.prototype.toLowerCase] on ASCII letters *)
Fixpoint toLowerCase (s : string) : string :=
  match s with
  | EmptyString => EmptyString
  | String c s' => String (lower_char c) (toLowerCase s')
  end.

Definition stream_of (symbol streamType : string) : string :=
  (toLowerCase symbol ++ "@" ++ streamType)%string.

(** [socket.close()] and [socket.terminate()] *)
Fixpoint hang_up (i : nat) (l : list socket) : list socket :=
  match i, l with
  | _, [] => []
  | O, s :: l' =>
      mkSocket (opened_for s)
        (match phase_of s with
         | Live => Closing
         | p => p
         end) :: l'
  | S i', s :: l' => s :: hang_up i' l'
  end.

Fixpoint set_closed (i : nat) (l : list socket) : list socket :=
  match i, l with
  | _, [] => []
  | O, s :: l' => mkSocket (opened_for s) Closed :: l'
  | S i', s :: l' => s :: set_closed i' l'
  end.

(** [startUserStream()] up to its [await]: the listen key is requested. *)
Definition startUserStream (st : state) : state :=
  mkState (userListenKey st) (userWs st) (marketWss st) (keepAliveTimer st)
    (closed st) (sockets st) (timeouts st) (intervals st) (next_interval st)
    (S (in_flight st)) (activity st ++ [RequestListenKey])%list.

(** [_openUserWS()] *)
Definition openUserWS (st : state) : state :=
  match userListenKey st with
  | None => st
  | Some key =>
      mkState (userListenKey st) (Some (length (sockets st))) (marketWss st)
        (keepAliveTimer st) (closed st)
        (sockets st ++ [mkSocket (UserStream key) Live])%list
        (timeouts st) (intervals st) (next_interval st) (in_flight st)
        (activity st ++ [Connect (UserStream key)])%list
  end.

(** The rest of [startUserStream()], once the request has ended: the key
    is stored, the socket opened and the keepalive interval started; a
    failed request is reported and nothing else happens. *)
Definition listenKeyArrived (answer : outcome string) (st : state) : state :=
  match in_flight st with
  | O => st
  | S n =>
      let st0 :=
        mkState (userListenKey st) (userWs st) (marketWss st)
          (keepAliveTimer st) (closed st) (sockets st) (timeouts st)
          (intervals st) (next_interval st) n (activity st) in
      match answer with
      | Throw _ => st0
      | Return key =>
          let st1 :=
            openUserWS
              (mkState (Some key) (userWs st0) (marketWss st0)
                 (keepAliveTimer st0) (closed st0) (sockets st0) (timeouts st0)
                 (intervals st0) (next_interval st0) (in_flight st0)
                 (activity st0)) in
          mkState (userListenKey st1) (userWs st1) (marketWss st1)
            (Some (next_interval st1)) (closed st1) (sockets st1) (timeouts st1)
            (intervals st1 ++ [next_interval st1])%list (S (next_interval st1))
            (in_flight st1) (activity st1)
      end
  end.

(** [_keepAlive()] *)
Definition keepAlive (st : state) : state :=
  match userListenKey st with
  | None => st
  | Some key =>
      mkState (userListenKey st) (userWs st) (marketWss st) (keepAliveTimer st)
        (closed st) (sockets st) (timeouts st) (intervals st) (next_interval st)
        (in_flight st) (activity st ++ [KeepAlive key])%list
  end.

(** [_recreateUserStream()] *)
Definition recreateUserStream (st : state) : state :=
  if closed st then st else startUserStream st.

(** [subscribeMarketSymbol(symbol, streamType)] *)
Definition subscribeMarketSymbol (symbol streamType : string) (st : state)
  : state :=
  let stream := stream_of symbol streamType in
  match assoc stream (marketWss st) with
  | Some _ => st
  | None =>
      mkState (userListenKey st) (userWs st)
        (marketWss st ++ [(stream, length (sockets st))])%list
        (keepAliveTimer st) (closed st)
        (sockets st ++ [mkSocket (MarketStream symbol streamType) Live])%list
        (timeouts st) (intervals st) (next_interval st) (in_flight st)
        (activity st ++ [Connect (MarketStream symbol streamType)])%list
  end.

Definition schedule (cb : callback) (st : state) : state :=
  mkState (userListenKey st) (userWs st) (marketWss st) (keepAliveTimer st)
    (closed st) (sockets st) (timeouts st ++ [cb])%list (intervals st)
    (next_interval st) (in_flight st) (activity st).

(** The [close] listeners installed by [_openUserWS] and by
    [subscribeMarketSymbol]. *)
Definition on_close (p : purpose) (st : state) : state :=
  match p with
  | UserStream _ =>
      schedule RecreateUserStream
        (mkState (userListenKey st) None (marketWss st) (keepAliveTimer st)
           (closed st) (sockets st) (timeouts st) (intervals st)
           (next_interval st) (in_flight st) (activity st))
  | MarketStream symbol streamType =>
      schedule (Resubscribe symbol streamType)
        (mkState (userListenKey st) (userWs st)
           (List.filter (fun kv => negb (String.eqb (fst kv)
                                      (stream_of symbol streamType)))
              (marketWss st))
           (keepAliveTimer st) (closed st) (sockets st) (timeouts st)
           (intervals st) (next_interval st) (in_flight st) (activity st))
  end.

(** The [close] event of socket [i]; a socket closes once. *)
Definition socketClosed (i : nat) (st : state) : state :=
  match nth_error (sockets st) i with
  | Some s =>
      match phase_of s with
      | Closed => st
      | _ =>
          on_close (opened_for s)
            (mkState (userListenKey st) (userWs st) (marketWss st)
               (keepAliveTimer st) (closed st) (set_closed i (sockets st))
               (timeouts st) (intervals st) (next_interval st) (in_flight st)
               (activity st))
      end
  | None => st
  end.

Fixpoint remove_nth {A} (k : nat) (l : list A) : list A :=
  match k, l with
  | _, [] => []
  | O, _ :: l' => l'
  | S k', x :: l' => x :: remove_nth k' l'
  end.

(** The [k]-th pending timeout fires. *)
Definition timeoutFired (k : nat) (st : state) : state :=
  match nth_error (timeouts st) k with
  | Some cb =>
      let st' :=
        mkState (userListenKey st) (userWs st) (marketWss st)
          (keepAliveTimer st) (closed st) (sockets st)
          (remove_nth k (timeouts st)) (intervals st) (next_interval st)
          (in_flight st) (activity st) in
      match cb with
      | RecreateUserStream => recreateUserStream st'
      | Resubscribe symbol streamType =>
          subscribeMarketSymbol symbol streamType st'
      end
  | None => st
  end.

(** The interval [t] ticks, if it is still running. *)
Definition intervalFired (t : nat) (st : state) : state :=
  if existsb (Nat.eqb t) (intervals st) then keepAlive st else st.

(** [closeAll()] *)
Definition closeAll (st : state) : state :=
  let after_user :=
    match userWs st with
    | Some i => hang_up i (sockets st)
    | None => sockets st
    end in
  let after_market :=
    fold_left (fun l kv => hang_up (snd kv) l) (marketWss st) after_user in
  mkState None (userWs st) [] (keepAliveTimer st) true after_market
    (timeouts st)
    (match keepAliveTimer st with
     | Some t => List.filter (fun t' => negb (Nat.eqb t t')) (intervals st)
     | None => intervals st
     end)
    (next_interval st) (in_flight st) (activity st).

(** What can happen to the stream client: calls made by the application
    and events delivered by the runtime. *)
Inductive event :=
| CallStartUserStream
| ListenKeyAnswer (answer : outcome string)
| CallSubscribe (symbol streamType : string)
| SocketClose (i : nat)
| TimeoutFires (k : nat)
| IntervalFires (t : nat)
| CallCloseAll.

Definition step (e : event) (st : state) : state :=
  match e with
  | CallStartUserStream => startUserStream st
  | ListenKeyAnswer answer => listenKeyArrived answer st
  | CallSubscribe symbol streamType => subscribeMarketSymbol symbol streamType st
  | SocketClose i => socketClosed i st
  | TimeoutFires k => timeoutFired k st
  | IntervalFires t => intervalFired t st
  | CallCloseAll => closeAll st
  end.

Definition run (events : list event) (st : state) : state :=
  fold_left (fun s e => step e s) events st.

(** The connections opened and listen keys requested by a run. *)
Definition is_reconnection (a : action) : bool :=
  match a with
  | RequestListenKey | Connect _ => true
  | KeepAlive _ => false
  end.

Definition reconnections (st : state) : nat :=
  length (List.filter is_reconnection (activity st)).

End WsClient.

(** ** src/services/cache.js *)

Module Cache.
Import Js.

(** An element of [memory]: [{ v, ts }]. *)
Record slot := mkSlot {
  v : data;
  ts : Z
}.

(** The Redis server behind [redisClient]: whether its commands succeed,
    and the text stored under each key. *)
Record redis := mkRedis {
  online : bool;
  stored : gmap string Persistence.content
}.

(** The module's variables; [redisClient] is [null] until [initRedis]. *)
Record state := mkState {
  redisClient : option redis;
  memory : gmap string slot
}.

Definition empty : state := mkState None ∅.

Definition initRedis (client : redis) (st : state) : state :=
  mkState (Some client) (memory st).

(** [setMemory(key, value)] at clock reading [now] *)
Definition setMemory (key : string) (value : data) (now : Z) (st : state)
  : state :=
  mkState (redisClient st) (<[key := mkSlot value now]> (memory st)).

(** [getMemory(key, maxAgeMs)] at clock reading [now]: an entry older than
    [maxAgeMs] is deleted. *)
Definition getMemory (key : string) (maxAgeMs : Z) (now : Z) (st : state)
  : data * state :=
  match memory st !! key with
  | None => (DNull, st)
  | Some e =>
      if maxAgeMs <? now - ts e
      then (DNull, mkState (redisClient st) (delete key (memory st)))
      else (v e, st)
  end.

(** [set(key, value)]: the clock is read at [now] by [setMemory] and at
    [later] for the copy sent to Redis; a failed command is swallowed. *)
Definition set (key : string) (value : data) (now later : Z) (st : state)
  : state :=
  let st1 := setMemory key value now st in
  match redisClient st1 with
  | Some r =>
      if online r then
        match Persistence.stringify
                (DObj [("v", value); ("ts", DNum (JsNumber.of_Z later))]) with
        | Some j =>
            mkState
              (Some (mkRedis (online r)
                       (<[key := Persistence.Doc j]> (stored r))))
              (memory st1)
        | None => st1
        end
      else st1
  | None => st1
  end.

(** [get(key)] at clock reading [now]: what Redis holds, if it holds
    something readable; otherwise [getMemory(key)] with the default
    [maxAgeMs = 30_000]. *)
Definition get (key : string) (now : Z) (st : state) : data * state :=
  let fallback := getMemory key 30000 now st in
  match redisClient st with
  | Some r =>
      if online r then
        match stored r !! key with
        | Some (Persistence.Doc j) =>
            match prop "v" (Persistence.parse j) with
            | Return x => (x, st)
            | Throw _ => fallback
            end
        | Some Persistence.Garbage => fallback
        | None => fallback
        end
      else fallback
  | None => fallback
  end.

End Cache.

(** ** src/binance/client.js: the clock offset *)

Module ClockSync.
Import Js.

(** What [getServerTime()] resolved to: a number (the exchange's clock, in
    whole milliseconds), or a value that is not a number. *)
Inductive reading :=
| Millis (serverTime : Z)
| NotANumber.

(** [syncTime()]: the clock is read at [before] and, once the answer is
    there, at [after]; the result is the new [timeOffset].  A failed
    request and an answer that is not a number leave the offset as it
    was. *)
Definition syncTime (before after : Z) (answer : outcome reading)
  (timeOffset : Z) : Z :=
  match answer with
  | Return (Millis serverTime) =>
      let rtt := after - before in
      let localNow := after - rtt / 2 in
      serverTime - localNow
  | Return NotANumber => timeOffset
  | Throw _ => timeOffset
  end.

(** The [timestamp] of a signed request made at clock reading [now]:
    [Date.now() + (this.timeOffset || 0)] *)
Definition timestamp (now timeOffset : Z) : Z :=
  now + (if timeOffset =? 0 then 0 else timeOffset).

End ClockSync.

(** ** src/core/botManager.js: the rest of the registry *)

Module BotRegistry.
Import JsNumber Js BotManager.

(** [getBot(id)]; [None] is [undefined]. *)
Definition getBot (botId : string) (m : manager) : option bot :=
  map_get botId (bots m).

(** [Map.prototype.delete] *)
Definition map_delete (key : string) (l : list (string * bot))
  : list (string * bot) :=
  List.filter (fun kb => negb (String.eqb (fst kb) key)) l.

(** [removeBot(id)]: the registry and the data directory afterwards.  The
    runner is not asked to stop. *)
Definition removeBot (botId : string) (m : manager) (d : Persistence.disk)
  : manager * Persistence.disk :=
  match getBot botId m with
  | None => (m, d)
  | Some _ =>
      (mkManager (map_delete botId (bots m))
         (log m ++ [CleanupSubscriptions botId]),
       Persistence.deleteBotState botId d)
  end.

(** The test [savedState && savedState.name] that [loadBotsFromDisk]
    makes on what [loadBotState] returned. *)
Definition is_valid_state (savedState : data) : bool :=
  is_truthy savedState
  && match prop "name" savedState with
     | Return name => is_truthy name
     | Throw _ => false
     end.

(** [_formatDuration(ms)] for a whole number of milliseconds, as the
    differences of clock readings are: on these [Math.floor(ms / 1000)] is
    the quotient, and a whole number below [1e21] prints as its digits. *)
Definition formatDuration (ms : Z) : string :=
  if (ms =? 0) || (ms <? 1000) then "None"
  else
    let seconds := ms / 1000 in
    let hours := seconds / 3600 in
    let minutes := (seconds mod 3600) / 60 in
    let remainingSeconds := seconds mod 60 in
    if 0 <? hours then
      (digits_of hours ++ "h " ++ digits_of minutes ++ "m "
         ++ digits_of remainingSeconds ++ "s")%string
    else if 0 <? minutes then
      (digits_of minutes ++ "m " ++ digits_of remainingSeconds ++ "s")%string
    else (digits_of remainingSeconds ++ "s")%string.

(** The field [durationDisplay] of a row of [listBots()] *)
Definition durationDisplay (now : Z) (b : bot) : string :=
  formatDuration (currentDurationMs (list_row now b)).

End BotRegistry.

(** ** src/server.js *)

Module Server.
Import Js BotManager.

Inductive runner :=
| GridRunner
| DcaBuyRunner
| DcaSellRunner.

(** [runnerFactoryFor(strategy, args)] *)
Definition runnerFactoryFor (strategy : string) : outcome runner :=
  if String.eqb strategy "grid" then Return GridRunner
  else if String.eqb strategy "dca_buy" then Return DcaBuyRunner
  else if String.eqb strategy "dca_sell" then Return DcaSellRunner
  else Throw (mkError "Unknown strategy" None None).

(** The factory handed to [createBot] and to [loadBotsFromDisk],
    [bot => runnerFactoryFor(bot.strategy, ...)]: whether it returns. *)
Definition runnerFactory (b : bot) : bool :=
  match runnerFactoryFor (strategy b) with
  | Return _ => true
  | Throw _ => false
  end.

(** One round of the loop of [shutdown]:
    [if (bot && bot.status === 'running') await bot.stop()], the clock
    reading [t]. *)
Definition stop_if_running (botId : string) (t : Z) (m : manager) : manager :=
  match BotRegistry.getBot botId m with
  | Some b => if is_running b then call (stop t) botId m else m
  | None => m
  end.

(** The loop over the rows of [listBots()]; the [i]-th round reads the
    clock at [clock i]. *)
Fixpoint stop_running (ids : list string) (clock : nat -> Z) (i : nat)
  (m : manager) : manager :=
  match ids with
  | [] => m
  | botId :: rest =>
      stop_running rest clock (S i) (stop_if_running botId (clock i) m)
  end.

(** [shutdown(signal)] up to [process.exit]: the stream client and the
    registry afterwards. *)
Definition shutdown (clock : nat -> Z) (ws : WsClient.state) (m : manager)
  : WsClient.state * manager :=
  (WsClient.closeAll ws,
   stop_running (List.map r_id (listBots (clock 0%nat) m)) clock 1 m).

End Server.

(** ** src/strategies/grid.js: reconciliation and shutdown of the runner *)

Module GridRunner.
Import JsNumber Js MathUtil Exchange Grid.

(** [Array.prototype.filter] with a callback that may throw *)
Fixpoint filterM {A} (p : A -> outcome bool) (l : list A) : outcome (list A) :=
  match l with
  | [] => Return []
  | x :: l' =>
      (let* keep := p x in
       let* rest := filterM p l' in
       Return (if keep then x :: rest else rest))%outcome
  end.

(** [o.clientOrderId && o.clientOrderId.startsWith(botTag + '-')] on an
    element of what [getOpenOrders] returned; only a string has
    [startsWith]. *)
Definition tagged (cfg : settings) (o : Gateway.view) : outcome bool :=
  match Gateway.view_prop "clientOrderId" o with
  | None => Return false
  | Some (Gateway.Copy (DStr s)) =>
      Return (negb (String.eqb s "")
              && String.prefix (botTag cfg ++ "-")%string s)
  | Some (Gateway.Copy v) =>
      if is_truthy v
      then Throw (TypeError "o.clientOrderId.startsWith is not a function")
      else Return false
  | Some (Gateway.NewDate _) =>
      Throw (TypeError "o.clientOrderId.startsWith is not a function")
  end.

(** [stop()] of the runner: the state it leaves, and the [orderId]
    arguments of the cancellations it asked for.  [http] answers the signed
    request made by [getOpenOrders]; how the cancellations end is only
    logged. *)
Definition stop (cfg : settings) (http : nat -> outcome data) (st : state)
  : state * list (option Gateway.cell) :=
  if negb (isRunning st) then (st, [])
  else
    let cancellations :=
      match Gateway.getOpenOrders http with
      | Return openOrders =>
          match filterM (tagged cfg) openOrders with
          | Return botOrders => List.map (Gateway.view_prop "orderId") botOrders
          | Throw _ => []
          end
      | Throw _ => []
      end in
    (persist (mkState false (filt st) [] [] (bot st) (log st)), cancellations).

(** [finalStatus && (finalStatus.status === 'FILLED' ||
     finalStatus.status === 'PARTIALLY_FILLED')] *)
Definition was_filled (finalStatus : data) : bool :=
  is_truthy finalStatus
  && match prop "status" finalStatus with
     | Return (DStr s) => String.eqb s "FILLED" || String.eqb s "PARTIALLY_FILLED"
     | _ => false
     end.

(** What the exchange answers during one reconciliation: the signed
    request of [getOpenOrders], then, for the order at position [k] of
    [gridOrders], [getOrder] and the calls made by [placeOrder]. *)
Record reconcile_env := mkReconcileEnv {
  open_orders : nat -> outcome data;
  final_status : nat -> outcome data;
  place_again : nat -> env
}.

(** [await placeOrder(internalOrder); persist()] for the order at position
    [k]: [placeOrder] updates the order where it is. *)
Definition replace_order (cfg : settings) (ev : env) (k : nat) (o : order)
  (st : state) : state :=
  let '(o', effs, stopped) := placeOrder cfg (filt st) ev o in
  let st' :=
    mkState (isRunning st) (filt st) (<[k := o']> (gridOrders st))
      (unmatchedBuys st) (bot st) (log st ++ effs)%list in
  persist (if stopped then stop_bot (now ev) st' else st').

Section Reconciliation.
(** [o.orderId.toString()] on a property of an element of what
    [getOpenOrders] returned. *)
Variable text_of : Gateway.cell -> outcome string.

Definition exchange_id (o : Gateway.view) : outcome string :=
  match Gateway.view_prop "orderId" o with
  | Some c => text_of c
  | None =>
      Throw (TypeError "Cannot read properties of undefined (reading 'toString')")
  end.

(** The body of the loop over [internalOpenOrders], for the order [o] at
    position [k]; [ids] is [openOrderIdsOnExchange]. *)
Definition reconcile_one (cfg : settings) (ev : reconcile_env)
  (ids : list string) (k : nat) (o : order) (st : state) : state :=
  match orderId o with
  | Some j =>
      if negb (j =? 0) && negb (existsb (String.eqb (show_time j)) ids) then
        match final_status ev k with
        | Return finalStatus =>
            if was_filled finalStatus then st
            else replace_order cfg (place_again ev k) k o st
        | Throw e =>
            if has_code e (-2013)
            then replace_order cfg (place_again ev k) k o st
            else st
        end
      else st
  | None => st
  end.

Fixpoint reconcile_each (cfg : settings) (ev : reconcile_env)
  (ids : list string) (todo : list (nat * order)) (st : state) : state :=
  match todo with
  | [] => st
  | (k, o) :: rest =>
      reconcile_each cfg ev ids rest (reconcile_one cfg ev ids k o st)
  end.

(** [gridOrders.filter(o => o.status === 'open')], each order with its
    position. *)
Definition internalOpenOrders (st : state) : list (nat * order) :=
  List.filter (fun ko => String.eqb (status (snd ko)) "open")
    (combine (seq 0 (length (gridOrders st))) (gridOrders st)).

(** [reconcileOrders()]; whatever is thrown inside is caught and logged. *)
Definition reconcileOrders (cfg : settings) (ev : reconcile_env) (st : state)
  : state :=
  if negb (isRunning st) then st
  else
    match Gateway.getOpenOrders (open_orders ev) with
    | Return openOrdersOnExchange =>
        match mapM exchange_id openOrdersOnExchange with
        | Return ids => reconcile_each cfg ev ids (internalOpenOrders st) st
        | Throw _ => st
        end
    | Throw _ => st
    end.

End Reconciliation.

(** [Object] property assignment: an existing key keeps its place. *)
Fixpoint obj_set (key : string) (v : data) (props : list (string * data))
  : list (string * data) :=
  match props with
  | [] => [(key, v)]
  | (k, x) :: rest =>
      if String.eqb k key then (k, v) :: rest else (k, x) :: obj_set key v rest
  end.

(** The object [persist()] hands to [saveBotState]:
    [{ ...bot.config, stats, orders, unmatchedBuys, initialStartPrice }],
    [config] being the properties of [bot.config]. *)
Definition persisted (config : list (string * data))
  (stats orders unmatchedBuys initialStartPrice : data) : data :=
  DObj (obj_set "initialStartPrice" initialStartPrice
          (obj_set "unmatchedBuys" unmatchedBuys
             (obj_set "orders" orders (obj_set "stats" stats config)))).

End GridRunner.

(** ** src/strategies/dcaSell.js *)

Module DcaSell.
Import JsNumber Js MathUtil Exchange.

(** The runner is built like the DCA-Buy runner and shares its records:
    the elements of [placedSells] and [filledSells] and the shape of
    [buyBack] are [DcaBuy.placement]s, the constants read from [bot.config]
    are [DcaBuy.settings], and the same effects are recorded. *)
Record state := mkState {
  isRunning : bool;
  listening : bool;
  filt : filters;
  placedSells : list DcaBuy.placement;
  filledSells : list DcaBuy.placement;
  buyBack : option DcaBuy.placement;
  lastActivityMs : option Z;
  bot : BotManager.bot;
  log : list DcaBuy.effect
}.

Definition set_buyBack (bb : option DcaBuy.placement) (st : state) : state :=
  mkState (isRunning st) (listening st) (filt st) (placedSells st)
    (filledSells st) bb (lastActivityMs st) (bot st) (log st).

Definition say (effs : list DcaBuy.effect) (st : state) : state :=
  mkState (isRunning st) (listening st) (filt st) (placedSells st)
    (filledSells st) (buyBack st) (lastActivityMs st) (bot st)
    (log st ++ effs)%list.

(** [stop()] up to its first [await]: the flag, the listener. *)
Definition stop (st : state) : state :=
  if isRunning st then
    mkState false false (filt st) (placedSells st) (filledSells st)
      (buyBack st) (lastActivityMs st) (bot st)
      (log st ++ [DcaBuy.RunnerStop])%list
  else st.

(** [handleApiError(error, context)] *)
Definition handleApiError (e : error) (context : string) (st : state) : state :=
  match response_code e with
  | Some code =>
      if existsb (Z.eqb code) DcaBuy.FATAL_CODES
      then stop (say [DcaBuy.EmitBotError context (Some code)] st)
      else say [DcaBuy.Warn context] st
  | None => say [DcaBuy.Warn context] st
  end.

(** [sellStats()]; [None] is [null]. *)
Definition sellStats (filledSells : list DcaBuy.placement)
  : option DcaBuy.totals :=
  match filledSells with
  | [] => None
  | _ =>
      let quantity :=
        fold_left (fun a b => (a + DcaBuy.qty b)%float) filledSells 0%float in
      let value :=
        fold_left (fun a b => (a + DcaBuy.qty b * DcaBuy.price b)%float)
          filledSells 0%float in
      Some (DcaBuy.mkTotals (value / quantity)%float quantity value)
  end.

(** The buy-back price and quantity wanted for the filled sells. *)
Definition desired (f : filters) (tp : number) (t : DcaBuy.totals)
  : number * number :=
  (roundToTickSize (DcaBuy.avg t - tp)%float (tickSize f),
   roundToStepSize (DcaBuy.totalQty t) (stepSize f)).

(** The first half of [ensureBuyBackUpToDate]: cancel a buy-back order
    that is out of date. *)
Definition cancel_stale (ev : DcaBuy.tp_env) (want : number * number)
  (st : state) : state :=
  match buyBack st with
  | Some cur =>
      if DcaBuy.out_of_date (filt st) cur want then
        match DcaBuy.canceled ev with
        | Return _ =>
            set_buyBack None
              (say [ DcaBuy.CancelOrder (DcaBuy.orderId cur);
                     DcaBuy.EmitCanceled (DcaBuy.orderId cur) ] st)
        | Throw e =>
            let st' := say [DcaBuy.CancelOrder (DcaBuy.orderId cur)] st in
            if has_code e (-2011) then set_buyBack None st'
            else
              handleApiError e
                ("cancel buyBack order " ++ DcaBuy.show_time (DcaBuy.orderId cur))%string
                st'
        end
      else st
  | None => st
  end.

(** The second half: place the order when there is none. *)
Definition place_missing (cfg : DcaBuy.settings) (ev : DcaBuy.tp_env)
  (want : number * number) (st : state) : state :=
  match buyBack st with
  | Some _ => st
  | None =>
      let clientOrderId :=
        (DcaBuy.botTag cfg ++ "-" ++ DcaBuy.show_time (DcaBuy.now ev)
           ++ "-B-BB")%string in
      let call :=
        DcaBuy.NewOrder "BUY" (toString (snd want)) (toString (fst want))
          clientOrderId in
      match DcaBuy.placed ev with
      | Return id =>
          set_buyBack
            (Some (DcaBuy.mkPlacement id clientOrderId (fst want) (snd want)))
            (say [call; DcaBuy.EmitPlaced "BUY" (fst want) (snd want) id] st)
      | Throw e =>
          handleApiError e "place initial/replace buyBack" (say [call] st)
      end
  end.

(** [ensureBuyBackUpToDate()] *)
Definition ensureBuyBackUpToDate (cfg : DcaBuy.settings) (ev : DcaBuy.tp_env)
  (st : state) : state :=
  match DcaBuy.takeProfit cfg with
  | None => st
  | Some tp =>
      if negb (truthy tp) then st
      else
        match sellStats (filledSells st) with
        | None => st
        | Some stats =>
            let want := desired (filt st) tp stats in
            if (snd want <=? 0)%float then st
            else place_missing cfg ev want (cancel_stale ev want st)
        end
  end.

(** What the exchange answers while the sells are placed again:
    [exchangeInfo] ([None] when the symbol is not listed, otherwise the
    tick and step sizes of the filters that are present), [getPrice],
    [newOrder] for level [i], and the clock at level [i]. *)
Record sells_env := mkSellsEnv {
  info : outcome (option (option number * option number));
  ticker : outcome number;
  sell_placed : nat -> outcome Z;
  sell_time : nat -> Z;
  done_at : Z
}.

(** [loadFilters()]: a filter that is missing leaves the increment as it
    is. *)
Definition loadFilters (ev : sells_env) (st : state) : state :=
  match info ev with
  | Return (Some (priceFilter, lotFilter)) =>
      mkState (isRunning st) (listening st)
        (mkFilters (default (tickSize (filt st)) priceFilter)
           (default (stepSize (filt st)) lotFilter))
        (placedSells st) (filledSells st) (buyBack st) (lastActivityMs st)
        (bot st) (log st)
  | Return None => stop st
  | Throw e => handleApiError e "loadFilters" st
  end.

(** The loop of [placeSells] over the levels [i .. gridLevels], [todo]
    levels being left; [seen] is the set [placed]. *)
Fixpoint place_levels (cfg : DcaBuy.settings) (ev : sells_env) (base : number)
  (todo i : nat) (seen : list number) (st : state) : state :=
  match todo with
  | O => st
  | S todo' =>
      let p :=
        roundToTickSize
          (base + DcaBuy.gridSpread cfg * of_Z (Z.of_nat i))%float
          (tickSize (filt st)) in
      if existsb (DcaBuy.same_value_zero p) seen
      then place_levels cfg ev base todo' (S i) seen st
      else
        let q := roundToStepSize (DcaBuy.orderSize cfg) (stepSize (filt st)) in
        let clientOrderId :=
          (DcaBuy.botTag cfg ++ "-" ++ DcaBuy.show_time (sell_time ev i)
             ++ "-S-" ++ DcaBuy.show_time (Z.of_nat i))%string in
        let call :=
          DcaBuy.NewOrder "SELL" (toString q) (toString p) clientOrderId in
        match sell_placed ev i with
        | Return id =>
            let st' :=
              mkState (isRunning st) (listening st) (filt st)
                (placedSells st ++ [DcaBuy.mkPlacement id clientOrderId p q])%list
                (filledSells st) (buyBack st) (lastActivityMs st) (bot st)
                (log st ++ [call; DcaBuy.EmitPlaced "SELL" p q id])%list in
            place_levels cfg ev base todo' (S i) (p :: seen) st'
        | Throw e =>
            place_levels cfg ev base todo' (S i) seen
              (handleApiError e
                 ("placeSells loop for price " ++ toString p)%string
                 (say [call] st))
        end
  end.

(** [placeSells()] *)
Definition placeSells (cfg : DcaBuy.settings) (ev : sells_env) (st : state)
  : state :=
  let st1 := loadFilters ev st in
  match ticker ev with
  | Return base =>
      let st2 := place_levels cfg ev base (DcaBuy.gridLevels cfg) 1 [] st1 in
      mkState (isRunning st2) (listening st2) (filt st2) (placedSells st2)
        (filledSells st2) (buyBack st2) (Some (done_at ev)) (bot st2) (log st2)
  | Throw e => handleApiError e "placeSells getPrice" st1
  end.

(** [o.clientOrderId?.startsWith(botTag + '-')] on an element of what
    [getOpenOrders] returned; only a string has [startsWith]. *)
Definition tagged (cfg : DcaBuy.settings) (o : Gateway.view) : outcome bool :=
  match Gateway.view_prop "clientOrderId" o with
  | None => Return false
  | Some (Gateway.Copy (DStr s)) =>
      Return (String.prefix (DcaBuy.botTag cfg ++ "-")%string s)
  | Some (Gateway.Copy DUndefined) | Some (Gateway.Copy DNull) => Return false
  | Some _ =>
      Throw (TypeError "o.clientOrderId?.startsWith is not a function")
  end.

(** The loop of [cancelAllRelatedOrders] over the orders [getOpenOrders]
    returned; [cancels i] is how the cancellation of the [i]-th one ends.
    What the test of the tag throws ends the loop and is handed to
    [handleApiError]. *)
Fixpoint cancel_tagged (cfg : DcaBuy.settings) (cancels : nat -> outcome unit)
  (open : list Gateway.view) (i : nat) (st : state) : state :=
  match open with
  | [] => st
  | o :: rest =>
      match tagged cfg o with
      | Return true =>
          let id := Gateway.view_prop "orderId" o in
          let st' :=
            match cancels i with
            | Return _ =>
                say [DcaBuy.CancelOpenOrder id; DcaBuy.EmitCanceledOpen id] st
            | Throw e =>
                if has_code e (-2011) then say [DcaBuy.CancelOpenOrder id] st
                else
                  handleApiError e "cancelAll loop"
                    (say [DcaBuy.CancelOpenOrder id] st)
            end in
          cancel_tagged cfg cancels rest (S i) st'
      | Return false => cancel_tagged cfg cancels rest (S i) st
      | Throw e => handleApiError e "cancelAllRelatedOrders" st
      end
  end.

(** [cancelAllRelatedOrders()]: [http] answers the signed request made by
    [getOpenOrders]. *)
Definition cancelAllRelatedOrders (cfg : DcaBuy.settings)
  (http : nat -> outcome data) (cancels : nat -> outcome unit) (st : state)
  : state :=
  match Gateway.getOpenOrders http with
  | Return open => cancel_tagged cfg cancels open 0 st
  | Throw e => handleApiError e "cancelAllRelatedOrders" st
  end.

(** What the exchange answers after the buy-back order was filled. *)
Record restart_env := mkRestartEnv {
  open_orders : nat -> outcome data;
  cancels : nat -> outcome unit;
  sells : sells_env
}.

Record env := mkEnv {
  at_ : Z;
  bb : DcaBuy.tp_env;
  restart : restart_env
}.

(** The branch [side === 'SELL'] of [onExecutionReport] *)
Definition on_sell_filled (cfg : DcaBuy.settings) (ev : env) (i : Z)
  (st : state) : state :=
  match find (fun s => DcaBuy.orderId s =? i) (placedSells st) with
  | Some sell =>
      if existsb (fun fs => DcaBuy.orderId fs =? DcaBuy.orderId sell)
           (filledSells st)
      then st
      else
        let st' :=
          mkState (isRunning st) (listening st) (filt st) (placedSells st)
            (filledSells st ++ [sell])%list (buyBack st) (Some (at_ ev))
            (bot st)
            (log st ++ [DcaBuy.EmitFilled "SELL" (DcaBuy.orderId sell)])%list in
        ensureBuyBackUpToDate cfg (bb ev) st'
  | None => st
  end.

(** The branch [side === 'BUY'] *)
Definition on_buy_filled (cfg : DcaBuy.settings) (ev : env) (i : Z)
  (st : state) : state :=
  match buyBack st with
  | Some cur =>
      if DcaBuy.orderId cur =? i then
        match sellStats (filledSells st) with
        | None => st
        | Some stats =>
            let pnl :=
              (DcaBuy.totalValue stats
               - DcaBuy.price cur * DcaBuy.qty cur)%float in
            let '(b', effs) := BotManager.updateStats 1%float pnl (bot st) in
            let st' :=
              mkState (isRunning st) (listening st) (filt st) [] [] None
                (lastActivityMs st) b'
                (log st ++ List.map DcaBuy.Manager effs
                   ++ [DcaBuy.EmitFilled "BUY" (DcaBuy.orderId cur)])%list in
            placeSells cfg (sells (restart ev))
              (cancelAllRelatedOrders cfg (open_orders (restart ev))
                 (cancels (restart ev)) st')
        end
      else st
  | None => st
  end.

(** [onExecutionReport(raw)] *)
Definition onExecutionReport (cfg : DcaBuy.settings) (ev : env)
  (evt : DcaBuy.report) (st : state) : state :=
  if negb (DcaBuy.same_symbol cfg (DcaBuy.ev_s evt))
     || negb (DcaBuy.is_filled (DcaBuy.ev_X evt))
  then st
  else if DcaBuy.side_is (DcaBuy.ev_S evt) "SELL"
  then on_sell_filled cfg ev (DcaBuy.ev_i evt) st
  else if DcaBuy.side_is (DcaBuy.ev_S evt) "BUY"
  then on_buy_filled cfg ev (DcaBuy.ev_i evt) st
  else st.

End DcaSell.

(** ** Scenarios and the vocabulary of the statements *)

(** One open order as the exchange reports it. *)
Definition sample_exchange_order : Js.data :=
  Js.DObj [ ("symbol", Js.DStr "BTCUSDT"); ("orderId", Js.DNum 28%float);
            ("clientOrderId", Js.DStr "1f0c-1700000000000-B-k3x9q");
            ("price", Js.DStr "29990.00"); ("origQty", Js.DStr "0.00001");
            ("executedQty", Js.DStr "0.00000"); ("status", Js.DStr "NEW");
            ("timeInForce", Js.DStr "GTC"); ("side", Js.DStr "BUY");
            ("time", Js.DNum 1700000000000%float);
            ("updateTime", Js.DNum 1700000000000%float) ].

Definition empty_disk : Persistence.disk := Persistence.mkDisk ∅ ∅.

(** A snapshot as [_persistBot] writes it for a freshly created bot. *)
Definition sample_state : Js.data :=
  Js.DObj [ ("name", Js.DStr "btc grid"); ("strategy", Js.DStr "grid");
            ("symbol", Js.DStr "BTCUSDT"); ("status", Js.DStr "stopped");
            ("config", Js.DObj [ ("gridLevels", Js.DNum 2%float);
                                 ("gridSpread", Js.DNum 10%float);
                                 ("orderSize", Js.DNum 0.001%float);
                                 ("timeCreated", Js.DNum 1700000000000%float);
                                 ("timeStarted", Js.DNull);
                                 ("timeStopped", Js.DNull) ]);
            ("stats", Js.DObj [ ("completedRounds", Js.DNum 0%float);
                                ("realizedPnl", Js.DNum 0%float);
                                ("lastDurationMs", Js.DNum 0%float) ]) ].

(** A snapshot persisted while the bot was running since [T0]. *)
Definition running_since (saved : BotManager.snapshot) (T0 : Z) : Prop :=
  BotManager.s_status saved = Some "running"
  /\ exists cfg,
       BotManager.s_config saved = Some cfg
       /\ BotManager.timeStarted cfg = Some T0.

(** The snapshot of scenario S5: running since [T0], seven rounds done. *)
Definition snapshot_S5 (T0 : Z) : BotManager.snapshot :=
  BotManager.mkSnapshot (Some "btc grid") "grid" "BTCUSDT" (Some "running")
    (Some (BotManager.mkConfig [("gridLevels", Js.DNum 2%float)]
             (Some (T0 - 5000)) (Some T0) None))
    (Some (BotManager.mkStats (Some 7%float) (Some 1.5%float) (Some 0))).

(** Scenario S5 from the beginning: a bot is created and started at [T0];
    the process is restarted an hour later with what is on disk. *)
Definition S5_before_restart (T0 : Z) : BotManager.manager :=
  BotManager.step (fun _ => true) (BotManager.Start "b1" T0)
    (BotManager.step (fun _ => true)
       (BotManager.CreateBot "b1" "btc grid" "grid" "BTCUSDT" [] (T0 - 5000))
       BotManager.empty).

Definition S5_after_restart (T0 : Z) : BotManager.manager :=
  BotManager.loadBotsFromDisk (fun _ => true)
    [BotManager.mkEntry "b1"
       (BotManager.on_disk "b1" (BotManager.log (S5_before_restart T0)))
       (T0 + 3600000)]
    BotManager.empty.

(** A bot is created, started, stopped and started again. *)
Definition lifecycle_script : list BotManager.op :=
  [ BotManager.CreateBot "b1" "btc grid" "grid" "BTCUSDT" [] 1000;
    BotManager.Start "b1" 2000;
    BotManager.Stop "b1" 5000;
    BotManager.Start "b1" 9000 ].

Definition lifecycle_final : BotManager.manager :=
  fold_left (fun m o => BotManager.step (fun _ => true) o m) lifecycle_script
    BotManager.empty.

Definition lifecycle_bot : BotManager.bot :=
  BotManager.mkBot "b1" (Some "btc grid") "grid" "BTCUSDT" "running"
    (BotManager.mkConfig [] (Some 1000) (Some 2000) None)
    (BotManager.mkStats (Some 0%float) (Some 0%float) (Some 3000))
    (Some 2000).

(** Scenario S1: two levels around 30000 with a spread of 10. *)
Definition S1_settings : Grid.settings :=
  Grid.mkSettings "BTCUSDT" 0.001%float 10%float "1f0c".

Definition S1_bot : BotManager.bot :=
  BotManager.mkBot "1f0c-77" (Some "btc grid") "grid" "BTCUSDT" "running"
    (BotManager.mkConfig [] (Some 1000) (Some 2000) None)
    (BotManager.mkStats (Some 0%float) (Some 0%float) (Some 0)) (Some 2000).

Definition S1_order (id : Z) (side : string) (p : JsNumber.number) : Grid.order :=
  Grid.mkOrder (Some id) (Some "1f0c-2000-x") p side "open" (Some 0.00001%float).

Definition S1_state : Grid.state :=
  Grid.mkState true (Exchange.mkFilters 0.01%float 0.00001%float)
    [ S1_order 101 "BUY" 29990%float; S1_order 102 "SELL" 30010%float;
      S1_order 103 "BUY" 29980%float; S1_order 104 "SELL" 30020%float ]
    [] S1_bot [].

Definition S1_fill (side : string) (id : Z) : Grid.report :=
  Grid.mkReport (Some "BTCUSDT") (Some "FILLED") (Some side) (Some id)
    (Some "0.00001000").

Definition S1_env (t newId : Z) : Grid.env :=
  Grid.mkEnv t "k3x9q" (Js.Return newId) t (Js.Return newId).


(** Scenario S3: three buys of one unit at 100, 90 and 80, take profit 5. *)
Definition S3_settings : DcaBuy.settings :=
  DcaBuy.mkSettings "BTCUSDT" 3 10%float 1%float (Some 5%float) "9a1b".

Definition S3_buy (id : Z) (p : JsNumber.number) : DcaBuy.placement :=
  DcaBuy.mkPlacement id "9a1b-2000-B" p 1%float.

Definition S3_bot : BotManager.bot :=
  BotManager.mkBot "9a1b-42" (Some "dca") "dca_buy" "BTCUSDT" "running"
    (BotManager.mkConfig [] (Some 1000) (Some 2000) None)
    (BotManager.mkStats (Some 0%float) (Some 0%float) (Some 0)) (Some 2000).

Definition S3_state : DcaBuy.state :=
  DcaBuy.mkState true true Exchange.initial_filters
    [S3_buy 1 100%float; S3_buy 2 90%float; S3_buy 3 80%float] [] None None
    S3_bot [].

Definition S3_fill (id : Z) : DcaBuy.report :=
  DcaBuy.mkReport (Some "BTCUSDT") (Some "FILLED") (Some "BUY") id.

(** The exchange accepts every call; the new order gets the id [newId]. *)
Definition S3_env (t newId : Z) : DcaBuy.env :=
  DcaBuy.mkEnv t (DcaBuy.mkTpEnv t (Js.Return tt) (Js.Return newId))
    (DcaBuy.mkRestartEnv (fun _ => Js.Return (Js.DArr []))
       (fun _ => Js.Return tt)
       (DcaBuy.mkBuysEnv (Js.Return None) (Js.Return 100%float)
          (fun _ => Js.Return 0) (fun _ => t) t)).

Definition S3_after_one : DcaBuy.state :=
  DcaBuy.onExecutionReport S3_settings (S3_env 3000 11) (S3_fill 1) S3_state.

Definition S3_after_two : DcaBuy.state :=
  DcaBuy.onExecutionReport S3_settings (S3_env 4000 12) (S3_fill 2) S3_after_one.

Definition S3_after_three : DcaBuy.state :=
  DcaBuy.onExecutionReport S3_settings (S3_env 5000 13) (S3_fill 3) S3_after_two.

(** The application subscribes to one market stream and shuts down. *)
Definition market_shutdown : WsClient.state :=
  WsClient.run [WsClient.CallSubscribe "BTCUSDT" "kline_1m"; WsClient.CallCloseAll]
    WsClient.init.

(** Then the terminated socket delivers its [close] event and the timeout
    set by its listener fires. *)
Definition market_after_close_event : WsClient.state :=
  WsClient.run [WsClient.SocketClose 0; WsClient.TimeoutFires 0] market_shutdown.

(** The same with the user stream. *)
Definition user_shutdown : WsClient.state :=
  WsClient.run
    [ WsClient.CallStartUserStream; WsClient.ListenKeyAnswer (Js.Return "lk1");
      WsClient.CallCloseAll ]
    WsClient.init.

Definition user_after_close_event : WsClient.state :=
  WsClient.run [WsClient.SocketClose 0; WsClient.TimeoutFires 0] user_shutdown.

(** ** Vocabulary of the further properties *)

(** No order of [new] has the price of an order before it or a price in
    [seen], prices being compared as [Set.prototype.has] does. *)
Fixpoint fresh_prices (seen : list JsNumber.number)
  (new : list DcaBuy.placement) : bool :=
  match new with
  | [] => true
  | b :: rest =>
      negb (existsb (DcaBuy.same_value_zero (DcaBuy.price b)) seen)
      && fresh_prices (DcaBuy.price b :: seen) rest
  end.

(** A request to cancel an order. *)
Definition is_cancellation (e : DcaBuy.effect) : bool :=
  match e with
  | DcaBuy.CancelOrder _ | DcaBuy.CancelOpenOrder _ => true
  | _ => false
  end.

(** [st'] is [st] with buys appended to [placedBuys] and effects appended
    to the log: at most [bound] buys, at pairwise different prices that are
    not in [seen], each for the quantity [floor_step(orderSize)] under the
    filters [f] and with an id given by the exchange; no effect is a
    cancellation; the filled buys, the take-profit order and the bot are
    those of [st]. *)
Definition placed_more (cfg : DcaBuy.settings) (ev : DcaBuy.buys_env)
  (seen : list JsNumber.number) (bound : nat) (f : Exchange.filters)
  (st st' : DcaBuy.state) : Prop :=
  exists new more,
    DcaBuy.placedBuys st' = (DcaBuy.placedBuys st ++ new)%list
    /\ fresh_prices seen new = true
    /\ (length new <= bound)%nat
    /\ Forall (fun b =>
                 DcaBuy.qty b
                 = MathUtil.roundToStepSize (DcaBuy.orderSize cfg)
                     (Exchange.stepSize f)
                 /\ exists k,
                      DcaBuy.buy_placed ev k = Js.Return (DcaBuy.orderId b))
         new
    /\ DcaBuy.log st' = (DcaBuy.log st ++ more)%list
    /\ forallb (fun e => negb (is_cancellation e)) more = true
    /\ DcaBuy.filledBuys st' = DcaBuy.filledBuys st
    /\ DcaBuy.sellTp st' = DcaBuy.sellTp st
    /\ DcaBuy.bot st' = DcaBuy.bot st.

(** A bot id that is a file name: no path separator in it. *)
Definition plain_id (botId : string) : bool :=
  forallb (fun c => negb (Ascii.eqb c "/" || Ascii.eqb c "\"))
    (list_ascii_of_string botId).

(** The registry is keyed by the bots' own ids. *)
Definition keyed_by_id (m : BotManager.manager) : Prop :=
  forall k b, In (k, b) (BotManager.bots m) -> BotManager.id b = k.

(** For the reconciliation [ev] with the exchange's ids [ids]: the order
    [o] at position [k] has an id the exchange did not list, was not filled
    according to [getOrder], and has a positive quantity under the filters
    [f]. *)
Definition looks_missing (cfg : Grid.settings) (ev : GridRunner.reconcile_env)
  (ids : list string) (f : Exchange.filters) (k : nat) (o : Grid.order)
  : Prop :=
  (exists j, Grid.orderId o = Some j /\ j <> 0
             /\ existsb (String.eqb (Grid.show_time j)) ids = false)
  /\ (exists finalStatus,
        GridRunner.final_status ev k = Js.Return finalStatus
        /\ GridRunner.was_filled finalStatus = false)
  /\ (Grid.order_quantity cfg f (Grid.price o) <=? 0)%float = false.

(** Among the effects [more] there is a new order for [o]: its side, its
    price and the quantity computed under the filters [f]. *)
Definition placed_again (cfg : Grid.settings) (f : Exchange.filters)
  (o : Grid.order) (more : list Grid.effect) : Prop :=
  exists clientOrderId,
    In (Grid.NewOrder (Grid.side o)
          (JsNumber.toString (Grid.order_quantity cfg f (Grid.price o)))
          (JsNumber.toString (Grid.price o)) clientOrderId) more.

(** Sample inputs of the further properties. *)

(** The third attempt succeeds. *)
Definition third_time_lucky (i : nat) : Js.outcome nat :=
  if (i <? 2)%nat then Js.Throw (Js.TypeError "timeout") else Js.Return i.

(** A state with a statistic JSON cannot represent. *)
Definition lossy_state : Js.data :=
  Js.DObj [("stats", Js.DObj [("realizedPnl", Js.DNum nan)])].

Definition sample_price : Js.data := Js.DObj [("price", Js.DNum 30000%float)].

Definition with_redis : Cache.state :=
  Cache.initRedis (Cache.mkRedis true ∅) Cache.empty.

Definition stopped_bot : BotManager.bot :=
  BotManager.mkBot "b1" (Some "btc grid") "grid" "BTCUSDT" "stopped"
    (BotManager.mkConfig [] (Some 1000) None None)
    (BotManager.mkStats (Some 0%float) (Some 0%float) (Some 0)) None.

(** The exchange lists one open order; [getOrder] reports every order as
    still new; every placement is accepted. *)
Definition reconcile_listing : GridRunner.reconcile_env :=
  GridRunner.mkReconcileEnv
    (fun _ => Js.Return (Js.DArr [sample_exchange_order]))
    (fun _ => Js.Return (Js.DObj [("status", Js.DStr "NEW")]))
    (fun k => S1_env 7000 (200 + Z.of_nat k)).

(** The same, but the request for the open orders fails. *)
Definition reconcile_failing : GridRunner.reconcile_env :=
  GridRunner.mkReconcileEnv
    (fun _ => Js.Throw (Js.ApiError (-1021) "Timestamp outside recvWindow"))
    (fun _ => Js.Return (Js.DObj [("status", Js.DStr "NEW")]))
    (fun k => S1_env 7000 (200 + Z.of_nat k)).

Definition grid_config : list (string * Js.data) :=
  [ ("gridLevels", Js.DNum 2%float); ("gridSpread", Js.DNum 10%float);
    ("orderSize", Js.DNum 0.001%float);
    ("timeCreated", Js.DNum 1700000000000%float);
    ("timeStarted", Js.DNum 1700000005000%float); ("timeStopped", Js.DNull) ].

(** The take-profit order of scenario S3 is filled. *)
Definition S3_take_profit_fill : DcaBuy.report :=
  DcaBuy.mkReport (Some "BTCUSDT") (Some "FILLED") (Some "SELL") 13.

(** A DCA-Sell runner with one sell placed at 100, take profit 5. *)
Definition sell_state : DcaSell.state :=
  DcaSell.mkState true true Exchange.initial_filters
    [DcaBuy.mkPlacement 1 "9a1b-2000-S-1" 100%float 1%float] [] None None
    S3_bot [].

Definition sell_env (t newId : Z) : DcaSell.env :=
  DcaSell.mkEnv t (DcaBuy.mkTpEnv t (Js.Return tt) (Js.Return newId))
    (DcaSell.mkRestartEnv (fun _ => Js.Return (Js.DArr []))
       (fun _ => Js.Return tt)
       (DcaSell.mkSellsEnv (Js.Return None) (Js.Return 100%float)
          (fun _ => Js.Return 0) (fun _ => t) t)).

Definition sell_after_fill : DcaSell.state :=
  DcaSell.onExecutionReport S3_settings (sell_env 3000 11)
    (DcaBuy.mkReport (Some "BTCUSDT") (Some "FILLED") (Some "SELL") 1)
    sell_state.

(** The user stream is up: listen key [lk1], socket 0, keepalive timer 0. *)
Definition user_stream_up : WsClient.state :=
  WsClient.run
    [WsClient.CallStartUserStream; WsClient.ListenKeyAnswer (Js.Return "lk1")]
    WsClient.init.

(** [bot.updateStats] called once for every pair of [deltas], in order. *)
Definition updateStats_each (deltas : list (JsNumber.number * JsNumber.number))
  (b : BotManager.bot) : BotManager.bot :=
  fold_left (fun b d => fst (BotManager.updateStats (fst d) (snd d) b)) deltas b.

(** A snapshot without [stats], as a file written by hand may be. *)
Definition bare_snapshot : BotManager.snapshot :=
  BotManager.mkSnapshot (Some "btc grid") "grid" "BTCUSDT" (Some "stopped")
    (Some (BotManager.mkConfig [] (Some 1000) None None)) None.

(** * Properties *)

(** ** Rounding to the exchange's increments *)


Lemma append_cons (c : ascii) (a s : string) :
  (String c a ++ s)%string = String c (a ++ s)%string.
Proof. reflexivity. Qed.







Lemma roundToStepSize_same (v t : JsNumber.number) :
  MathUtil.roundToStepSize v t = MathUtil.roundToTickSize v t.
Proof. reflexivity. Qed.




(** Tick sizes the exchange uses and how they print. *)
Example common_tick_sizes :
  List.map (fun t => (JsNumber.toString t, MathUtil.precision t))
    [1; 0.5; 0.1; 0.01; 0.001; 0.0001; 0.00001; 0.000001]%float
  = [("1", 0); ("0.5", 1); ("0.1", 1); ("0.01", 2); ("0.001", 3);
     ("0.0001", 4); ("0.00001", 5); ("0.000001", 6)]%nat.
Proof. vm_compute. reflexivity. Qed.

(** Below [1e-6] numbers print with an exponent and the precision is [0]:
    a price is rounded to a whole number. *)
Example small_tick_precision :
  JsNumber.toString 1e-8%float = "1e-8"
  /\ MathUtil.precision 1e-8%float = 0%nat
  /\ MathUtil.roundToTickSize 0.00001234%float 1e-8%float = 0%float.
Proof. repeat split; vm_compute; reflexivity. Qed.

(** ** Retry bounds *)

Section RetryFacts.
Context {A : Type}.
Variable fn : nat -> Js.outcome A.
Variable opts : Retry.options.

Lemma retry_loop_invocations attempt delay calls :
  (Retry.invocations (Retry.retry_loop fn opts attempt delay calls)
   <= calls + (S (Retry.retries opts) - attempt))%nat.
Proof.
  funelim (Retry.retry_loop fn opts attempt delay calls); simpl; try lia.
Qed.

Lemma retry_loop_all_fail (errs : nat -> Js.error) attempt delay calls :
  (attempt <= Retry.retries opts)%nat ->
  (forall i, (i <= Retry.retries opts - attempt)%nat ->
             fn (calls + i)%nat = Js.Throw (errs (calls + i)%nat)) ->
  Retry.result (Retry.retry_loop fn opts attempt delay calls)
    = Js.Throw (errs (calls + (Retry.retries opts - attempt))%nat)
  /\ Retry.invocations (Retry.retry_loop fn opts attempt delay calls)
     = (calls + S (Retry.retries opts - attempt))%nat.
Proof.
  funelim (Retry.retry_loop fn opts attempt delay calls); intros Hle Hall.
  - lia.
  - specialize (Hall 0%nat ltac:(lia)). rewrite Nat.add_0_r in Hall. congruence.
  - subst. specialize (Hall 0%nat ltac:(lia)). rewrite Nat.add_0_r in Hall.
    rewrite Nat.sub_diag, Nat.add_0_r. simpl. split; [congruence | lia].
  - simpl. destruct (H errs) as [Hr Hi].
    + lia.
    + intros i Hi. replace (S calls + i)%nat with (calls + S i)%nat by lia.
      apply Hall. lia.
    + rewrite Hr, Hi. split; [f_equal; f_equal; lia | lia].
Qed.

End RetryFacts.

Lemma retry_invocations_le {A} (fn : nat -> Js.outcome A) (opts : Retry.options) :
  (Retry.invocations (Retry.retry fn opts) <= Retry.retries opts + 1)%nat.
Proof.
  unfold Retry.retry.
  pose proof (retry_loop_invocations fn opts 0 (Retry.minTimeout opts) 0). lia.
Qed.

Lemma retry_all_fail {A} (fn : nat -> Js.outcome A) (opts : Retry.options)
  (errs : nat -> Js.error) :
  (forall i, (i <= Retry.retries opts)%nat -> fn i = Js.Throw (errs i)) ->
  Retry.result (Retry.retry fn opts) = Js.Throw (errs (Retry.retries opts))
  /\ Retry.invocations (Retry.retry fn opts) = (Retry.retries opts + 1)%nat.
Proof.
  intros Hall. unfold Retry.retry.
  destruct (retry_loop_all_fail fn opts errs 0 (Retry.minTimeout opts) 0)
    as [Hr Hi]; [lia | intros i Hi; apply Hall; lia |].
  rewrite Hr, Hi. rewrite Nat.sub_0_r. simpl. split; [reflexivity | lia].
Qed.

(** C8: [retry] invokes the wrapped function at most [retries + 1] times, a
    signed request (retries = 3) makes at most four attempts, and when every
    invocation fails [retry] throws the error of the last one, having made
    exactly [retries + 1] invocations. *)
Theorem retry_attempts_bounded {A} (fn : nat -> Js.outcome A)
  (opts : Retry.options) :
  (Retry.invocations (Retry.retry fn opts) <= Retry.retries opts + 1)%nat
  /\ (forall http,
        (Retry.invocations (Gateway.signedRequest_run http) <= 3 + 1)%nat)
  /\ (forall errs : nat -> Js.error,
        (forall i, (i <= Retry.retries opts)%nat -> fn i = Js.Throw (errs i)) ->
        Retry.result (Retry.retry fn opts) = Js.Throw (errs (Retry.retries opts))
        /\ Retry.invocations (Retry.retry fn opts) = (Retry.retries opts + 1)%nat).
Proof.
  split; [apply retry_invocations_le | split].
  - intros http. apply (retry_invocations_le http Gateway.signed_options).
  - apply retry_all_fail.
Qed.

Lemma retry_attempts_bounded_witness :
  Retry.result (Retry.retry (fun _ : nat => @Js.Throw unit (Js.TypeError "timeout"))
                  (Retry.mkOptions 2 200 2 false))
    = Js.Throw (Js.TypeError "timeout")
  /\ Retry.invocations
       (Retry.retry (fun _ : nat => @Js.Throw unit (Js.TypeError "timeout"))
          (Retry.mkOptions 2 200 2 false)) = 3%nat.
Proof.
  destruct (retry_attempts_bounded
              (fun _ : nat => @Js.Throw unit (Js.TypeError "timeout"))
              (Retry.mkOptions 2 200 2 false)) as [_ [_ H]].
  apply (H (fun _ => Js.TypeError "timeout")).
  intros i _. reflexivity.
Defined.

Example retry_run_example :
  Retry.retry (fun i : nat => if (i <? 2)%nat then Js.Throw (Js.TypeError "x") else Js.Return i)
    Gateway.signed_options
  = Retry.mkRun (Js.Return (Some 2%nat)) 3
      [(1%nat, Js.TypeError "x"); (2%nat, Js.TypeError "x")] [300; 600].
Proof. vm_compute. reflexivity. Qed.

(** ** The gateway's order queries *)

Lemma order_view_fields (order : Js.data) (v : Gateway.view) :
  Gateway.order_view order = Js.Return v ->
  exists a b c d e f g h i t u,
    v = [ ("order_id", Gateway.Copy a); ("client_order_id", Gateway.Copy b);
          ("type", Gateway.Copy c); ("price", Gateway.Copy d);
          ("quantity", Gateway.Copy e); ("executed_quantity", Gateway.Copy f);
          ("symbol", Gateway.Copy g); ("status", Gateway.Copy h);
          ("time_in_force", Gateway.Copy i);
          ("created_at", Gateway.NewDate t); ("updated_at", Gateway.NewDate u) ].
Proof.
  unfold Gateway.order_view.
  destruct order; simpl; try discriminate;
    intros H; injection H as <-; repeat eexists.
Qed.

Lemma mapM_In {A B} (f : A -> Js.outcome B) (l : list A) (r : list B) (y : B) :
  Js.mapM f l = Js.Return r -> In y r -> exists x, In x l /\ f x = Js.Return y.
Proof.
  revert r. induction l as [| x l IH]; simpl; intros r H Hy.
  - injection H as <-. destruct Hy.
  - destruct (f x) as [b |] eqn:Hfx; simpl in H; [| discriminate].
    destruct (Js.mapM f l) as [bs |] eqn:Hl; simpl in H; [| discriminate].
    injection H as <-. destruct Hy as [<- | Hy].
    + exists x. auto.
    + destruct (IH bs eq_refl Hy) as [x' [Hin Hx']]. exists x'. auto.
Qed.

Lemma getOpenOrders_elements (http : nat -> Js.outcome Js.data)
  (l : list Gateway.view) (v : Gateway.view) :
  Gateway.getOpenOrders http = Js.Return l -> In v l ->
  exists order, Gateway.order_view order = Js.Return v.
Proof.
  unfold Gateway.getOpenOrders, Js.try_catch, Js.bind. intros H Hv.
  destruct (Gateway.signedRequest http) as [orders |].
  - destruct (Gateway.array_map Gateway.order_view orders) as [r |] eqn:Hmap.
    + injection H as <-. destruct orders; simpl in Hmap; try discriminate.
      destruct (mapM_In _ _ _ _ Hmap Hv) as [x [_ Hx]]. eauto.
    + injection H as <-. destruct Hv.
  - injection H as <-. destruct Hv.
Qed.

(** Every element of every result of [getOpenOrders] lacks the properties
    [orderId], [clientOrderId], [side] and [qty] of the runner-local order
    record (the exchange's values are stored under [order_id],
    [client_order_id], [type] and [quantity]), and its timestamps
    [created_at] and [updated_at] are [Date] objects. *)
Lemma getOpenOrders_fields (http : nat -> Js.outcome Js.data)
  (l : list Gateway.view) (v : Gateway.view) :
  Gateway.getOpenOrders http = Js.Return l -> In v l ->
  Gateway.view_prop "orderId" v = None
  /\ Gateway.view_prop "clientOrderId" v = None
  /\ Gateway.view_prop "side" v = None
  /\ Gateway.view_prop "qty" v = None
  /\ (exists t, Gateway.view_prop "created_at" v = Some (Gateway.NewDate t))
  /\ (exists u, Gateway.view_prop "updated_at" v = Some (Gateway.NewDate u)).
Proof.
  intros H Hv. destruct (getOpenOrders_elements http l v H Hv) as [order Ho].
  destruct (order_view_fields order v Ho)
    as (a & b & c & d & e & f & g & h & i & t & u & ->).
  repeat split; try reflexivity; eexists; reflexivity.
Qed.

(** C3 (the code departs from the claim): for one open order reported by
    the exchange, the element [getOpenOrders] returns has no property
    [orderId], [clientOrderId], [side] or [qty]; the values are stored
    under [order_id], [client_order_id], [type] and [quantity], and
    [created_at] is a [Date] object built from the epoch milliseconds. *)
Theorem getOpenOrders_shape_at_sample :
  exists v,
    Gateway.getOpenOrders (fun _ => Js.Return (Js.DArr [sample_exchange_order]))
      = Js.Return [v]
    /\ Gateway.view_prop "orderId" v = None
    /\ Gateway.view_prop "clientOrderId" v = None
    /\ Gateway.view_prop "side" v = None
    /\ Gateway.view_prop "qty" v = None
    /\ Gateway.view_prop "order_id" v = Some (Gateway.Copy (Js.DNum 28%float))
    /\ Gateway.view_prop "client_order_id" v
       = Some (Gateway.Copy (Js.DStr "1f0c-1700000000000-B-k3x9q"))
    /\ Gateway.view_prop "type" v = Some (Gateway.Copy (Js.DStr "BUY"))
    /\ Gateway.view_prop "quantity" v = Some (Gateway.Copy (Js.DStr "0.00001"))
    /\ Gateway.view_prop "created_at" v
       = Some (Gateway.NewDate (Js.DNum 1700000000000%float)).
Proof.
  eexists. split; [vm_compute; reflexivity |].
  repeat split; vm_compute; reflexivity.
Qed.

(** The runners recognise their orders by [o.clientOrderId]: none of the
    orders returned by [getOpenOrders] is recognised, whatever is open. *)
Lemma no_open_order_is_tagged (cfg : DcaBuy.settings)
  (http : nat -> Js.outcome Js.data) (l : list Gateway.view) (v : Gateway.view) :
  Gateway.getOpenOrders http = Js.Return l -> In v l ->
  DcaBuy.tagged cfg v = false.
Proof.
  intros H Hv. unfold DcaBuy.tagged.
  destruct (getOpenOrders_fields http l v H Hv) as (_ & -> & _). reflexivity.
Qed.

Lemma cancel_untagged (cfg : DcaBuy.settings)
  (cancels : nat -> Js.outcome unit) (open : list Gateway.view) (i : nat)
  (st : DcaBuy.state) :
  Forall (fun v => DcaBuy.tagged cfg v = false) open ->
  DcaBuy.cancel_tagged cfg cancels open i st = st.
Proof.
  intros Hall. revert i. induction Hall as [| v open Hv _ IH]; intros i; simpl.
  - reflexivity.
  - rewrite Hv. apply IH.
Qed.

(** So [cancelAllRelatedOrders] cancels nothing, whatever the exchange
    reports as open. *)
Lemma cancelAllRelatedOrders_is_idle (cfg : DcaBuy.settings)
  (http : nat -> Js.outcome Js.data) (cancels : nat -> Js.outcome unit)
  (st : DcaBuy.state) :
  DcaBuy.cancelAllRelatedOrders cfg http cancels st = st.
Proof.
  unfold DcaBuy.cancelAllRelatedOrders.
  destruct (Gateway.getOpenOrders http) as [open | e] eqn:Hopen.
  - apply cancel_untagged. apply List.Forall_forall. intros v Hv.
    apply (no_open_order_is_tagged cfg http open v Hopen Hv).
  - unfold Gateway.getOpenOrders, Js.try_catch in Hopen.
    destruct (Js.bind _ _); discriminate Hopen.
Qed.

Lemma signedRequest_fails (http : nat -> Js.outcome Js.data)
  (errs : nat -> Js.error) :
  (forall i, (i <= 3)%nat -> http i = Js.Throw (errs i)) ->
  Gateway.signedRequest http = Js.Throw (errs 3%nat).
Proof.
  intros Hall. unfold Gateway.signedRequest, Gateway.signedRequest_run.
  destruct (retry_all_fail http Gateway.signed_options errs Hall) as [-> _].
  reflexivity.
Qed.

(** C10: [getOpenOrders] and [getAllOrders] never throw; when the signed
    request fails (in particular when every one of its four attempts
    fails) they return the empty list, which is also what they return when
    the exchange reports no orders. *)
Theorem order_queries_never_raise (http : nat -> Js.outcome Js.data) :
  (exists l, Gateway.getOpenOrders http = Js.Return l)
  /\ (exists l, Gateway.getAllOrders http = Js.Return l)
  /\ (forall e, Gateway.signedRequest http = Js.Throw e ->
        Gateway.getOpenOrders http = Js.Return []
        /\ Gateway.getAllOrders http = Js.Return [])
  /\ (forall errs, (forall i, (i <= 3)%nat -> http i = Js.Throw (errs i)) ->
        Gateway.getOpenOrders http
          = Gateway.getOpenOrders (fun _ => Js.Return (Js.DArr []))
        /\ Gateway.getAllOrders http
          = Gateway.getAllOrders (fun _ => Js.Return (Js.DArr []))).
Proof.
  assert (Hfail : forall e, Gateway.signedRequest http = Js.Throw e ->
            Gateway.getOpenOrders http = Js.Return []
            /\ Gateway.getAllOrders http = Js.Return []).
  { intros e He. unfold Gateway.getOpenOrders, Gateway.getAllOrders.
    rewrite He. split; reflexivity. }
  repeat split.
  - unfold Gateway.getOpenOrders, Js.try_catch.
    destruct (Js.bind _ _); eauto.
  - unfold Gateway.getAllOrders, Js.try_catch.
    destruct (Js.bind _ _); eauto.
  - apply (Hfail e H).
  - apply (Hfail e H).
  - destruct (Hfail _ (signedRequest_fails http errs H)) as [-> _].
    vm_compute. reflexivity.
  - destruct (Hfail _ (signedRequest_fails http errs H)) as [_ ->].
    vm_compute. reflexivity.
Qed.

Lemma order_queries_never_raise_witness :
  Gateway.getOpenOrders (fun _ => Js.Throw (Js.ApiError (-1021) "Timestamp outside recvWindow"))
  = Js.Return [].
Proof.
  destruct (order_queries_never_raise
              (fun _ => Js.Throw (Js.ApiError (-1021) "Timestamp outside recvWindow")))
    as (_ & _ & H & _).
  apply (H (Js.ApiError (-1021) "Timestamp outside recvWindow")).
  vm_compute. reflexivity.
Defined.

(** ** Persistence *)

(** Writing a JSON-representable value and reading it back gives the
    value. *)
Lemma parse_stringify (v : Js.data) :
  Persistence.json_safe v = true ->
  exists j, Persistence.stringify v = Some j /\ Persistence.parse j = v.
Proof.
  induction v as [| | b | n | s | items IH | props IH] using Js.data_induction;
    simpl; intros Hs; try discriminate; try (eexists; split; reflexivity).
  - apply andb_prop in Hs as [Hfin Hnz]. rewrite Hfin.
    apply negb_true_iff in Hnz. rewrite Hnz. eexists; split; reflexivity.
  - eexists; split; [reflexivity |]. simpl. f_equal.
    induction IH as [| x l Hx _ IHl]; simpl in *; [reflexivity |].
    apply andb_prop in Hs as [Hx' Hl'].
    destruct (Hx Hx') as (j & -> & Hj). simpl. rewrite Hj, (IHl Hl'). reflexivity.
  - eexists; split; [reflexivity |]. simpl. f_equal.
    induction IH as [| [k x] l Hx _ IHl]; simpl in *; [reflexivity |].
    apply andb_prop in Hs as [Hx' Hl'].
    destruct (Hx Hx') as (j & -> & Hj). simpl. rewrite Hj, (IHl Hl'). reflexivity.
Qed.

(** C7, as amended: a state that JSON represents exactly (no [undefined],
    [NaN], infinity or negative zero anywhere in it) and that is not falsy,
    once written by [saveBotState] to a writable file, is what
    [loadBotState] returns for the same bot id. *)
Theorem saveBotState_roundtrip (botId : string) (state : Js.data)
  (now : JsNumber.number) (d : Persistence.disk) :
  Persistence.json_safe state = true ->
  Js.is_truthy state = true ->
  Persistence.fileForBot botId ∉ Persistence.locked d ->
  Persistence.loadBotState botId (Persistence.saveBotState botId state now d)
  = state.
Proof.
  intros Hsafe Htruthy Hfree.
  destruct (parse_stringify state Hsafe) as (j & Hj & Hparse).
  unfold Persistence.saveBotState, Persistence.writeFileSync.
  cbn [Persistence.stringify]. rewrite Hj.
  destruct (decide _) as [Hin | _]; [contradiction |].
  unfold Persistence.loadBotState. cbn [Persistence.files].
  rewrite lookup_insert_eq. cbn [Persistence.parse].
  destruct (if is_finite now then _ else _); simpl;
    rewrite Hparse; unfold Js.or_else; rewrite Htruthy; reflexivity.
Qed.

Lemma saveBotState_roundtrip_witness :
  Persistence.loadBotState "b1"
    (Persistence.saveBotState "b1" sample_state 1700000000123%float empty_disk)
  = sample_state.
Proof.
  apply (saveBotState_roundtrip "b1" sample_state 1700000000123%float empty_disk).
  - vm_compute. reflexivity.
  - vm_compute. reflexivity.
  - simpl. apply not_elem_of_empty.
Defined.

(** C7 as stated fails: a [NaN] statistic comes back as [null], and a
    property holding [undefined] (as [initialStartPrice] of the grid runner
    before its first price) does not come back at all. *)
Lemma saveBotState_roundtrip_counterexample :
  ~ (forall (botId : string) (state : Js.data),
       Persistence.loadBotState botId
         (Persistence.saveBotState botId state 1700000000123%float empty_disk)
       = state).
Proof.
  intros H.
  specialize (H "b1" (Js.DObj [("stats", Js.DObj [("realizedPnl", Js.DNum nan)])])).
  vm_compute in H. discriminate H.
Qed.

Example undefined_property_is_dropped :
  Persistence.loadBotState "b1"
    (Persistence.saveBotState "b1"
       (Js.DObj [("orders", Js.DArr []); ("initialStartPrice", Js.DUndefined)])
       1700000000123%float empty_disk)
  = Js.DObj [("orders", Js.DArr [])].
Proof. vm_compute. reflexivity. Qed.

(** ** Bot lifecycle *)

Lemma start_running (now : Z) (b : BotManager.bot) :
  BotManager.status b = "running" -> BotManager.start now b = (b, []).
Proof.
  intros H. unfold BotManager.start, BotManager.is_running. rewrite H. reflexivity.
Qed.

Lemma start_not_running (now : Z) (b : BotManager.bot) :
  BotManager.status b <> "running" ->
  let b' := fst (BotManager.start now b) in
  BotManager.status b' = "running"
  /\ BotManager.timeStarted (BotManager.config b')
     = (if BotManager.present (BotManager.timeStarted (BotManager.config b))
        then BotManager.timeStarted (BotManager.config b) else Some now)
  /\ BotManager.timeStopped (BotManager.config b') = None
  /\ BotManager.runStartTime b'
     = BotManager.timeStarted (BotManager.config b').
Proof.
  intros H. unfold BotManager.start, BotManager.is_running.
  destruct (String.eqb_spec (BotManager.status b) "running") as [E | _];
    [contradiction |].
  simpl. repeat split.
Qed.

Lemma resume_keeps_start (runnerFactory : BotManager.bot -> bool)
  (botId name : string) (saved : BotManager.snapshot) (T0 restartedAt now : Z) :
  (forall b, runnerFactory b = true) ->
  BotManager.s_name saved = Some name -> name <> "" ->
  running_since saved T0 -> T0 <> 0 ->
  let m :=
    BotManager.loadBotsFromDisk runnerFactory
      [BotManager.mkEntry botId (Some saved) restartedAt] BotManager.empty in
  exists b,
    BotManager.bots m = [(botId, b)]
    /\ BotManager.status b = "running"
    /\ BotManager.timeStarted (BotManager.config b) = Some T0
    /\ BotManager.runStartTime b = Some T0
    /\ List.map BotManager.currentDurationMs (BotManager.listBots now m)
       = [now - T0]
    /\ List.map BotManager.r_timeStarted (BotManager.listBots now m)
       = [Some T0].
Proof.
  intros Hf Hname Hne (Hst & cfg & Hcfg & Hts) HT0.
  destruct saved as [sname sstrategy ssymbol sstatus sconfig sstats].
  destruct cfg as [params tc ts tstop]. simpl in Hname, Hst, Hcfg, Hts. subst.
  assert (Hp : BotManager.present (Some T0) = true).
  { simpl. apply negb_true_iff, Z.eqb_neq, HT0. }
  assert (Hor : BotManager.or_null (Some T0) = Some T0).
  { unfold BotManager.or_null. rewrite Hp. reflexivity. }
  cbn [BotManager.loadBotsFromDisk BotManager.loaded BotManager.file_id
       BotManager.read_at BotManager.s_name].
  destruct (String.eqb_spec name "") as [E | _]; [contradiction |].
  rewrite Hf. cbn. rewrite !Hor, !Hp. cbn. rewrite ?Hor, ?Hp.
  eexists. split; [reflexivity |]. cbn. rewrite ?Hor, ?Hp.
  repeat split; reflexivity.
Qed.

(** C5: [bot.start()] leaves a running bot as it is; otherwise the bot is
    running afterwards, [timeStarted] is kept when present and set to the
    clock otherwise, [timeStopped] is cleared and [runStartTime] equals
    [timeStarted].  A snapshot persisted as running since [T0] (a non-zero
    clock reading), loaded at start-up, gives a running bot whose
    [timeStarted] is still [T0] and for which [listBots()] reports
    [currentDurationMs = now - T0]. *)
Theorem start_preserves_timeStarted (runnerFactory : BotManager.bot -> bool)
  (botId name : string) (saved : BotManager.snapshot) (T0 restartedAt now : Z) :
  (forall b, runnerFactory b = true) ->
  BotManager.s_name saved = Some name -> name <> "" ->
  running_since saved T0 -> T0 <> 0 ->
  (forall t b, BotManager.status b = "running" -> BotManager.start t b = (b, []))
  /\ (forall t b, BotManager.status b <> "running" ->
        let b' := fst (BotManager.start t b) in
        BotManager.status b' = "running"
        /\ BotManager.timeStarted (BotManager.config b')
           = (if BotManager.present (BotManager.timeStarted (BotManager.config b))
              then BotManager.timeStarted (BotManager.config b) else Some t)
        /\ BotManager.timeStopped (BotManager.config b') = None
        /\ BotManager.runStartTime b'
           = BotManager.timeStarted (BotManager.config b'))
  /\ (let m :=
        BotManager.loadBotsFromDisk runnerFactory
          [BotManager.mkEntry botId (Some saved) restartedAt] BotManager.empty in
      exists b,
        BotManager.bots m = [(botId, b)]
        /\ BotManager.status b = "running"
        /\ BotManager.timeStarted (BotManager.config b) = Some T0
        /\ BotManager.runStartTime b = Some T0
        /\ List.map BotManager.currentDurationMs (BotManager.listBots now m)
           = [now - T0]
        /\ List.map BotManager.r_timeStarted (BotManager.listBots now m)
           = [Some T0]).
Proof.
  intros Hf Hname Hne Hrun HT0. split; [| split].
  - intros t b. apply start_running.
  - intros t b. apply start_not_running.
  - apply (resume_keeps_start runnerFactory botId name saved T0 restartedAt now);
      assumption.
Qed.

Lemma start_preserves_timeStarted_witness :
  let T0 := 1700000000000 in
  let m :=
    BotManager.loadBotsFromDisk (fun _ => true)
      [BotManager.mkEntry "b1" (Some (snapshot_S5 T0)) (T0 + 3600000)]
      BotManager.empty in
  List.map BotManager.currentDurationMs (BotManager.listBots (T0 + 3600000) m)
    = [3600000]
  /\ List.map BotManager.r_timeStarted (BotManager.listBots (T0 + 3600000) m)
    = [Some T0].
Proof.
  intros T0 m.
  destruct (start_preserves_timeStarted (fun _ => true) "b1" "btc grid"
              (snapshot_S5 T0) T0 (T0 + 3600000) (T0 + 3600000))
    as (_ & _ & b & _ & _ & _ & _ & Hd & Ht).
  - reflexivity.
  - reflexivity.
  - discriminate.
  - split; [reflexivity | eexists; split; reflexivity].
  - discriminate.
  - split; [exact Hd | exact Ht].
Defined.

(** Scenario S5, from the snapshot the manager itself wrote at start. *)
Example S5_persist_and_resume :
  List.map (fun r => (BotManager.r_status r, BotManager.r_timeStarted r,
                      BotManager.currentDurationMs r))
    (BotManager.listBots (1700000000000 + 3600000)
       (S5_after_restart 1700000000000))
  = [("running", Some 1700000000000, 3600000)].
Proof. vm_compute. reflexivity. Qed.

Lemma map_set_In (key : string) (b' : BotManager.bot)
  (l : list (string * BotManager.bot)) (k : string) (b : BotManager.bot) :
  In (k, b) (BotManager.map_set key b' l) -> b = b' \/ In (k, b) l.
Proof.
  induction l as [| [k0 b0] l IH]; simpl.
  - intros [H | []]. injection H as _ <-. auto.
  - destruct (String.eqb k0 key); simpl.
    + intros [H | H]; [injection H as _ <-; auto | auto].
    + intros [H | H]; [auto |]. destruct (IH H); auto.
Qed.

Lemma map_get_In (key : string) (l : list (string * BotManager.bot))
  (b : BotManager.bot) :
  BotManager.map_get key l = Some b -> exists k, In (k, b) l.
Proof.
  induction l as [| [k0 b0] l IH]; simpl; [discriminate |].
  destruct (String.eqb k0 key).
  - intros H. injection H as <-. eauto.
  - intros H. destruct (IH H) as [k Hk]. eauto.
Qed.

Lemma start_invariant (now : Z) (b : BotManager.bot) :
  BotManager.lifecycle_invariant b ->
  BotManager.lifecycle_invariant (fst (BotManager.start now b)).
Proof.
  intros Hb. unfold BotManager.start, BotManager.is_running.
  destruct (String.eqb_spec (BotManager.status b) "running") as [E | _];
    [exact Hb |].
  unfold BotManager.lifecycle_invariant. simpl. split; [| reflexivity].
  intros _. split; [| reflexivity].
  destruct (BotManager.present _) eqn:Hp; [| discriminate].
  destruct (BotManager.timeStarted (BotManager.config b)); [discriminate |].
  discriminate Hp.
Qed.

Lemma stop_invariant (now : Z) (b : BotManager.bot) :
  BotManager.lifecycle_invariant b ->
  BotManager.lifecycle_invariant (fst (BotManager.stop now b)).
Proof.
  intros Hb. unfold BotManager.stop, BotManager.is_stopped.
  destruct (String.eqb_spec (BotManager.status b) "stopped") as [E | _];
    [exact Hb |].
  unfold BotManager.lifecycle_invariant. simpl. split.
  - discriminate.
  - intros [_ H]. discriminate H.
Qed.

Lemma created_invariant (botId name strategy symbol : string)
  (cfg : list (string * Js.data)) (timeNow : Z) :
  BotManager.lifecycle_invariant
    (BotManager.buildBotInstance botId
       (BotManager.mkSnapshot (Some name) strategy symbol (Some "stopped")
          (Some (BotManager.mkConfig cfg (Some timeNow) None None))
          (Some (BotManager.mkStats (Some 0%float) (Some 0%float) (Some 0))))
       timeNow).
Proof.
  unfold BotManager.lifecycle_invariant. simpl. split.
  - discriminate.
  - intros [H _]. contradiction.
Qed.

Lemma call_invariant (f : BotManager.bot -> BotManager.bot * list BotManager.effect)
  (botId : string) (m : BotManager.manager) :
  (forall b, BotManager.lifecycle_invariant b ->
             BotManager.lifecycle_invariant (fst (f b))) ->
  (forall k b, In (k, b) (BotManager.bots m) -> BotManager.lifecycle_invariant b) ->
  forall k b, In (k, b) (BotManager.bots (BotManager.call f botId m)) ->
              BotManager.lifecycle_invariant b.
Proof.
  intros Hf Hm k b. unfold BotManager.call.
  destruct (BotManager.map_get botId (BotManager.bots m)) as [b0 |] eqn:Hget;
    [| apply Hm].
  destruct (map_get_In _ _ _ Hget) as [k0 Hk0].
  specialize (Hf b0 (Hm _ _ Hk0)).
  destruct (f b0) as [b' effs]. simpl in *.
  intros Hin. destruct (map_set_In _ _ _ _ _ Hin) as [-> | Hold];
    [exact Hf | exact (Hm _ _ Hold)].
Qed.

(** C6: in every state reached from the empty registry by [createBot],
    [bot.start] and [bot.stop], every bot satisfies
    [status = running <-> timeStarted <> nil /\ timeStopped = nil]. *)
Theorem lifecycle_invariant_reachable (runnerFactory : BotManager.bot -> bool)
  (m : BotManager.manager) (k : string) (b : BotManager.bot) :
  BotManager.reachable runnerFactory m ->
  In (k, b) (BotManager.bots m) ->
  BotManager.lifecycle_invariant b.
Proof.
  intros Hreach. revert k b.
  induction Hreach as [| o m _ IH]; [intros k b [] |].
  destruct o as [botId name strategy symbol cfg timeNow | botId now | botId now];
    simpl.
  - intros k b. unfold BotManager.createBot.
    destruct (runnerFactory _); simpl; [| apply IH].
    intros Hin. destruct (map_set_In _ _ _ _ _ Hin) as [-> | Hold];
      [apply created_invariant | exact (IH _ _ Hold)].
  - apply call_invariant; [apply start_invariant | exact IH].
  - apply call_invariant; [apply stop_invariant | exact IH].
Qed.

Lemma lifecycle_invariant_reachable_witness :
  In ("b1", lifecycle_bot) (BotManager.bots lifecycle_final)
  /\ BotManager.lifecycle_invariant lifecycle_bot.
Proof.
  assert (Hin : In ("b1", lifecycle_bot) (BotManager.bots lifecycle_final)).
  { vm_compute. left. reflexivity. }
  split; [exact Hin |].
  apply (lifecycle_invariant_reachable (fun _ => true) lifecycle_final "b1");
    [| exact Hin].
  apply (BotManager.reach_step _ (BotManager.Start "b1" 9000)).
  apply (BotManager.reach_step _ (BotManager.Stop "b1" 5000)).
  apply (BotManager.reach_step _ (BotManager.Start "b1" 2000)).
  apply (BotManager.reach_step _
           (BotManager.CreateBot "b1" "btc grid" "grid" "BTCUSDT" [] 1000)).
  apply BotManager.reach_empty.
Defined.

(** ** Grid runner: execution reports *)


Lemma findIndex_none {A} (p : A -> bool) (l : list A) :
  Grid.findIndex p l = None -> Grid.remove_first p l = l.
Proof.
  induction l as [| y l IH]; simpl; [reflexivity |].
  destruct (p y); [discriminate |].
  destruct (Grid.findIndex p l); [discriminate |].
  intros _. rewrite IH; reflexivity.
Qed.







Lemma placeOrder_calls (cfg : Grid.settings) (f : Exchange.filters)
  (ev : Grid.env) (o : Grid.order) :
  (Grid.order_quantity cfg f (Grid.price o) <=? 0)%float = false ->
  exists clientOrderId,
    In (Grid.NewOrder (Grid.side o)
          (JsNumber.toString (Grid.order_quantity cfg f (Grid.price o)))
          (JsNumber.toString (Grid.price o)) clientOrderId)
       (snd (fst (Grid.placeOrder cfg f ev o))).
Proof.
  intros Hq. unfold Grid.placeOrder. rewrite Hq.
  destruct (Grid.placed ev) as [id | e]; simpl.
  - eexists. left. reflexivity.
  - destruct (Grid.handlePlaceOrderError _ _ _ _ _) as [[o' effs] stopped].
    simpl. eexists. left. reflexivity.
Qed.

Lemma stop_bot_keeps (t : Z) (st : Grid.state) :
  Grid.gridOrders (Grid.stop_bot t st) = Grid.gridOrders st
  /\ Grid.unmatchedBuys (Grid.stop_bot t st) = Grid.unmatchedBuys st
  /\ BotManager.completedRounds (BotManager.stats (Grid.bot (Grid.stop_bot t st)))
     = BotManager.completedRounds (BotManager.stats (Grid.bot st))
  /\ BotManager.realizedPnl (BotManager.stats (Grid.bot (Grid.stop_bot t st)))
     = BotManager.realizedPnl (BotManager.stats (Grid.bot st))
  /\ exists more, Grid.log (Grid.stop_bot t st) = (Grid.log st ++ more)%list.
Proof.
  unfold Grid.stop_bot, BotManager.stop.
  destruct (BotManager.is_stopped (Grid.bot st)); simpl.
  - repeat split. exists []. rewrite app_nil_r. reflexivity.
  - destruct (BotManager.present _); simpl; repeat split; eexists; reflexivity.
Qed.











(** Scenario S1 in full: the buy at 29990 is filled, then the sell at
    30000 placed for it. *)
Example S1_round_trip :
  let after_buy :=
    Grid.onExecutionReport S1_settings (S1_env 3000 105) (S1_fill "BUY" 101)
      S1_state in
  let after_sell :=
    Grid.onExecutionReport S1_settings (S1_env 4000 106) (S1_fill "SELL" 105)
      after_buy in
  List.map (fun o => (Grid.orderId o, Grid.side o, Grid.price o, Grid.status o))
    (Grid.gridOrders after_buy)
  = [ (Some 102, "SELL", 30010%float, "open"); (Some 103, "BUY", 29980%float, "open");
      (Some 104, "SELL", 30020%float, "open"); (Some 105, "SELL", 30000%float, "open") ]
  /\ List.map (fun o => (Grid.orderId o, Grid.side o, Grid.price o, Grid.status o))
       (Grid.gridOrders after_sell)
     = [ (Some 102, "SELL", 30010%float, "open"); (Some 103, "BUY", 29980%float, "open");
         (Some 104, "SELL", 30020%float, "open"); (Some 106, "BUY", 29990%float, "open") ]
  /\ Grid.unmatchedBuys after_sell = []
  /\ BotManager.completedRounds (BotManager.stats (Grid.bot after_sell))
     = Some 1%float
  /\ BotManager.realizedPnl (BotManager.stats (Grid.bot after_sell))
     = Some ((30000 - 29990) * 0.00001)%float.
Proof. vm_compute. repeat split; reflexivity. Qed.

(** ** DCA-Buy runner: the take-profit order *)














(** Scenario S3 in full: after the fills at 100 and 90 the take-profit
    order is 2 at 100; after the fill at 80 it has been cancelled and
    replaced by 3 at 95.  The calls made to the exchange, in order: *)
Example S3_take_profit_replacement :
  DcaBuy.sellTp S3_after_two
  = Some (DcaBuy.mkPlacement 12 "9a1b-4000-S-TP" 100%float 2%float)
  /\ DcaBuy.sellTp S3_after_three
     = Some (DcaBuy.mkPlacement 13 "9a1b-5000-S-TP" 95%float 3%float)
  /\ DcaBuy.log S3_after_three
     = [ DcaBuy.EmitFilled "BUY" 1;
         DcaBuy.NewOrder "SELL" "1" "105" "9a1b-3000-S-TP";
         DcaBuy.EmitPlaced "SELL" 105%float 1%float 11;
         DcaBuy.EmitFilled "BUY" 2;
         DcaBuy.CancelOrder 11; DcaBuy.EmitCanceled 11;
         DcaBuy.NewOrder "SELL" "2" "100" "9a1b-4000-S-TP";
         DcaBuy.EmitPlaced "SELL" 100%float 2%float 12;
         DcaBuy.EmitFilled "BUY" 3;
         DcaBuy.CancelOrder 12; DcaBuy.EmitCanceled 12;
         DcaBuy.NewOrder "SELL" "3" "95" "9a1b-5000-S-TP";
         DcaBuy.EmitPlaced "SELL" 95%float 3%float 13 ].
Proof. vm_compute. repeat split; reflexivity. Qed.

(** A report for a buy that is already recorded changes nothing. *)
Example S3_duplicate_report :
  DcaBuy.onExecutionReport S3_settings (S3_env 6000 14) (S3_fill 2)
    S3_after_three
  = S3_after_three.
Proof. vm_compute. reflexivity. Qed.

(** ** Stream client: shutdown *)

(** [closeAll] cancels the keepalive interval it knows of. *)
Lemma closeAll_cancels_keepalive (st : WsClient.state) (t : nat) :
  WsClient.keepAliveTimer st = Some t ->
  ~ In t (WsClient.intervals (WsClient.closeAll st)).
Proof.
  intros Ht. unfold WsClient.closeAll. rewrite Ht. simpl.
  intros Hin. apply filter_In in Hin as [_ Hne].
  rewrite Nat.eqb_refl in Hne. discriminate Hne.
Qed.

(** Once [closed] is set it stays set. *)
Lemma closed_is_final (e : WsClient.event) (st : WsClient.state) :
  WsClient.closed st = true -> WsClient.closed (WsClient.step e st) = true.
Proof.
  intros Hc. destruct e as [| answer | symbol streamType | i | k | t |]; simpl.
  - exact Hc.
  - unfold WsClient.listenKeyArrived. destruct (WsClient.in_flight st); [exact Hc |].
    destruct answer; [| exact Hc]. unfold WsClient.openUserWS. simpl. exact Hc.
  - unfold WsClient.subscribeMarketSymbol. destruct (Js.assoc _ _); exact Hc.
  - unfold WsClient.socketClosed. destruct (nth_error _ _) as [s |]; [| exact Hc].
    destruct (WsClient.phase_of s); try exact Hc;
      destruct (WsClient.opened_for s); exact Hc.
  - unfold WsClient.timeoutFired. destruct (nth_error _ _) as [cb |]; [| exact Hc].
    destruct cb as [| symbol streamType].
    + unfold WsClient.recreateUserStream. simpl. rewrite Hc. reflexivity.
    + unfold WsClient.subscribeMarketSymbol. simpl.
      destruct (Js.assoc _ _); exact Hc.
  - unfold WsClient.intervalFired, WsClient.keepAlive.
    destruct (existsb _ _); [| exact Hc].
    destruct (WsClient.userListenKey st); exact Hc.
  - reflexivity.
Qed.

(** The user stream is guarded: after [closeAll], the timeout set by the
    user socket's [close] listener requests no listen key. *)
Lemma user_stream_not_recreated (st : WsClient.state) (k : nat) :
  WsClient.closed st = true ->
  nth_error (WsClient.timeouts st) k = Some WsClient.RecreateUserStream ->
  WsClient.activity (WsClient.timeoutFired k st) = WsClient.activity st
  /\ WsClient.in_flight (WsClient.timeoutFired k st) = WsClient.in_flight st.
Proof.
  intros Hc Hk. unfold WsClient.timeoutFired. rewrite Hk.
  unfold WsClient.recreateUserStream. simpl. rewrite Hc. split; reflexivity.
Qed.

(** The market streams are not: after [closeAll], the timeout set by a
    market socket's [close] listener opens a new connection whenever the
    stream is not in the table, which [closeAll] has just emptied. *)
Lemma market_stream_resubscribed (st : WsClient.state) (k : nat)
  (symbol streamType : string) :
  nth_error (WsClient.timeouts st) k = Some (WsClient.Resubscribe symbol streamType) ->
  Js.assoc (WsClient.stream_of symbol streamType) (WsClient.marketWss st) = None ->
  WsClient.activity (WsClient.timeoutFired k st)
  = (WsClient.activity st
       ++ [WsClient.Connect (WsClient.MarketStream symbol streamType)])%list.
Proof.
  intros Hk Hfree. unfold WsClient.timeoutFired. rewrite Hk.
  unfold WsClient.subscribeMarketSymbol. simpl. rewrite Hfree. reflexivity.
Qed.

(** C9 (the code departs from the claim): after [closeAll()] on a client
    with one market subscription, the table of market sockets is empty and
    the socket is closing; when its [close] event arrives and the timeout
    of its listener fires, a new connection to the same stream is opened
    although [closed] is set.  The user stream, whose reconnection checks
    [closed], stays down in the same situation. *)
Theorem market_stream_reopens_after_closeAll :
  WsClient.closed market_shutdown = true
  /\ WsClient.marketWss market_shutdown = []
  /\ WsClient.sockets market_shutdown
     = [WsClient.mkSocket (WsClient.MarketStream "BTCUSDT" "kline_1m")
          WsClient.Closing]
  /\ WsClient.closed market_after_close_event = true
  /\ WsClient.marketWss market_after_close_event = [("btcusdt@kline_1m", 1%nat)]
  /\ WsClient.sockets market_after_close_event
     = [ WsClient.mkSocket (WsClient.MarketStream "BTCUSDT" "kline_1m")
           WsClient.Closed;
         WsClient.mkSocket (WsClient.MarketStream "BTCUSDT" "kline_1m")
           WsClient.Live ]
  /\ WsClient.reconnections market_after_close_event
     = S (WsClient.reconnections market_shutdown)
  /\ WsClient.intervals user_shutdown = []
  /\ WsClient.sockets user_after_close_event
     = [WsClient.mkSocket (WsClient.UserStream "lk1") WsClient.Closed]
  /\ WsClient.reconnections user_after_close_event
     = WsClient.reconnections user_shutdown.
Proof. vm_compute. repeat split; reflexivity. Qed.

(** * Further properties of the code *)

(** ** Strings *)

Lemma length_append (a b : string) :
  String.length (a ++ b)%string = (String.length a + String.length b)%nat.
Proof.
  induction a as [| c a IH]; [reflexivity |].
  rewrite append_cons. simpl. rewrite IH. reflexivity.
Qed.

Lemma append_inv_tail (a b s : string) :
  (a ++ s)%string = (b ++ s)%string -> a = b.
Proof.
  revert b. induction a as [| c a IH]; intros [| c' b] H.
  - reflexivity.
  - apply (f_equal String.length) in H.
    rewrite !length_append in H. simpl in H. lia.
  - apply (f_equal String.length) in H.
    rewrite !length_append in H. simpl in H. lia.
  - rewrite !append_cons in H. injection H as -> H. f_equal. apply IH, H.
Qed.

Lemma fileForBot_inj (a b : string) :
  Persistence.fileForBot a = Persistence.fileForBot b -> a = b.
Proof.
  unfold Persistence.fileForBot. intros H.
  apply String.app_inj in H. apply String.app_inj in H.
  apply append_inv_tail in H. exact H.
Qed.

Lemma stringify_parse (v : Js.data) (j : Persistence.json) :
  Persistence.stringify v = Some j -> Persistence.stringify (Persistence.parse j) = Some j.
Proof.
  revert j.
  induction v as [| | b | n | s | items IH | props IH] using Js.data_induction;
    simpl; intros j Hj; try discriminate; injection Hj as <-; try reflexivity.
  - destruct (is_finite n) eqn:Hfin; [| reflexivity].
    destruct (PrimFloat.Leibniz.eqb n neg_zero) eqn:Hz; simpl.
    + reflexivity.
    + rewrite Hfin, Hz. reflexivity.
  - simpl. f_equal. f_equal.
    induction IH as [| x l Hx _ IHl]; simpl; [reflexivity |].
    rewrite IHl. f_equal.
    destruct (Persistence.stringify x) as [jx |] eqn:Hx'; simpl.
    + rewrite (Hx jx eq_refl). reflexivity.
    + reflexivity.
  - simpl. f_equal. f_equal.
    induction IH as [| [k x] l Hx _ IHl]; simpl in *; [reflexivity |].
    destruct (Persistence.stringify x) as [jx |] eqn:Hx'; simpl.
    + rewrite (Hx jx eq_refl). rewrite IHl. reflexivity.
    + exact IHl.
Qed.

(** ** Retry and the signed request *)

Section RetrySchedule.
Context {A : Type}.
Variable fn : nat -> Js.outcome A.
Variable opts : Retry.options.

Lemma retry_loop_invocations_ge attempt delay calls :
  (attempt <= Retry.retries opts)%nat ->
  (S calls <= Retry.invocations (Retry.retry_loop fn opts attempt delay calls))%nat.
Proof.
  funelim (Retry.retry_loop fn opts attempt delay calls); simpl; intros Hle;
    lia.
Qed.

Lemma retry_loop_slept attempt delay calls :
  Retry.slept (Retry.retry_loop fn opts attempt delay calls)
  = List.map (fun i => delay * Retry.factor opts ^ Z.of_nat i)
      (seq 0 (Retry.invocations (Retry.retry_loop fn opts attempt delay calls)
              - S calls)).
Proof.
  funelim (Retry.retry_loop fn opts attempt delay calls); simpl.
  - replace (calls - S calls)%nat with 0%nat by lia. reflexivity.
  - rewrite Nat.sub_diag. reflexivity.
  - rewrite Nat.sub_diag. reflexivity.
  - rewrite H.
    pose proof (retry_loop_invocations_ge (S attempt)
                  (delay * Retry.factor opts) (S calls) ltac:(lia)) as Hge.
    set (inv := Retry.invocations _) in *.
    replace (inv - S calls)%nat with (S (inv - S (S calls))) by lia.
    cbn [seq List.map]. rewrite Z.pow_0_r, Z.mul_1_r. f_equal.
    rewrite <- seq_shift, List.map_map. apply List.map_ext. intros i.
    rewrite Nat2Z.inj_succ, Z.pow_succ_r by lia. ring.
Qed.

Lemma retry_loop_first_success (errs : nat -> Js.error) (v : A) (k : nat)
  attempt delay calls :
  (attempt + k <= Retry.retries opts)%nat ->
  (forall i, (i < k)%nat -> fn (calls + i)%nat = Js.Throw (errs i)) ->
  fn (calls + k)%nat = Js.Return v ->
  Retry.retry_loop fn opts attempt delay calls
  = Retry.mkRun (Js.Return (Some v)) (calls + k + 1)
      (if Retry.onRetry opts
       then List.map (fun i => ((attempt + 1 + i)%nat, errs i)) (seq 0 k)
       else [])
      (List.map (fun i => delay * Retry.factor opts ^ Z.of_nat i) (seq 0 k)).
Proof.
  revert attempt delay calls errs.
  induction k as [| k IH]; intros attempt delay calls errs Hle Hfail Hok.
  - rewrite Nat.add_0_r in Hok. simp retry_loop.
    destruct (le_lt_dec attempt (Retry.retries opts)) as [Hl | Hl]; [| lia].
    simpl. rewrite Hok. simpl. rewrite Nat.add_0_r.
    replace (calls + 1)%nat with (S calls) by lia.
    destruct (Retry.onRetry opts); reflexivity.
  - simp retry_loop.
    destruct (le_lt_dec attempt (Retry.retries opts)) as [Hl | Hl]; [| lia].
    simpl. pose proof (Hfail 0%nat ltac:(lia)) as H0.
    rewrite Nat.add_0_r in H0. rewrite H0.
    simpl. destruct (Nat.eq_dec attempt (Retry.retries opts)) as [E | NE]; [lia |].
    simpl.
    rewrite (IH (S attempt) (delay * Retry.factor opts) (S calls)
               (fun i => errs (S i))).
    + unfold Retry.after_failure. simpl. f_equal.
      * lia.
      * destruct (Retry.onRetry opts); [| reflexivity]. simpl.
        rewrite Nat.add_0_r. replace (attempt + 1)%nat with (S attempt) by lia.
        f_equal. rewrite <- seq_shift, List.map_map. apply List.map_ext.
        intros i. f_equal. lia.
      * rewrite Z.pow_0_r, Z.mul_1_r. f_equal.
        rewrite <- seq_shift, List.map_map. apply List.map_ext. intros i.
        rewrite Nat2Z.inj_succ, Z.pow_succ_r by lia. ring.
    + lia.
    + intros i Hi. replace (S calls + i)%nat with (calls + S i)%nat by lia.
      apply Hfail. lia.
    + replace (S calls + k)%nat with (calls + S k)%nat by lia. exact Hok.
Qed.

End RetrySchedule.

(** X1: [retry] returns the value of the first invocation that succeeds:
    when invocations [0 .. k-1] throw and invocation [k <= retries]
    returns [v], the result is [v] after exactly [k + 1] invocations,
    [onRetry] (when given) was told attempts [1 .. k] with their errors in
    order, and the waits were [minTimeout * factor^i] for [i < k]. *)
Theorem retry_returns_first_success {A} (fn : nat -> Js.outcome A)
  (opts : Retry.options) (errs : nat -> Js.error) (v : A) (k : nat) :
  (k <= Retry.retries opts)%nat ->
  (forall i, (i < k)%nat -> fn i = Js.Throw (errs i)) ->
  fn k = Js.Return v ->
  Retry.retry fn opts
  = Retry.mkRun (Js.Return (Some v)) (k + 1)
      (if Retry.onRetry opts
       then List.map (fun i => ((i + 1)%nat, errs i)) (seq 0 k)
       else [])
      (List.map (fun i => Retry.minTimeout opts * Retry.factor opts ^ Z.of_nat i)
         (seq 0 k)).
Proof.
  intros Hk Hfail Hok. unfold Retry.retry.
  rewrite (retry_loop_first_success fn opts errs v k 0 (Retry.minTimeout opts) 0);
    try assumption; try lia.
  f_equal. destruct (Retry.onRetry opts); [| reflexivity].
  apply List.map_ext. intros i. f_equal. lia.
Qed.

Lemma retry_returns_first_success_witness :
  Retry.retry third_time_lucky Gateway.signed_options
  = Retry.mkRun (Js.Return (Some 2%nat)) 3
      [(1%nat, Js.TypeError "timeout"); (2%nat, Js.TypeError "timeout")]
      [300; 600].
Proof.
  apply (retry_returns_first_success third_time_lucky Gateway.signed_options
           (fun _ => Js.TypeError "timeout") 2%nat 2%nat).
  - simpl. lia.
  - intros i Hi. unfold third_time_lucky.
    destruct i as [| [| i]]; [reflexivity | reflexivity | lia].
  - reflexivity.
Defined.

(** X2: whatever the wrapped function does, [retry] invokes it at least
    once and sleeps once between two consecutive invocations, the [i]-th
    wait being [minTimeout * factor^i]; nothing is slept after the last
    invocation. *)
Theorem retry_backoff_schedule {A} (fn : nat -> Js.outcome A)
  (opts : Retry.options) :
  Retry.slept (Retry.retry fn opts)
  = List.map (fun i => Retry.minTimeout opts * Retry.factor opts ^ Z.of_nat i)
      (seq 0 (Retry.invocations (Retry.retry fn opts) - 1))
  /\ (1 <= Retry.invocations (Retry.retry fn opts))%nat.
Proof.
  unfold Retry.retry. split.
  - apply retry_loop_slept.
  - apply retry_loop_invocations_ge. lia.
Qed.

(** X3: the waits of a signed request are a prefix of 300, 600 and
    1200 ms, so a signed request never sleeps more than 2100 ms in
    total. *)
Theorem signedRequest_total_wait (http : nat -> Js.outcome Js.data) :
  (exists n, (n <= 3)%nat
             /\ Retry.slept (Gateway.signedRequest_run http)
                = firstn n [300; 600; 1200])
  /\ fold_right Z.add 0 (Retry.slept (Gateway.signedRequest_run http)) <= 2100.
Proof.
  unfold Gateway.signedRequest_run.
  pose proof (retry_invocations_le http Gateway.signed_options) as Hle.
  pose proof (retry_loop_invocations_ge http Gateway.signed_options 0
                (Retry.minTimeout Gateway.signed_options) 0 ltac:(cbn; lia)) as Hge.
  pose proof (retry_loop_slept http Gateway.signed_options 0
                (Retry.minTimeout Gateway.signed_options) 0) as Hs.
  fold (Retry.retry http Gateway.signed_options) in Hge, Hs.
  change (Retry.retries Gateway.signed_options) with 3%nat in Hle.
  rewrite Hs.
  set (inv := Retry.invocations _) in *.
  assert (Hcases : (inv - 1 = 0 \/ inv - 1 = 1 \/ inv - 1 = 2 \/ inv - 1 = 3)%nat)
    by lia.
  destruct Hcases as [-> | [-> | [-> | ->]]]; cbn.
  - split; [exists 0%nat; split; [lia | reflexivity] | lia].
  - split; [exists 1%nat; split; [lia | reflexivity] | lia].
  - split; [exists 2%nat; split; [lia | reflexivity] | lia].
  - split; [exists 3%nat; split; [lia | reflexivity] | lia].
Qed.

(** X4: the files of two different bots are different: saving or
    deleting the state of bot [a] does not change what [loadBotState]
    returns for another bot [b]. *)
Theorem persistence_isolation (a b : string) (state : Js.data)
  (now : JsNumber.number) (d : Persistence.disk) :
  plain_id a = true -> plain_id b = true -> a <> b ->
  Persistence.loadBotState b (Persistence.saveBotState a state now d)
  = Persistence.loadBotState b d
  /\ Persistence.loadBotState b (Persistence.deleteBotState a d)
     = Persistence.loadBotState b d.
Proof.
  intros _ _ Hne.
  assert (Hfile : Persistence.fileForBot a <> Persistence.fileForBot b).
  { intros H. apply Hne, fileForBot_inj, H. }
  split.
  - unfold Persistence.saveBotState, Persistence.writeFileSync.
    destruct (Persistence.stringify _) as [j |]; [| reflexivity].
    destruct (decide _); [reflexivity |].
    unfold Persistence.loadBotState. cbn [Persistence.files].
    rewrite lookup_insert_ne by exact Hfile. reflexivity.
  - unfold Persistence.deleteBotState. destruct (decide _); [reflexivity |].
    unfold Persistence.loadBotState. cbn [Persistence.files].
    rewrite lookup_delete_ne by exact Hfile. reflexivity.
Qed.

Lemma persistence_isolation_witness :
  Persistence.loadBotState "b2"
    (Persistence.saveBotState "b1" lossy_state 1700000000456%float
       (Persistence.saveBotState "b2" sample_state 1700000000123%float empty_disk))
  = Persistence.loadBotState "b2"
      (Persistence.saveBotState "b2" sample_state 1700000000123%float empty_disk).
Proof.
  apply (persistence_isolation "b1" "b2" lossy_state 1700000000456%float).
  - reflexivity.
  - reflexivity.
  - discriminate.
Defined.

Lemma deleteBotState_unlocked (botId : string) (d : Persistence.disk) :
  Persistence.fileForBot botId ∉ Persistence.locked d ->
  Persistence.deleteBotState botId d
  = Persistence.mkDisk (delete (Persistence.fileForBot botId) (Persistence.files d))
      (Persistence.locked d).
Proof.
  intros Hfree. unfold Persistence.deleteBotState.
  destruct (decide _) as [Hin | _]; [contradiction | reflexivity].
Qed.

Lemma saveBotState_locked (botId : string) (state : Js.data)
  (now : JsNumber.number) (d : Persistence.disk) :
  Persistence.locked (Persistence.saveBotState botId state now d)
  = Persistence.locked d.
Proof.
  unfold Persistence.saveBotState, Persistence.writeFileSync.
  destruct (Persistence.stringify _); [| reflexivity].
  destruct (decide _); reflexivity.
Qed.

(** X5: after [deleteBotState] a saved state is gone, [loadBotState]
    returns [null]; deleting twice is the same as deleting once (the second
    call finds no file and does nothing). *)
Theorem deleteBotState_forgets (botId : string) (state : Js.data)
  (now : JsNumber.number) (d : Persistence.disk) :
  Persistence.fileForBot botId ∉ Persistence.locked d ->
  Persistence.loadBotState botId
    (Persistence.deleteBotState botId (Persistence.saveBotState botId state now d))
  = Js.DNull
  /\ Persistence.deleteBotState botId (Persistence.deleteBotState botId d)
     = Persistence.deleteBotState botId d.
Proof.
  intros Hfree. split.
  - rewrite deleteBotState_unlocked by (rewrite saveBotState_locked; exact Hfree).
    unfold Persistence.loadBotState. cbn [Persistence.files].
    rewrite lookup_delete_eq. reflexivity.
  - rewrite (deleteBotState_unlocked botId d Hfree).
    rewrite deleteBotState_unlocked by exact Hfree.
    cbn [Persistence.files Persistence.locked]. rewrite delete_delete_eq.
    reflexivity.
Qed.

Lemma deleteBotState_forgets_witness :
  Persistence.loadBotState "b1"
    (Persistence.deleteBotState "b1"
       (Persistence.saveBotState "b1" sample_state 1700000000123%float empty_disk))
  = Js.DNull.
Proof.
  apply (deleteBotState_forgets "b1" sample_state 1700000000123%float empty_disk).
  simpl. apply not_elem_of_empty.
Defined.

Lemma loaded_after_write (botId : string) (state : Js.data)
  (now : JsNumber.number) (d : Persistence.disk) :
  Persistence.fileForBot botId ∉ Persistence.locked d ->
  Persistence.loadBotState botId (Persistence.saveBotState botId state now d)
  = match Persistence.stringify state with
    | Some j => Js.or_else (Persistence.parse j) Js.DNull
    | None => Js.DNull
    end.
Proof.
  intros Hfree. unfold Persistence.saveBotState, Persistence.writeFileSync.
  cbn [Persistence.stringify].
  destruct (decide _) as [Hin | _]; [contradiction |].
  unfold Persistence.loadBotState. cbn [Persistence.files].
  rewrite lookup_insert_eq.
  destruct (Persistence.stringify state) as [j |];
    destruct (if is_finite now then _ else _); reflexivity.
Qed.

(** X6: what [loadBotState] returns survives another save and load
    unchanged, for every state, also one that JSON cannot represent
    faithfully: the loss happens once, at the first save. *)
Theorem reloaded_state_is_stable (botId : string) (state : Js.data)
  (now later : JsNumber.number) (d d' : Persistence.disk) :
  Persistence.fileForBot botId ∉ Persistence.locked d ->
  Persistence.fileForBot botId ∉ Persistence.locked d' ->
  Persistence.loadBotState botId
    (Persistence.saveBotState botId
       (Persistence.loadBotState botId
          (Persistence.saveBotState botId state now d))
       later d')
  = Persistence.loadBotState botId (Persistence.saveBotState botId state now d).
Proof.
  intros Hfree Hfree'. rewrite (loaded_after_write botId state now d Hfree).
  rewrite loaded_after_write by exact Hfree'.
  destruct (Persistence.stringify state) as [j |] eqn:Hj; [| reflexivity].
  unfold Js.or_else.
  destruct (Js.is_truthy (Persistence.parse j)) eqn:Htruthy; [| reflexivity].
  rewrite (stringify_parse state j Hj), Htruthy. reflexivity.
Qed.

Lemma reloaded_state_is_stable_witness :
  Persistence.loadBotState "b1"
    (Persistence.saveBotState "b1"
       (Persistence.loadBotState "b1"
          (Persistence.saveBotState "b1" lossy_state 1700000000123%float
             empty_disk))
       1700000000456%float empty_disk)
  = Persistence.loadBotState "b1"
      (Persistence.saveBotState "b1" lossy_state 1700000000123%float empty_disk).
Proof.
  apply (reloaded_state_is_stable "b1" lossy_state 1700000000123%float
           1700000000456%float empty_disk empty_disk);
    simpl; apply not_elem_of_empty.
Defined.

(** ** The cache *)

(** Cache *)

(** X7: without Redis, [get] returns what [set] stored for its key as
    long as no more than 30000 ms have passed since [set] read the clock,
    and [null] afterwards, the expired entry being deleted from the map;
    [set] does not change what [get] returns for another key. *)
Theorem cache_entry_expires (key : string) (value : Js.data) (t0 t0' t : Z)
  (st : Cache.state) :
  Cache.redisClient st = None ->
  fst (Cache.get key t (Cache.set key value t0 t0' st))
  = (if 30000 <? t - t0 then Js.DNull else value)
  /\ (30000 < t - t0 ->
      Cache.memory (snd (Cache.get key t (Cache.set key value t0 t0' st))) !! key
      = None)
  /\ (forall other, other <> key ->
      fst (Cache.get other t (Cache.set key value t0 t0' st))
      = fst (Cache.get other t st)).
Proof.
  intros Hno. unfold Cache.set, Cache.setMemory. cbn [Cache.redisClient].
  rewrite Hno. unfold Cache.get, Cache.getMemory. cbn [Cache.redisClient Cache.memory].
  rewrite Hno. repeat split.
  - rewrite lookup_insert_eq. cbn [Cache.ts Cache.v].
    destruct (30000 <? t - t0); reflexivity.
  - intros Hold. rewrite lookup_insert_eq. cbn [Cache.ts].
    apply Z.ltb_lt in Hold. rewrite Hold. cbn. apply lookup_delete_eq.
  - intros other Hne. rewrite lookup_insert_ne by congruence.
    destruct (Cache.memory st !! other) as [e |]; [| reflexivity].
    destruct (30000 <? t - Cache.ts e); reflexivity.
Qed.

Lemma cache_entry_expires_witness :
  fst (Cache.get "price:BTCUSDT" 31001
         (Cache.set "price:BTCUSDT" sample_price 1000 1000 Cache.empty))
  = Js.DNull
  /\ fst (Cache.get "price:BTCUSDT" 31000
            (Cache.set "price:BTCUSDT" sample_price 1000 1000 Cache.empty))
     = sample_price.
Proof.
  split.
  - exact (proj1 (cache_entry_expires "price:BTCUSDT" sample_price 1000 1000
                    31001 Cache.empty eq_refl)).
  - exact (proj1 (cache_entry_expires "price:BTCUSDT" sample_price 1000 1000
                    31000 Cache.empty eq_refl)).
Defined.

(** X8: with a Redis client whose commands succeed, [get] returns the
    value given to [set] however much time has passed: the [ts] stored next
    to the value is never read, so the 30 s limit of the memory map does not
    apply (for a value that JSON represents faithfully). *)
Theorem cache_redis_never_expires (key : string) (value : Js.data)
  (t0 t0' t : Z) (st : Cache.state) (r : Cache.redis) :
  Cache.redisClient st = Some r -> Cache.online r = true ->
  Persistence.json_safe value = true ->
  fst (Cache.get key t (Cache.set key value t0 t0' st)) = value.
Proof.
  intros Hr Hon Hsafe.
  destruct (parse_stringify value Hsafe) as (j & Hj & Hparse).
  unfold Cache.set, Cache.setMemory. cbn [Cache.redisClient]. rewrite Hr, Hon.
  cbn [Persistence.stringify]. rewrite Hj.
  unfold Cache.get. cbn [Cache.redisClient Cache.online Cache.stored].
  rewrite lookup_insert_eq. cbn [Persistence.parse].
  destruct (if is_finite _ then _ else _); cbn; rewrite Hparse; reflexivity.
Qed.

Lemma cache_redis_never_expires_witness :
  fst (Cache.get "price:BTCUSDT" 86400000
         (Cache.set "price:BTCUSDT" sample_price 1000 1000 with_redis))
  = sample_price.
Proof.
  apply (cache_redis_never_expires "price:BTCUSDT" sample_price 1000 1000
           86400000 with_redis (Cache.mkRedis true ∅)); reflexivity.
Defined.

(** ** The clock offset and the display of durations *)

(** X9: when the exchange read its clock at some moment between the two
    local clock readings of [syncTime], the offset it computes differs from
    the true difference of the clocks by at most half the round trip (plus
    half a millisecond for the rounding), and so does the [timestamp] of
    every later signed request; a failed request or an answer that is not a
    number leaves the offset as it was. *)
Theorem syncTime_within_half_round_trip (before after at_ skew offset : Z) :
  before <= at_ <= after ->
  2 * Z.abs (ClockSync.syncTime before after
               (Js.Return (ClockSync.Millis (at_ + skew))) offset - skew)
    <= after - before + 1
  /\ (forall now,
        2 * Z.abs (ClockSync.timestamp now
                     (ClockSync.syncTime before after
                        (Js.Return (ClockSync.Millis (at_ + skew))) offset)
                   - (now + skew))
          <= after - before + 1)
  /\ (forall e, ClockSync.syncTime before after (Js.Throw e) offset = offset)
  /\ ClockSync.syncTime before after (Js.Return ClockSync.NotANumber) offset
     = offset.
Proof.
  intros Hat. unfold ClockSync.syncTime, ClockSync.timestamp.
  pose proof (Z.div_mod (after - before) 2 ltac:(lia)) as Hdm.
  pose proof (Z.mod_pos_bound (after - before) 2 ltac:(lia)) as Hm.
  repeat split; try reflexivity.
  - lia.
  - intros now. destruct (Z.eqb_spec (at_ + skew - (after - (after - before) / 2)) 0); lia.
Qed.

Lemma syncTime_within_half_round_trip_witness :
  2 * Z.abs (ClockSync.syncTime 1000 1100
               (Js.Return (ClockSync.Millis (1030 + 5000))) 0 - 5000)
  <= 1100 - 1000 + 1.
Proof.
  apply (syncTime_within_half_round_trip 1000 1100 1030 5000 0). lia.
Defined.

Lemma ends_with_s (a : string) : (a ++ "s")%string <> "None".
Proof.
  intros H. apply (f_equal (fun s => String.get (String.length s - 1) s)) in H.
  rewrite length_append in H. simpl in H.
  replace (String.length a + 1 - 1)%nat with (0 + String.length a)%nat in H by lia.
  rewrite <- append_correct2 in H. simpl in H. discriminate H.
Qed.

Lemma append_assoc (a b c : string) :
  ((a ++ b) ++ c)%string = (a ++ (b ++ c))%string.
Proof.
  induction a as [| x a IH]; [reflexivity |].
  rewrite !append_cons, IH. reflexivity.
Qed.

(** X10: [_formatDuration] returns [None] exactly for durations under
    one second (negative ones included); for a whole number of
    milliseconds from 1000 up to [2^53 - 1] it prints hours, minutes and
    seconds with minutes and seconds below 60, the three adding up to the
    whole seconds of the duration, leading zero fields being dropped (but
    not a zero field after a non-zero one). *)
Theorem formatDuration_fields (ms : Z) :
  (BotRegistry.formatDuration ms = "None" <-> ms < 1000)
  /\ (1000 <= ms <= 9007199254740991 ->
      exists h m s,
        0 <= h /\ 0 <= m < 60 /\ 0 <= s < 60
        /\ ms / 1000 = h * 3600 + m * 60 + s
        /\ BotRegistry.formatDuration ms
           = if 0 <? h then
               (JsNumber.digits_of h ++ "h " ++ JsNumber.digits_of m ++ "m "
                  ++ JsNumber.digits_of s ++ "s")%string
             else if 0 <? m then
               (JsNumber.digits_of m ++ "m " ++ JsNumber.digits_of s ++ "s")%string
             else (JsNumber.digits_of s ++ "s")%string).
Proof.
  split; [split |].
  - intros H. destruct (Z.ltb_spec ms 1000) as [Hlt | Hge]; [exact Hlt |].
    exfalso. unfold BotRegistry.formatDuration in H.
    destruct (Z.eqb_spec ms 0) as [E | _]; [lia |].
    destruct (Z.ltb_spec ms 1000) as [Hlt | _]; [lia |]. simpl in H.
    destruct (0 <? ms / 1000 / 3600); [| destruct (0 <? _)];
      rewrite <- ?append_assoc in H; exact (ends_with_s _ H).
  - intros Hlt. unfold BotRegistry.formatDuration.
    destruct (Z.ltb_spec ms 1000) as [_ | Hge]; [| lia].
    rewrite orb_true_r. reflexivity.
  - intros Hge. unfold BotRegistry.formatDuration.
    destruct (Z.eqb_spec ms 0) as [E | _]; [lia |].
    destruct (Z.ltb_spec ms 1000) as [Hlt | _]; [lia |]. simpl.
    set (sec := ms / 1000).
    assert (Hsec : 0 <= sec) by (apply Z.div_pos; lia).
    exists (sec / 3600), (sec mod 3600 / 60), (sec mod 60).
    pose proof (Z.div_mod sec 3600 ltac:(lia)) as H1.
    pose proof (Z.mod_pos_bound sec 3600 ltac:(lia)) as H2.
    pose proof (Z.div_mod (sec mod 3600) 60 ltac:(lia)) as H3.
    pose proof (Z.mod_pos_bound (sec mod 3600) 60 ltac:(lia)) as H4.
    assert (H5 : sec mod 60 = (sec mod 3600) mod 60).
    { symmetry. apply Z.mod_mod_divide. exists 60. reflexivity. }
    assert (H6 : 0 <= sec / 3600) by (apply Z.div_pos; lia).
    assert (H7 : 0 <= sec mod 3600 / 60 < 60).
    { split; [apply Z.div_pos; lia | apply Z.div_lt_upper_bound; lia]. }
    repeat split; try lia.
Qed.

(** ** The registry *)

Lemma map_get_delete_same (key : string) (l : list (string * BotManager.bot)) :
  BotManager.map_get key (BotRegistry.map_delete key l) = None.
Proof.
  induction l as [| [k b] l IH]; simpl; [reflexivity |].
  destruct (String.eqb k key) eqn:E; simpl; [exact IH |].
  rewrite E. exact IH.
Qed.

Lemma map_get_delete_other (key other : string)
  (l : list (string * BotManager.bot)) :
  other <> key ->
  BotManager.map_get other (BotRegistry.map_delete key l)
  = BotManager.map_get other l.
Proof.
  intros Hne. induction l as [| [k b] l IH]; simpl; [reflexivity |].
  destruct (String.eqb_spec k key) as [-> | Hk]; simpl.
  - destruct (String.eqb_spec key other) as [E | _]; [congruence | exact IH].
  - destruct (String.eqb k other); [reflexivity | exact IH].
Qed.

(** X11: [removeBot] of a registered bot removes it from the registry
    and leaves every other bot as it was, cleans up its order
    subscriptions, and deletes its file (when the file can be removed), so
    that nothing is loaded for it afterwards. *)
Theorem removeBot_forgets (botId : string) (m : BotManager.manager)
  (d : Persistence.disk) (b : BotManager.bot) :
  BotRegistry.getBot botId m = Some b ->
  BotRegistry.getBot botId (fst (BotRegistry.removeBot botId m d)) = None
  /\ (forall other, other <> botId ->
        BotRegistry.getBot other (fst (BotRegistry.removeBot botId m d))
        = BotRegistry.getBot other m)
  /\ (Persistence.fileForBot botId ∉ Persistence.locked d ->
        Persistence.loadBotState botId (snd (BotRegistry.removeBot botId m d))
        = Js.DNull)
  /\ BotManager.log (fst (BotRegistry.removeBot botId m d))
     = (BotManager.log m ++ [BotManager.CleanupSubscriptions botId])%list.
Proof.
  intros Hb. unfold BotRegistry.removeBot. rewrite Hb. cbn [fst snd].
  unfold BotRegistry.getBot. cbn [BotManager.bots BotManager.log].
  repeat split.
  - apply map_get_delete_same.
  - intros other Hne. apply map_get_delete_other, Hne.
  - intros Hfree. unfold Persistence.deleteBotState, Persistence.loadBotState.
    destruct (decide _) as [Hin | _]; [contradiction |].
    cbn [Persistence.files]. rewrite lookup_delete_eq. reflexivity.
Qed.

Lemma removeBot_forgets_witness :
  BotRegistry.getBot "b1"
    (fst (BotRegistry.removeBot "b1" lifecycle_final empty_disk))
  = None.
Proof.
  apply (removeBot_forgets "b1" lifecycle_final empty_disk lifecycle_bot).
  reflexivity.
Defined.

Lemma removeBot_unknown (botId : string) (m : BotManager.manager)
  (d : Persistence.disk) :
  BotRegistry.getBot botId m = None -> BotRegistry.removeBot botId m d = (m, d).
Proof. intros H. unfold BotRegistry.removeBot. rewrite H. reflexivity. Qed.

(** loadBotsFromDisk stops at a throwing factory *)

Lemma load_stops (rf : BotManager.bot -> bool) (e : BotManager.entry)
  (saved : BotManager.snapshot) (n : string)
  (before after : list BotManager.entry) (m : BotManager.manager) :
  BotManager.loaded e = Some saved ->
  BotManager.s_name saved = Some n -> n <> "" ->
  (forall b, BotManager.strategy b = BotManager.s_strategy saved -> rf b = false) ->
  BotManager.loadBotsFromDisk rf (before ++ e :: after) m
  = BotManager.loadBotsFromDisk rf before m.
Proof.
  intros Hl Hn Hne Hrf. revert m.
  induction before as [| x before IH]; intros m.
  - cbn [app BotManager.loadBotsFromDisk]. rewrite Hl, Hn.
    destruct (String.eqb_spec n "") as [E | _]; [contradiction |].
    rewrite Hrf; reflexivity.
  - cbn [app BotManager.loadBotsFromDisk].
    destruct (BotManager.loaded x) as [sx |]; [| apply IH].
    destruct (BotManager.s_name sx) as [nx |]; [| apply IH].
    destruct (String.eqb nx ""); [apply IH |].
    destruct (rf _); [| reflexivity].
    destruct (if BotManager.saved_running sx then _ else _) as [b' effs].
    apply IH.
Qed.

(** X12: [createBot] with a strategy [runnerFactoryFor] does not know
    registers no bot but has already written the bot's file; at the next
    start [loadBotsFromDisk] throws on that file, and the files that come
    after it in the directory listing are not loaded. *)
Theorem unknown_strategy_blocks_loading (botId name strategy symbol : string)
  (cfg : list (string * Js.data)) (timeNow restartedAt : Z)
  (m0 m : BotManager.manager) (before after : list BotManager.entry) :
  Server.runnerFactoryFor strategy = Js.Throw (Js.mkError "Unknown strategy" None None) ->
  name <> "" ->
  let m1 :=
    BotManager.createBot Server.runnerFactory botId name strategy symbol cfg
      timeNow m0 in
  BotManager.bots m1 = BotManager.bots m0
  /\ BotManager.on_disk botId (BotManager.log m1)
     = Some (BotManager.mkSnapshot (Some name) strategy symbol (Some "stopped")
               (Some (BotManager.mkConfig cfg (Some timeNow) None None))
               (Some (BotManager.mkStats (Some 0%float) (Some 0%float) (Some 0))))
  /\ BotManager.loadBotsFromDisk Server.runnerFactory
       (before
          ++ BotManager.mkEntry botId
               (BotManager.on_disk botId (BotManager.log m1)) restartedAt
          :: after) m
     = BotManager.loadBotsFromDisk Server.runnerFactory before m.
Proof.
  intros Hunknown Hname m1.
  set (snap := BotManager.mkSnapshot (Some name) strategy symbol (Some "stopped")
                 (Some (BotManager.mkConfig cfg (Some timeNow) None None))
                 (Some (BotManager.mkStats (Some 0%float) (Some 0%float) (Some 0)))).
  assert (Hrf : forall b, BotManager.strategy b = strategy ->
                          Server.runnerFactory b = false).
  { intros b Hb. unfold Server.runnerFactory. rewrite Hb, Hunknown. reflexivity. }
  assert (Hdisk : forall l,
            BotManager.on_disk botId (l ++ [BotManager.Persist botId snap])
            = Some snap).
  { induction l as [| x l IHl]; simpl.
    - rewrite String.eqb_refl. reflexivity.
    - rewrite IHl. reflexivity. }
  assert (Hm1 : BotManager.bots m1 = BotManager.bots m0
                /\ BotManager.log m1
                   = (BotManager.log m0 ++ [BotManager.Persist botId snap])%list).
  { subst m1. unfold BotManager.createBot. rewrite Hrf; [split; reflexivity |].
    reflexivity. }
  destruct Hm1 as [Hbots Hlog]. split; [exact Hbots |].
  rewrite Hlog, Hdisk. split; [reflexivity |].
  apply (load_stops Server.runnerFactory
           (BotManager.mkEntry botId (Some snap) restartedAt) snap name
           before after m); [reflexivity | reflexivity | exact Hname |].
  intros b Hb. apply Hrf. exact Hb.
Qed.

Lemma unknown_strategy_blocks_loading_witness :
  BotManager.loadBotsFromDisk Server.runnerFactory
    [ BotManager.mkEntry "b0"
        (BotManager.on_disk "b0"
           (BotManager.log
              (BotManager.createBot Server.runnerFactory "b0" "mart"
                 "martingale" "BTCUSDT" [] 1000 BotManager.empty)))
        5000;
      BotManager.mkEntry "b1" (Some (snapshot_S5 2000)) 5000 ]
    BotManager.empty
  = BotManager.empty.
Proof.
  apply (unknown_strategy_blocks_loading "b0" "mart" "martingale" "BTCUSDT" []
           1000 5000 BotManager.empty BotManager.empty []
           [BotManager.mkEntry "b1" (Some (snapshot_S5 2000)) 5000]).
  - reflexivity.
  - discriminate.
Defined.

(** X13: a bot started at [t1], stopped at [t2], started again at [t3]
    and stopped at [t4] keeps [timeStarted = t1]; its running duration is
    counted from [t1] and its last duration is [t4 - t1], the time it spent
    stopped included. *)
Theorem restarted_bot_duration (b : BotManager.bot) (t1 t2 t3 t4 now : Z) :
  BotManager.status b = "stopped" ->
  BotManager.timeStarted (BotManager.config b) = None ->
  t1 <> 0 ->
  let b1 := fst (BotManager.start t1 b) in
  let b2 := fst (BotManager.stop t2 b1) in
  let b3 := fst (BotManager.start t3 b2) in
  let b4 := fst (BotManager.stop t4 b3) in
  BotManager.currentDurationMs (BotManager.list_row now b1) = now - t1
  /\ BotManager.lastDurationMs (BotManager.stats b2) = Some (t2 - t1)
  /\ BotManager.timeStarted (BotManager.config b3) = Some t1
  /\ BotManager.currentDurationMs (BotManager.list_row now b3) = now - t1
  /\ BotManager.lastDurationMs (BotManager.stats b4) = Some (t4 - t1).
Proof.
  intros Hs Hts Ht1. cbv zeta.
  destruct b as [i n sg sy st [ps tc ts tp] stats rs]. cbn in Hs, Hts. subst st ts.
  apply Z.eqb_neq in Ht1.
  cbn. rewrite ?Ht1. cbn. rewrite ?Ht1. cbn. rewrite ?Ht1. cbn.
  repeat split; reflexivity.
Qed.

Lemma restarted_bot_duration_witness :
  BotManager.lastDurationMs
    (BotManager.stats
       (fst (BotManager.stop 12000
               (fst (BotManager.start 9000
                       (fst (BotManager.stop 5000
                               (fst (BotManager.start 2000 stopped_bot)))))))))
  = Some (12000 - 2000).
Proof.
  apply (restarted_bot_duration stopped_bot 2000 5000 9000 12000 0).
  - reflexivity.
  - reflexivity.
  - discriminate.
Defined.

Lemma map_get_set_same (key : string) (b : BotManager.bot)
  (l : list (string * BotManager.bot)) :
  BotManager.map_get key (BotManager.map_set key b l) = Some b.
Proof.
  induction l as [| [k b0] l IH]; simpl.
  - rewrite String.eqb_refl. reflexivity.
  - destruct (String.eqb k key) eqn:E; simpl; rewrite E; [reflexivity | exact IH].
Qed.

Lemma map_get_set_other (key other : string) (b : BotManager.bot)
  (l : list (string * BotManager.bot)) :
  other <> key ->
  BotManager.map_get other (BotManager.map_set key b l)
  = BotManager.map_get other l.
Proof.
  intros Hne. induction l as [| [k b0] l IH]; simpl.
  - destruct (String.eqb_spec key other) as [E | _]; [congruence | reflexivity].
  - destruct (String.eqb_spec k key) as [-> | Hk]; simpl.
    + destruct (String.eqb_spec key other) as [E | _]; [congruence | reflexivity].
    + destruct (String.eqb k other); [reflexivity | exact IH].
Qed.

Lemma stop_if_running_same (botId : string) (t : Z) (m : BotManager.manager)
  (b : BotManager.bot) :
  BotRegistry.getBot botId (Server.stop_if_running botId t m) = Some b ->
  BotManager.status b <> "running".
Proof.
  unfold Server.stop_if_running, BotRegistry.getBot.
  destruct (BotManager.map_get botId (BotManager.bots m)) as [b0 |] eqn:Hget.
  - unfold BotManager.is_running.
    destruct (String.eqb_spec (BotManager.status b0) "running") as [Hrun | Hno].
    + unfold BotManager.call. rewrite Hget.
      unfold BotManager.stop, BotManager.is_stopped. rewrite Hrun.
      cbn. rewrite map_get_set_same. intros H. injection H as <-. discriminate.
    + rewrite Hget. intros H. injection H as <-. exact Hno.
  - rewrite Hget. discriminate.
Qed.

Lemma stop_if_running_other (botId other : string) (t : Z)
  (m : BotManager.manager) :
  other <> botId ->
  BotRegistry.getBot other (Server.stop_if_running botId t m)
  = BotRegistry.getBot other m.
Proof.
  intros Hne. unfold Server.stop_if_running, BotRegistry.getBot.
  destruct (BotManager.map_get botId (BotManager.bots m)) as [b0 |] eqn:Hget;
    [| reflexivity].
  destruct (BotManager.is_running b0); [| reflexivity].
  unfold BotManager.call. rewrite Hget.
  destruct (BotManager.stop t b0) as [b' effs]. cbn.
  apply map_get_set_other, Hne.
Qed.

Lemma stop_running_unfold (botId : string) (rest : list string)
  (clock : nat -> Z) (i : nat) (m : BotManager.manager) :
  Server.stop_running (botId :: rest) clock i m
  = Server.stop_running rest clock (S i) (Server.stop_if_running botId (clock i) m).
Proof. reflexivity. Qed.

Lemma stop_running_leaves_none (ids : list string) (clock : nat -> Z) (i : nat)
  (m : BotManager.manager) (botId : string) (b : BotManager.bot) :
  BotRegistry.getBot botId (Server.stop_running ids clock i m) = Some b ->
  BotManager.status b = "running" ->
  BotRegistry.getBot botId m = Some b /\ ~ In botId ids.
Proof.
  revert i m. induction ids as [| x ids IH]; intros i m Hget Hrun.
  - split; [exact Hget | intros []].
  - rewrite stop_running_unfold in Hget.
    destruct (IH _ _ Hget Hrun) as [Hm' Hnot].
    destruct (String.eqb_spec botId x) as [-> | Hne].
    + exfalso. exact (stop_if_running_same _ _ _ _ Hm' Hrun).
    + rewrite stop_if_running_other in Hm' by exact Hne.
      split; [exact Hm' |]. intros [E | Hin]; [congruence | contradiction].
Qed.

Lemma stop_running_keeps_stopped (ids : list string) (clock : nat -> Z) (i : nat)
  (m : BotManager.manager) (botId : string) (b : BotManager.bot) :
  BotRegistry.getBot botId m = Some b -> BotManager.status b <> "running" ->
  BotRegistry.getBot botId (Server.stop_running ids clock i m) = Some b.
Proof.
  revert i m. induction ids as [| x ids IH]; intros i m Hget Hno;
    [exact Hget |].
  rewrite stop_running_unfold. apply IH; [| exact Hno].
  destruct (String.eqb_spec botId x) as [<- | Hne].
  - unfold Server.stop_if_running. rewrite Hget. unfold BotManager.is_running.
    destruct (String.eqb_spec (BotManager.status b) "running");
      [contradiction | exact Hget].
  - rewrite stop_if_running_other by exact Hne. exact Hget.
Qed.

Lemma map_get_In_key (key : string) (l : list (string * BotManager.bot))
  (b : BotManager.bot) :
  BotManager.map_get key l = Some b -> In (key, b) l.
Proof.
  induction l as [| [k0 b0] l IH]; simpl; [discriminate |].
  destruct (String.eqb_spec k0 key) as [-> | _].
  - intros H. injection H as <-. left. reflexivity.
  - intros H. right. apply IH, H.
Qed.

Lemma map_set_In_key (key : string) (b' : BotManager.bot)
  (l : list (string * BotManager.bot)) (k : string) (b : BotManager.bot) :
  In (k, b) (BotManager.map_set key b' l) ->
  (k = key /\ b = b') \/ In (k, b) l.
Proof.
  induction l as [| [k0 b0] l IH]; simpl.
  - intros [H | []]. injection H as <- <-. auto.
  - destruct (String.eqb_spec k0 key) as [-> | _]; simpl.
    + intros [H | H]; [injection H as <- <-; auto | auto].
    + intros [H | H]; [auto |]. destruct (IH H); auto.
Qed.

Lemma call_keyed (f : BotManager.bot -> BotManager.bot * list BotManager.effect)
  (botId : string) (m : BotManager.manager) :
  (forall b, BotManager.id (fst (f b)) = BotManager.id b) ->
  keyed_by_id m -> keyed_by_id (BotManager.call f botId m).
Proof.
  intros Hf Hm k b. unfold BotManager.call.
  destruct (BotManager.map_get botId (BotManager.bots m)) as [b0 |] eqn:Hget;
    [| apply Hm].
  specialize (Hf b0). pose proof (Hm _ _ (map_get_In_key _ _ _ Hget)) as Hid.
  destruct (f b0) as [b' effs]. cbn in *.
  intros Hin. destruct (map_set_In_key _ _ _ _ _ Hin) as [[-> ->] | Hold].
  - congruence.
  - exact (Hm _ _ Hold).
Qed.

Lemma start_id (t : Z) (b : BotManager.bot) :
  BotManager.id (fst (BotManager.start t b)) = BotManager.id b.
Proof. unfold BotManager.start. destruct (BotManager.is_running b); reflexivity. Qed.

Lemma stop_id (t : Z) (b : BotManager.bot) :
  BotManager.id (fst (BotManager.stop t b)) = BotManager.id b.
Proof. unfold BotManager.stop. destruct (BotManager.is_stopped b); reflexivity. Qed.

Lemma reachable_keyed (rf : BotManager.bot -> bool) (m : BotManager.manager) :
  BotManager.reachable rf m -> keyed_by_id m.
Proof.
  induction 1 as [| o m _ IH]; [intros k b [] |].
  destruct o as [botId name strategy symbol cfg timeNow | botId now | botId now];
    simpl.
  - intros k b. unfold BotManager.createBot.
    destruct (rf _); cbn; [| apply IH].
    intros Hin. destruct (map_set_In_key _ _ _ _ _ Hin) as [[-> ->] | Hold];
      [reflexivity | exact (IH _ _ Hold)].
  - apply call_keyed; [apply start_id | exact IH].
  - apply call_keyed; [apply stop_id | exact IH].
Qed.

Lemma stop_running_stops (ids : list string) (clock : nat -> Z) (i : nat)
  (m : BotManager.manager) (botId : string) (b : BotManager.bot) :
  In botId ids ->
  BotRegistry.getBot botId m = Some b -> BotManager.status b = "running" ->
  exists k,
    BotRegistry.getBot botId (Server.stop_running ids clock i m)
    = Some (fst (BotManager.stop (clock k) b)).
Proof.
  revert i m. induction ids as [| x ids IH]; intros i m Hin Hget Hrun;
    [destruct Hin |].
  rewrite stop_running_unfold.
  destruct (String.eqb_spec botId x) as [<- | Hne].
  - exists i. apply stop_running_keeps_stopped.
    + unfold Server.stop_if_running. rewrite Hget. unfold BotManager.is_running.
      rewrite Hrun. cbn. unfold BotManager.call.
      unfold BotRegistry.getBot in Hget |- *. rewrite Hget.
      destruct (BotManager.stop (clock i) b) as [b' effs]. cbn.
      apply map_get_set_same.
    + unfold BotManager.stop, BotManager.is_stopped. rewrite Hrun. cbn.
      discriminate.
  - destruct Hin as [E | Hin]; [congruence |].
    apply IH; [exact Hin | | exact Hrun].
    rewrite stop_if_running_other by exact Hne. exact Hget.
Qed.

(** X14: [shutdown] closes the stream client and leaves no bot of the
    registry running: a bot that was running is the result of its [stop] at
    one of the clock readings, a bot that was not running is untouched. *)
Theorem shutdown_stops_every_bot (rf : BotManager.bot -> bool)
  (clock : nat -> Z) (ws : WsClient.state) (m : BotManager.manager) :
  BotManager.reachable rf m ->
  WsClient.closed (fst (Server.shutdown clock ws m)) = true
  /\ (forall botId b,
        BotRegistry.getBot botId (snd (Server.shutdown clock ws m)) = Some b ->
        BotManager.status b <> "running")
  /\ (forall botId b,
        BotRegistry.getBot botId m = Some b ->
        BotManager.status b = "running" ->
        exists k,
          BotRegistry.getBot botId (snd (Server.shutdown clock ws m))
          = Some (fst (BotManager.stop (clock k) b)))
  /\ (forall botId b,
        BotRegistry.getBot botId m = Some b ->
        BotManager.status b <> "running" ->
        BotRegistry.getBot botId (snd (Server.shutdown clock ws m)) = Some b).
Proof.
  intros Hreach.
  assert (Hids : forall botId b, BotRegistry.getBot botId m = Some b ->
            In botId (List.map BotManager.r_id
                        (BotManager.listBots (clock 0%nat) m))).
  { intros botId b Hget. unfold BotManager.listBots. rewrite List.map_map.
    apply map_get_In_key in Hget.
    pose proof (reachable_keyed rf m Hreach _ _ Hget) as Hid.
    apply List.in_map_iff. exists (botId, b). split; [exact Hid | exact Hget]. }
  split; [reflexivity | split; [| split]].
  - intros botId b Hget Hrun. unfold Server.shutdown in Hget. cbn [snd] in Hget.
    destruct (stop_running_leaves_none _ _ _ _ _ _ Hget Hrun) as [Hm Hnot].
    apply Hnot. exact (Hids _ _ Hm).
  - intros botId b Hget Hrun. apply stop_running_stops; [| exact Hget | exact Hrun].
    exact (Hids _ _ Hget).
  - intros botId b Hget Hno. apply stop_running_keeps_stopped; assumption.
Qed.

Lemma shutdown_stops_every_bot_witness :
  exists b,
    BotRegistry.getBot "b1"
      (snd (Server.shutdown (fun _ => 20000) WsClient.init lifecycle_final))
    = Some b
    /\ BotManager.status b <> "running".
Proof.
  assert (Hreach : BotManager.reachable (fun _ => true) lifecycle_final).
  { apply (BotManager.reach_step _ (BotManager.Start "b1" 9000)).
    apply (BotManager.reach_step _ (BotManager.Stop "b1" 5000)).
    apply (BotManager.reach_step _ (BotManager.Start "b1" 2000)).
    apply (BotManager.reach_step _
             (BotManager.CreateBot "b1" "btc grid" "grid" "BTCUSDT" [] 1000)).
    apply BotManager.reach_empty. }
  destruct (shutdown_stops_every_bot (fun _ => true) (fun _ => 20000)
              WsClient.init lifecycle_final Hreach) as (_ & Hnone & _).
  eexists. split; [reflexivity |]. apply (Hnone "b1"). reflexivity.
Defined.

(** ** The grid runner *)

Lemma filterM_none {A} (p : A -> Js.outcome bool) (l : list A) :
  (forall x, In x l -> p x = Js.Return false) ->
  GridRunner.filterM p l = Js.Return [].
Proof.
  induction l as [| x l IH]; intros H; [reflexivity |].
  simpl. rewrite (H x (or_introl eq_refl)). simpl.
  rewrite IH by (intros y Hy; apply H; right; exact Hy). reflexivity.
Qed.

(** X15: [stop] of a running grid runner asks for no cancellation,
    whatever the exchange lists as open: no element returned by
    [getOpenOrders] has a [clientOrderId].  The runner still forgets its
    orders and its unmatched buys and persists the empty lists. *)
Theorem grid_stop_cancels_nothing (cfg : Grid.settings)
  (http : nat -> Js.outcome Js.data) (st : Grid.state) :
  Grid.isRunning st = true ->
  snd (GridRunner.stop cfg http st) = []
  /\ Grid.isRunning (fst (GridRunner.stop cfg http st)) = false
  /\ Grid.gridOrders (fst (GridRunner.stop cfg http st)) = []
  /\ Grid.unmatchedBuys (fst (GridRunner.stop cfg http st)) = []
  /\ Grid.log (fst (GridRunner.stop cfg http st))
     = (Grid.log st ++ [Grid.SaveBotState [] []])%list.
Proof.
  intros Hrun. unfold GridRunner.stop. rewrite Hrun. cbn.
  repeat split.
  destruct (Gateway.getOpenOrders http) as [openOrders | e] eqn:Hopen;
    [| reflexivity].
  rewrite filterM_none; [reflexivity |].
  intros v Hv. unfold GridRunner.tagged.
  destruct (getOpenOrders_fields http openOrders v Hopen Hv) as (_ & -> & _).
  reflexivity.
Qed.

Lemma grid_stop_cancels_nothing_witness :
  snd (GridRunner.stop S1_settings
         (fun _ => Js.Return (Js.DArr [sample_exchange_order])) S1_state)
  = []
  /\ Grid.gridOrders
       (fst (GridRunner.stop S1_settings
               (fun _ => Js.Return (Js.DArr [sample_exchange_order])) S1_state))
     = [].
Proof.
  destruct (grid_stop_cancels_nothing S1_settings
              (fun _ => Js.Return (Js.DArr [sample_exchange_order])) S1_state
              eq_refl) as (H1 & _ & H2 & _).
  split; [exact H1 | exact H2].
Defined.

(** X16: as soon as the exchange lists one open order,
    [reconcileOrders] changes nothing: reading [o.orderId.toString()] on
    the first element throws, and the error is caught and logged. *)
Theorem reconcileOrders_blocked (text_of : Gateway.cell -> Js.outcome string)
  (cfg : Grid.settings) (ev : GridRunner.reconcile_env) (st : Grid.state)
  (v : Gateway.view) (l : list Gateway.view) :
  Gateway.getOpenOrders (GridRunner.open_orders ev) = Js.Return (v :: l) ->
  GridRunner.reconcileOrders text_of cfg ev st = st.
Proof.
  intros Hopen. unfold GridRunner.reconcileOrders.
  destruct (negb (Grid.isRunning st)); [reflexivity |]. rewrite Hopen.
  cbn [Js.mapM]. unfold GridRunner.exchange_id at 1.
  destruct (getOpenOrders_fields _ _ v Hopen (or_introl eq_refl)) as (-> & _).
  reflexivity.
Qed.

Lemma reconcileOrders_blocked_witness :
  GridRunner.reconcileOrders (fun _ => Js.Return "28") S1_settings
    reconcile_listing S1_state
  = S1_state.
Proof.
  eapply (reconcileOrders_blocked (fun _ => Js.Return "28") S1_settings
            reconcile_listing S1_state).
  reflexivity.
Defined.

Lemma assoc_obj_set_other (key k : string) (v : Js.data)
  (props : list (string * Js.data)) :
  k <> key ->
  Js.assoc k (GridRunner.obj_set key v props) = Js.assoc k props.
Proof.
  intros Hne. induction props as [| [k0 x] props IH]; simpl.
  - destruct (String.eqb_spec key k) as [E | _]; [congruence | reflexivity].
  - destruct (String.eqb_spec k0 key) as [-> | Hk]; simpl.
    + destruct (String.eqb_spec key k) as [E | _]; [congruence | reflexivity].
    + destruct (String.eqb k0 k); [reflexivity | exact IH].
Qed.

Lemma stringified_object (props : list (string * Js.data)) (key : string) :
  Js.assoc key props = None ->
  exists members,
    Persistence.stringify (Js.DObj props) = Some (Persistence.JObject members)
    /\ exists props',
         Persistence.parse (Persistence.JObject members) = Js.DObj props'
         /\ Js.assoc key props' = None.
Proof.
  intros Hnone. cbn [Persistence.stringify]. eexists. split; [reflexivity |].
  cbn [Persistence.parse]. eexists. split; [reflexivity |].
  induction props as [| [k x] props IH]; [reflexivity |].
  simpl in Hnone. destruct (String.eqb k key) eqn:E; [discriminate |].
  destruct (Persistence.stringify x) as [j |]; simpl.
  - rewrite E. apply IH, Hnone.
  - apply IH, Hnone.
Qed.

(** X18: the object the grid runner's [persist] writes to the bot's
    file spreads [bot.config] and has no [name]; [loadBotsFromDisk] skips
    a file whose state has no [name], so after a grid runner persisted,
    the bot is not loaded at the next start. *)
Theorem grid_persist_hides_bot (botId : string)
  (config : list (string * Js.data))
  (stats orders unmatchedBuys initialStartPrice : Js.data)
  (now : JsNumber.number) (d : Persistence.disk) :
  Js.assoc "name" config = None ->
  Persistence.fileForBot botId ∉ Persistence.locked d ->
  BotRegistry.is_valid_state
    (Persistence.loadBotState botId
       (Persistence.saveBotState botId
          (GridRunner.persisted config stats orders unmatchedBuys
             initialStartPrice) now d))
  = false.
Proof.
  intros Hname Hfree. unfold GridRunner.persisted.
  set (props := GridRunner.obj_set _ _ _).
  assert (Hprops : Js.assoc "name" props = None).
  { subst props. rewrite !assoc_obj_set_other by discriminate. exact Hname. }
  destruct (stringified_object props "name" Hprops)
    as (members & Hs & props' & Hp & Hnone).
  unfold Persistence.saveBotState, Persistence.writeFileSync.
  cbn [Persistence.stringify] in Hs |- *. injection Hs as Hs. rewrite Hs.
  destruct (decide _) as [Hin | _]; [contradiction |].
  unfold Persistence.loadBotState. cbn [Persistence.files].
  rewrite lookup_insert_eq. cbn [Persistence.parse] in Hp |- *.
  injection Hp as Hp. rewrite Hp.
  destruct (if is_finite now then _ else _); cbn; rewrite ?Hnone; reflexivity.
Qed.

Lemma grid_persist_hides_bot_witness :
  BotRegistry.is_valid_state
    (Persistence.loadBotState "b1"
       (Persistence.saveBotState "b1"
          (GridRunner.persisted grid_config
             (Js.DObj [("completedRounds", Js.DNum 0%float)]) (Js.DArr [])
             (Js.DArr []) (Js.DNum 30000%float))
          1700000000123%float empty_disk))
  = false.
Proof.
  apply (grid_persist_hides_bot "b1" grid_config).
  - reflexivity.
  - simpl. apply not_elem_of_empty.
Defined.

Section ReconcileFacts.
Variable text_of : Gateway.cell -> Js.outcome string.
Variable cfg : Grid.settings.
Variable ev : GridRunner.reconcile_env.
Variable ids : list string.

Lemma replace_order_log (e : Grid.env) (k : nat) (o : Grid.order)
  (st : Grid.state) :
  Grid.filt (GridRunner.replace_order cfg e k o st) = Grid.filt st
  /\ exists more,
       Grid.log (GridRunner.replace_order cfg e k o st)
       = (Grid.log st ++ snd (fst (Grid.placeOrder cfg (Grid.filt st) e o))
            ++ more)%list.
Proof.
  unfold GridRunner.replace_order.
  destruct (Grid.placeOrder cfg (Grid.filt st) e o) as [[o' effs] stopped].
  destruct stopped; cbn.
  - match goal with |- context [Grid.stop_bot ?t ?s] =>
      pose proof (stop_bot_keeps t s) as (_ & _ & _ & _ & more & H5);
      assert (Hf : Grid.filt (Grid.stop_bot t s) = Grid.filt s)
        by (unfold Grid.stop_bot; destruct (BotManager.stop _ _); reflexivity)
    end.
    cbn in *. rewrite H5, Hf. split; [reflexivity |].
    eexists. rewrite <- !app_assoc. reflexivity.
  - split; [reflexivity |]. eexists. rewrite <- !app_assoc. reflexivity.
Qed.

Lemma reconcile_one_log (k : nat) (o : Grid.order) (st : Grid.state) :
  Grid.filt (GridRunner.reconcile_one cfg ev ids k o st) = Grid.filt st
  /\ exists more,
       Grid.log (GridRunner.reconcile_one cfg ev ids k o st)
       = (Grid.log st ++ more)%list
       /\ (looks_missing cfg ev ids (Grid.filt st) k o -> placed_again cfg (Grid.filt st) o more).
Proof.
  pose proof (replace_order_log (GridRunner.place_again ev k) k o st)
    as (Hf & more & Hlog).
  unfold GridRunner.reconcile_one.
  destruct (Grid.orderId o) as [j |] eqn:Hid.
  2:{ split; [reflexivity |]. exists []. rewrite app_nil_r.
      split; [reflexivity |]. intros ((j & Hj & _) & _). congruence. }
  destruct (negb (j =? 0) && negb (existsb (String.eqb (Grid.show_time j)) ids))
    eqn:Hmiss.
  2:{ split; [reflexivity |]. exists []. rewrite app_nil_r.
      split; [reflexivity |]. intros ((j' & Hj & Hnz & Hex) & _).
      assert (j' = j) as -> by congruence.
      apply Z.eqb_neq in Hnz. rewrite Hnz, Hex in Hmiss.
      discriminate Hmiss. }
  assert (Hagain : looks_missing cfg ev ids (Grid.filt st) k o ->
                   placed_again cfg (Grid.filt st) o
                     (snd (fst (Grid.placeOrder cfg (Grid.filt st)
                                  (GridRunner.place_again ev k) o)) ++ more)).
  { intros (_ & _ & Hq).
    destruct (placeOrder_calls cfg (Grid.filt st) (GridRunner.place_again ev k) o Hq)
      as [cid Hin].
    exists cid. apply in_or_app. left. exact Hin. }
  destruct (GridRunner.final_status ev k) as [fs | e] eqn:Hfinal.
  - destruct (GridRunner.was_filled fs) eqn:Hfilled.
    + split; [reflexivity |]. exists []. rewrite app_nil_r.
      split; [reflexivity |]. intros (_ & (fs' & Hfs & Hno) & _).
      congruence.
    + split; [exact Hf |]. eexists. split; [exact Hlog | exact Hagain].
  - destruct (Js.has_code e (-2013)).
    + split; [exact Hf |]. eexists. split; [exact Hlog | exact Hagain].
    + split; [reflexivity |]. exists []. rewrite app_nil_r.
      split; [reflexivity |]. intros (_ & (fs' & Hfs & _) & _). congruence.
Qed.

Lemma reconcile_each_log (todo : list (nat * Grid.order)) (st : Grid.state) :
  exists more,
    Grid.log (GridRunner.reconcile_each cfg ev ids todo st)
    = (Grid.log st ++ more)%list
    /\ forall k o, In (k, o) todo -> looks_missing cfg ev ids (Grid.filt st) k o ->
                   placed_again cfg (Grid.filt st) o more.
Proof.
  revert st. induction todo as [| [k0 o0] todo IH]; intros st.
  - exists []. rewrite app_nil_r. split; [reflexivity | intros k o []].
  - cbn [GridRunner.reconcile_each].
    destruct (reconcile_one_log k0 o0 st) as (Hf & more1 & Hlog1 & Hone).
    destruct (IH (GridRunner.reconcile_one cfg ev ids k0 o0 st))
      as (more2 & Hlog2 & Hrest).
    exists (more1 ++ more2)%list. split.
    + rewrite Hlog2, Hlog1, <- app_assoc. reflexivity.
    + intros k o [Heq | Hin] Hmiss.
      * injection Heq as <- <-. destruct (Hone Hmiss) as [cid Hcid].
        exists cid. apply in_or_app. left. exact Hcid.
      * rewrite Hf in Hrest. destruct (Hrest k o Hin Hmiss) as [cid Hcid].
        exists cid. apply in_or_app. right. exact Hcid.
Qed.

End ReconcileFacts.

Lemma combine_seq_In {A} (l : list A) (start k : nat) (x : A) :
  nth_error l k = Some x -> In ((start + k)%nat, x) (combine (seq start (length l)) l).
Proof.
  revert start k. induction l as [| y l IH]; intros start k H.
  - destruct k; discriminate H.
  - destruct k as [| k]; simpl in *.
    + injection H as <-. left. f_equal. lia.
    + right. replace (start + S k)%nat with (S start + k)%nat by lia.
      apply IH, H.
Qed.

(** X17: when the request for the open orders fails, [getOpenOrders]
    returns the empty list and [reconcileOrders] takes every internal open
    order for missing: an order with an id that [getOrder] reports as not
    filled, and whose quantity is positive, is placed again, at its price
    and side, although it may still be open on the exchange. *)
Theorem reconcileOrders_after_failed_query
  (text_of : Gateway.cell -> Js.outcome string) (cfg : Grid.settings)
  (ev : GridRunner.reconcile_env) (st : Grid.state) (e : Js.error)
  (k : nat) (o : Grid.order) (j : Z) (finalStatus : Js.data) :
  Grid.isRunning st = true ->
  Gateway.signedRequest (GridRunner.open_orders ev) = Js.Throw e ->
  nth_error (Grid.gridOrders st) k = Some o ->
  Grid.status o = "open" -> Grid.orderId o = Some j -> j <> 0 ->
  GridRunner.final_status ev k = Js.Return finalStatus ->
  GridRunner.was_filled finalStatus = false ->
  (Grid.order_quantity cfg (Grid.filt st) (Grid.price o) <=? 0)%float = false ->
  exists more clientOrderId,
    Grid.log (GridRunner.reconcileOrders text_of cfg ev st)
    = (Grid.log st ++ more)%list
    /\ In (Grid.NewOrder (Grid.side o)
             (JsNumber.toString
                (Grid.order_quantity cfg (Grid.filt st) (Grid.price o)))
             (JsNumber.toString (Grid.price o)) clientOrderId) more.
Proof.
  intros Hrun Hfail Hk Hopen Hid Hnz Hfinal Hno Hq.
  unfold GridRunner.reconcileOrders. rewrite Hrun. cbn [negb].
  unfold Gateway.getOpenOrders. rewrite Hfail. cbn.
  destruct (reconcile_each_log cfg ev [] (GridRunner.internalOpenOrders st) st)
    as (more & Hlog & Hall).
  destruct (Hall k o) as [cid Hcid].
  - unfold GridRunner.internalOpenOrders. apply filter_In. split.
    + apply (combine_seq_In _ 0 k o Hk).
    + cbn. rewrite Hopen. reflexivity.
  - repeat split; eauto.
  - exists more, cid. split; [exact Hlog | exact Hcid].
Qed.

Lemma reconcileOrders_after_failed_query_witness :
  exists more clientOrderId,
    Grid.log
      (GridRunner.reconcileOrders (fun _ => Js.Return "28") S1_settings
         reconcile_failing S1_state)
    = (Grid.log S1_state ++ more)%list
    /\ In (Grid.NewOrder "BUY"
             (JsNumber.toString
                (Grid.order_quantity S1_settings (Grid.filt S1_state)
                   29990%float))
             (JsNumber.toString 29990%float) clientOrderId) more.
Proof.
  apply (reconcileOrders_after_failed_query (fun _ => Js.Return "28")
           S1_settings reconcile_failing S1_state
           (Js.ApiError (-1021) "Timestamp outside recvWindow") 0%nat
           (S1_order 101 "BUY" 29990%float) 101
           (Js.DObj [("status", Js.DStr "NEW")])).
  - reflexivity.
  - vm_compute. reflexivity.
  - reflexivity.
  - reflexivity.
  - reflexivity.
  - discriminate.
  - reflexivity.
  - reflexivity.
  - vm_compute. reflexivity.
Defined.

(** ** The DCA runners *)

Lemma placed_more_refl (cfg : DcaBuy.settings) (ev : DcaBuy.buys_env)
  (seen : list JsNumber.number) (bound : nat) (f : Exchange.filters)
  (st : DcaBuy.state) :
  placed_more cfg ev seen bound f st st.
Proof.
  exists [], []. rewrite !app_nil_r. repeat split; try reflexivity.
  - simpl. lia.
  - constructor.
Qed.

(** Effects that are not cancellations, added to the log. *)
Lemma placed_more_quiet (cfg : DcaBuy.settings) (ev : DcaBuy.buys_env)
  (seen : list JsNumber.number) (bound : nat) (f : Exchange.filters)
  (st st' : DcaBuy.state) (more : list DcaBuy.effect) :
  DcaBuy.placedBuys st' = DcaBuy.placedBuys st ->
  DcaBuy.filledBuys st' = DcaBuy.filledBuys st ->
  DcaBuy.sellTp st' = DcaBuy.sellTp st ->
  DcaBuy.bot st' = DcaBuy.bot st ->
  DcaBuy.log st' = (DcaBuy.log st ++ more)%list ->
  forallb (fun e => negb (is_cancellation e)) more = true ->
  placed_more cfg ev seen bound f st st'.
Proof.
  intros Hp Hf Ht Hb Hl Hq. exists [], more. rewrite app_nil_r.
  repeat split; try assumption; try reflexivity.
  - simpl. lia.
  - constructor.
Qed.

Lemma placed_more_trans (cfg : DcaBuy.settings) (ev : DcaBuy.buys_env)
  (seen : list JsNumber.number) (bound : nat) (f : Exchange.filters)
  (st st' st'' : DcaBuy.state) :
  placed_more cfg ev seen 0 f st st' ->
  placed_more cfg ev seen bound f st' st'' ->
  placed_more cfg ev seen bound f st st''.
Proof.
  intros (new1 & more1 & Hp1 & _ & Hb1 & _ & Hl1 & Hq1 & Hf1 & Ht1 & Hbot1)
         (new2 & more2 & Hp2 & Hfr2 & Hb2 & He2 & Hl2 & Hq2 & Hf2 & Ht2 & Hbot2).
  destruct new1; [| simpl in Hb1; lia]. rewrite app_nil_r in Hp1.
  exists new2, (more1 ++ more2)%list.
  repeat split; try assumption; try congruence.
  - rewrite Hl2, Hl1, app_assoc. reflexivity.
  - rewrite forallb_app, Hq1, Hq2. reflexivity.
Qed.

Lemma stop_quiet (cfg : DcaBuy.settings) (ev : DcaBuy.buys_env)
  (seen : list JsNumber.number) (f : Exchange.filters) (st : DcaBuy.state) :
  placed_more cfg ev seen 0 f st (DcaBuy.stop st).
Proof.
  unfold DcaBuy.stop. destruct (DcaBuy.isRunning st).
  - apply (placed_more_quiet _ _ _ _ _ _ _ [DcaBuy.RunnerStop]); reflexivity.
  - apply placed_more_refl.
Qed.

Lemma say_quiet (cfg : DcaBuy.settings) (ev : DcaBuy.buys_env)
  (seen : list JsNumber.number) (f : Exchange.filters) (st : DcaBuy.state)
  (effs : list DcaBuy.effect) :
  forallb (fun e => negb (is_cancellation e)) effs = true ->
  placed_more cfg ev seen 0 f st (DcaBuy.say effs st).
Proof.
  intros H. apply (placed_more_quiet _ _ _ _ _ _ _ effs); try reflexivity. exact H.
Qed.

Lemma handleApiError_quiet (cfg : DcaBuy.settings) (ev : DcaBuy.buys_env)
  (seen : list JsNumber.number) (f : Exchange.filters) (e : Js.error)
  (context : string) (st : DcaBuy.state) :
  placed_more cfg ev seen 0 f st (DcaBuy.handleApiError e context st).
Proof.
  unfold DcaBuy.handleApiError.
  destruct (Js.response_code e) as [code |]; [| apply say_quiet; reflexivity].
  destruct (existsb _ _); [| apply say_quiet; reflexivity].
  apply (placed_more_trans _ _ _ _ _ _
           (DcaBuy.say [DcaBuy.EmitBotError context (Some code)] st));
    [apply say_quiet; reflexivity | apply stop_quiet].
Qed.

Lemma handleApiError_filt (e : Js.error) (context : string) (st : DcaBuy.state) :
  DcaBuy.filt (DcaBuy.handleApiError e context st) = DcaBuy.filt st.
Proof.
  unfold DcaBuy.handleApiError, DcaBuy.stop.
  destruct (Js.response_code e) as [code |]; [| reflexivity].
  destruct (existsb _ _); [| reflexivity].
  simpl. destruct (DcaBuy.isRunning st); reflexivity.
Qed.

Lemma place_levels_filt (cfg : DcaBuy.settings) (ev : DcaBuy.buys_env)
  (base : JsNumber.number) (todo i : nat) (seen : list JsNumber.number)
  (st : DcaBuy.state) :
  DcaBuy.filt (DcaBuy.place_levels cfg ev base todo i seen st) = DcaBuy.filt st.
Proof.
  revert i seen st. induction todo as [| todo IH]; intros i seen st;
    [reflexivity |].
  cbn [DcaBuy.place_levels]. destruct (existsb _ seen); [apply IH |].
  destruct (DcaBuy.buy_placed ev i) as [id | e].
  - rewrite IH. reflexivity.
  - rewrite IH, handleApiError_filt. reflexivity.
Qed.

Lemma place_levels_more (cfg : DcaBuy.settings) (ev : DcaBuy.buys_env)
  (base : JsNumber.number) (todo i : nat) (seen : list JsNumber.number)
  (st : DcaBuy.state) :
  placed_more cfg ev seen todo (DcaBuy.filt st) st
    (DcaBuy.place_levels cfg ev base todo i seen st).
Proof.
  revert i seen st. induction todo as [| todo IH]; intros i seen st.
  - apply placed_more_refl.
  - cbn [DcaBuy.place_levels].
    set (p := MathUtil.roundToTickSize _ _).
    destruct (existsb (DcaBuy.same_value_zero p) seen) eqn:Hseen.
    + destruct (IH (S i) seen st)
        as (new & more & Hp & Hfr & Hb & He & Hl & Hq & Hf & Ht & Hbot).
      exists new, more. repeat split; try assumption. lia.
    + destruct (DcaBuy.buy_placed ev i) as [id | e] eqn:Hplaced.
      * match goal with |- placed_more _ _ _ _ _ _ (DcaBuy.place_levels _ _ _ _ _ _ ?s) =>
          destruct (IH (S i) (p :: seen) s)
            as (new & more & Hp & Hfr & Hb & He & Hl & Hq & Hf & Ht & Hbot)
        end.
        cbn in Hp, He, Hl, Hf, Ht, Hbot.
        eexists (_ :: new), (_ :: _ :: more).
        split; [rewrite Hp, <- app_assoc; reflexivity |].
        split; [cbn; rewrite Hseen, Hfr; reflexivity |].
        split; [simpl; lia |].
        split; [constructor; [cbn; split; [reflexivity | eauto] | exact He] |].
        split; [rewrite Hl, <- app_assoc; reflexivity |].
        split; [exact Hq |]. auto.
      * match goal with
        |- placed_more _ _ _ _ _ _
             (DcaBuy.place_levels _ _ _ _ _ _ (DcaBuy.handleApiError _ _ ?s)) =>
          apply (placed_more_trans _ _ _ _ _ _ (DcaBuy.handleApiError e "placeBuys loop" s));
            [apply (placed_more_trans _ _ _ _ _ _ s);
               [apply say_quiet; reflexivity | apply handleApiError_quiet] |]
        end.
        match goal with |- placed_more _ _ _ _ _ ?s (DcaBuy.place_levels _ _ _ _ _ _ ?s) =>
             destruct (IH (S i) seen s)
               as (new & more & Hp & Hfr & Hb & He & Hl & Hq & Hf & Ht & Hbot)
           end.
           rewrite handleApiError_filt in He. cbn in He.
           exists new, more. repeat split; try assumption. lia.
Qed.

Lemma loadFilters_quiet (cfg : DcaBuy.settings) (ev : DcaBuy.buys_env)
  (f : Exchange.filters) (st : DcaBuy.state) :
  placed_more cfg ev [] 0 f st (DcaBuy.loadFilters ev st).
Proof.
  unfold DcaBuy.loadFilters. destruct (DcaBuy.info ev) as [[f' |] | e].
  - apply (placed_more_quiet _ _ _ _ _ _ _ []); try reflexivity.
    cbn. rewrite app_nil_r. reflexivity.
  - apply stop_quiet.
  - apply handleApiError_quiet.
Qed.

Lemma placeBuys_more (cfg : DcaBuy.settings) (ev : DcaBuy.buys_env)
  (st : DcaBuy.state) :
  placed_more cfg ev [] (DcaBuy.gridLevels cfg)
    (DcaBuy.filt (DcaBuy.placeBuys cfg ev st)) st (DcaBuy.placeBuys cfg ev st).
Proof.
  unfold DcaBuy.placeBuys.
  destruct (DcaBuy.ticker ev) as [base | e].
  - cbn [DcaBuy.filt]. rewrite place_levels_filt.
    apply (placed_more_trans _ _ _ _ _ _ (DcaBuy.loadFilters ev st));
      [apply loadFilters_quiet |].
    destruct (place_levels_more cfg ev base (DcaBuy.gridLevels cfg) 1 []
                (DcaBuy.loadFilters ev st))
      as (new & more & Hp & Hfr & Hb & He & Hl & Hq & Hf & Ht & Hbot).
    exists new, more. cbn. repeat split; assumption.
  - apply (placed_more_trans _ _ _ _ _ _ (DcaBuy.loadFilters ev st));
      [apply loadFilters_quiet |].
    destruct (handleApiError_quiet cfg ev [] (DcaBuy.filt
                (DcaBuy.handleApiError e "placeBuys getPrice"
                   (DcaBuy.loadFilters ev st))) e "placeBuys getPrice"
                (DcaBuy.loadFilters ev st))
      as (new & more & Hp & Hfr & Hb & He & Hl & Hq & Hf & Ht & Hbot).
    exists new, more. repeat split; try assumption. lia.
Qed.

(** X19: [placeBuys] only appends to [placedBuys]: at most
    [gridLevels] buys, at pairwise different prices, each for the quantity
    [floor_step(orderSize)] under the filters just loaded and with the id
    the exchange returned for it. *)
Theorem placeBuys_places_distinct_levels (cfg : DcaBuy.settings)
  (ev : DcaBuy.buys_env) (st : DcaBuy.state) :
  exists new,
    DcaBuy.placedBuys (DcaBuy.placeBuys cfg ev st)
    = (DcaBuy.placedBuys st ++ new)%list
    /\ (length new <= DcaBuy.gridLevels cfg)%nat
    /\ fresh_prices [] new = true
    /\ Forall (fun b =>
                 DcaBuy.qty b
                 = MathUtil.roundToStepSize (DcaBuy.orderSize cfg)
                     (Exchange.stepSize (DcaBuy.filt (DcaBuy.placeBuys cfg ev st)))
                 /\ exists k,
                      DcaBuy.buy_placed ev k = Js.Return (DcaBuy.orderId b))
         new.
Proof.
  destruct (placeBuys_more cfg ev st)
    as (new & more & Hp & Hfr & Hb & He & _).
  exists new. auto.
Qed.

Lemma sell_is_not_buy (S : option string) :
  DcaBuy.side_is S "SELL" = true -> DcaBuy.side_is S "BUY" = false.
Proof.
  destruct S as [x |]; [| discriminate]. simpl.
  destruct (String.eqb_spec x "SELL") as [-> | _]; [reflexivity | discriminate].
Qed.

(** X20: when the take-profit order of a DCA-Buy runner is filled, the
    round is closed: one completed round and the profit
    [price * qty - totalValue] are added to the statistics, the filled buys
    and the take-profit order are forgotten, and the buys are placed again
    (at most [gridLevels], each with an id of the exchange).  No
    cancellation is sent in between. *)
Theorem dca_buy_round_completion (cfg : DcaBuy.settings) (ev : DcaBuy.env)
  (evt : DcaBuy.report) (st : DcaBuy.state) (cur : DcaBuy.placement)
  (t : DcaBuy.totals) :
  DcaBuy.same_symbol cfg (DcaBuy.ev_s evt) = true ->
  DcaBuy.is_filled (DcaBuy.ev_X evt) = true ->
  DcaBuy.side_is (DcaBuy.ev_S evt) "SELL" = true ->
  DcaBuy.sellTp st = Some cur ->
  DcaBuy.orderId cur = DcaBuy.ev_i evt ->
  DcaBuy.buyStats (DcaBuy.filledBuys st) = Some t ->
  let st' := DcaBuy.onExecutionReport cfg ev evt st in
  DcaBuy.sellTp st' = None
  /\ DcaBuy.filledBuys st' = []
  /\ BotManager.stats (DcaBuy.bot st')
     = BotManager.mkStats
         (BotManager.add_delta
            (BotManager.completedRounds (BotManager.stats (DcaBuy.bot st))) 1%float)
         (BotManager.add_delta
            (BotManager.realizedPnl (BotManager.stats (DcaBuy.bot st)))
            (DcaBuy.price cur * DcaBuy.qty cur - DcaBuy.totalValue t)%float)
         (BotManager.lastDurationMs (BotManager.stats (DcaBuy.bot st)))
  /\ (exists more,
        DcaBuy.log st' = (DcaBuy.log st ++ more)%list
        /\ forallb (fun e => negb (is_cancellation e)) more = true)
  /\ (length (DcaBuy.placedBuys st') <= DcaBuy.gridLevels cfg)%nat
  /\ Forall (fun b =>
               exists k,
                 DcaBuy.buy_placed (DcaBuy.buys (DcaBuy.restart ev)) k
                 = Js.Return (DcaBuy.orderId b))
       (DcaBuy.placedBuys st').
Proof.
  intros Hs HX Hsell Hcur Hid Hstats st'. subst st'.
  unfold DcaBuy.onExecutionReport. rewrite Hs, HX, (sell_is_not_buy _ Hsell), Hsell.
  cbn [negb orb]. unfold DcaBuy.on_sell_filled. rewrite Hcur, Hid, Z.eqb_refl, Hstats.
  unfold BotManager.updateStats. rewrite cancelAllRelatedOrders_is_idle.
  cbv zeta.
  match goal with |- context [DcaBuy.placeBuys cfg ?e ?s] =>
    set (s1 := s);
    destruct (placeBuys_more cfg e s1)
      as (new & more & Hp & Hfr & Hb & He & Hl & Hq & Hf & Ht & Hbot)
  end.
  rewrite Ht, Hf, Hbot, Hp, Hl. subst s1. cbn.
  split; [reflexivity |]. split; [reflexivity |]. split; [reflexivity |].
  split.
  - eexists. split; [rewrite <- app_assoc; reflexivity |].
    cbn. exact Hq.
  - split; [exact Hb |].
    eapply Forall_impl; [exact He |]. cbn. intros b [_ H]. exact H.
Qed.

Lemma dca_buy_round_completion_witness :
  DcaBuy.sellTp
    (DcaBuy.onExecutionReport S3_settings (S3_env 6000 14) S3_take_profit_fill
       S3_after_three)
  = None
  /\ DcaBuy.filledBuys
       (DcaBuy.onExecutionReport S3_settings (S3_env 6000 14)
          S3_take_profit_fill S3_after_three)
     = [].
Proof.
  assert (Htp : DcaBuy.sellTp S3_after_three
                = Some (DcaBuy.mkPlacement 13 "9a1b-5000-S-TP" 95%float 3%float))
    by (vm_compute; reflexivity).
  assert (Hstats : DcaBuy.buyStats (DcaBuy.filledBuys S3_after_three)
                   = Some (DcaBuy.mkTotals 90%float 3%float 270%float))
    by (vm_compute; reflexivity).
  destruct (dca_buy_round_completion S3_settings (S3_env 6000 14)
              S3_take_profit_fill S3_after_three
              (DcaBuy.mkPlacement 13 "9a1b-5000-S-TP" 95%float 3%float)
              (DcaBuy.mkTotals 90%float 3%float 270%float)
              eq_refl eq_refl eq_refl Htp eq_refl Hstats)
    as (H1 & H2 & _).
  split; [exact H1 | exact H2].
Defined.














Lemma sell_cancel_untagged (cfg : DcaBuy.settings)
  (cancels : nat -> Js.outcome unit) (open : list Gateway.view) (i : nat)
  (st : DcaSell.state) :
  Forall (fun v => DcaSell.tagged cfg v = Js.Return false) open ->
  DcaSell.cancel_tagged cfg cancels open i st = st.
Proof.
  intros Hall. revert i. induction Hall as [| v open Hv _ IH]; intros i; simpl.
  - reflexivity.
  - rewrite Hv. apply IH.
Qed.

Lemma sell_cancelAll_is_idle (cfg : DcaBuy.settings)
  (http : nat -> Js.outcome Js.data) (cancels : nat -> Js.outcome unit)
  (st : DcaSell.state) :
  DcaSell.cancelAllRelatedOrders cfg http cancels st = st.
Proof.
  unfold DcaSell.cancelAllRelatedOrders.
  destruct (Gateway.getOpenOrders http) as [open | e] eqn:Hopen.
  - apply sell_cancel_untagged. apply List.Forall_forall. intros v Hv.
    unfold DcaSell.tagged.
    destruct (getOpenOrders_fields http open v Hopen Hv) as (_ & -> & _).
    reflexivity.
  - unfold Gateway.getOpenOrders, Js.try_catch in Hopen.
    destruct (Js.bind _ _); discriminate Hopen.
Qed.

Lemma sell_stop_keeps (st : DcaSell.state) :
  DcaSell.filledSells (DcaSell.stop st) = DcaSell.filledSells st
  /\ DcaSell.buyBack (DcaSell.stop st) = DcaSell.buyBack st
  /\ DcaSell.bot (DcaSell.stop st) = DcaSell.bot st.
Proof. unfold DcaSell.stop. destruct (DcaSell.isRunning st); auto. Qed.

Lemma sell_handleApiError_frame (e : Js.error) (context : string)
  (st : DcaSell.state) :
  DcaSell.filledSells (DcaSell.handleApiError e context st) = DcaSell.filledSells st
  /\ DcaSell.buyBack (DcaSell.handleApiError e context st) = DcaSell.buyBack st
  /\ DcaSell.bot (DcaSell.handleApiError e context st) = DcaSell.bot st.
Proof.
  unfold DcaSell.handleApiError.
  destruct (Js.response_code e) as [code |]; [| auto].
  destruct (existsb _ _); [| auto].
  apply (sell_stop_keeps (DcaSell.say [DcaBuy.EmitBotError context (Some code)] st)).
Qed.

Lemma sell_place_levels_frame (cfg : DcaBuy.settings) (ev : DcaSell.sells_env)
  (base : JsNumber.number) (todo i : nat) (seen : list JsNumber.number)
  (st : DcaSell.state) :
  DcaSell.filledSells (DcaSell.place_levels cfg ev base todo i seen st)
  = DcaSell.filledSells st
  /\ DcaSell.buyBack (DcaSell.place_levels cfg ev base todo i seen st)
     = DcaSell.buyBack st
  /\ DcaSell.bot (DcaSell.place_levels cfg ev base todo i seen st)
     = DcaSell.bot st.
Proof.
  revert i seen st. induction todo as [| todo IH]; intros i seen st; [auto |].
  cbn [DcaSell.place_levels]. destruct (existsb _ seen); [apply IH |].
  destruct (DcaSell.sell_placed ev i) as [id | e].
  - match goal with |- context [DcaSell.place_levels _ _ _ _ _ _ ?s] =>
      destruct (IH (S i) (MathUtil.roundToTickSize
                  (base + DcaBuy.gridSpread cfg * JsNumber.of_Z (Z.of_nat i))%float
                  (Exchange.tickSize (DcaSell.filt st)) :: seen) s)
        as (-> & -> & ->) end.
    auto.
  - match goal with |- context [DcaSell.place_levels _ _ _ _ _ _ ?s] =>
      destruct (IH (S i) seen s) as (-> & -> & ->) end.
    match goal with |- context [DcaSell.handleApiError ?e ?c ?s] =>
      destruct (sell_handleApiError_frame e c s) as (-> & -> & ->) end.
    auto.
Qed.

Lemma placeSells_frame (cfg : DcaBuy.settings) (ev : DcaSell.sells_env)
  (st : DcaSell.state) :
  DcaSell.filledSells (DcaSell.placeSells cfg ev st) = DcaSell.filledSells st
  /\ DcaSell.buyBack (DcaSell.placeSells cfg ev st) = DcaSell.buyBack st
  /\ DcaSell.bot (DcaSell.placeSells cfg ev st) = DcaSell.bot st.
Proof.
  assert (Hload : DcaSell.filledSells (DcaSell.loadFilters ev st)
                  = DcaSell.filledSells st
                  /\ DcaSell.buyBack (DcaSell.loadFilters ev st) = DcaSell.buyBack st
                  /\ DcaSell.bot (DcaSell.loadFilters ev st) = DcaSell.bot st).
  { unfold DcaSell.loadFilters. destruct (DcaSell.info ev) as [[[pf lf] |] | e].
    - auto.
    - apply sell_stop_keeps.
    - apply sell_handleApiError_frame. }
  destruct Hload as (H1 & H2 & H3).
  unfold DcaSell.placeSells. destruct (DcaSell.ticker ev) as [base | e].
  - cbn. destruct (sell_place_levels_frame cfg ev base (DcaBuy.gridLevels cfg) 1 []
                     (DcaSell.loadFilters ev st)) as (-> & -> & ->). auto.
  - destruct (sell_handleApiError_frame e "placeSells getPrice"
                (DcaSell.loadFilters ev st)) as (-> & -> & ->). auto.
Qed.

Lemma buy_is_not_sell (S : option string) :
  DcaBuy.side_is S "BUY" = true -> DcaBuy.side_is S "SELL" = false.
Proof.
  destruct S as [x |]; [| discriminate]. simpl.
  destruct (String.eqb_spec x "BUY") as [-> | _]; [reflexivity | discriminate].
Qed.

(** X22: when the buy-back order of a DCA-Sell runner is filled, one
    completed round and the profit [totalValue - price * qty] are added to
    the statistics, and the filled sells and the buy-back order are
    forgotten, whatever happens while the sells are placed again. *)
Theorem dca_sell_round_completion (cfg : DcaBuy.settings) (ev : DcaSell.env)
  (evt : DcaBuy.report) (st : DcaSell.state) (cur : DcaBuy.placement)
  (t : DcaBuy.totals) :
  DcaBuy.same_symbol cfg (DcaBuy.ev_s evt) = true ->
  DcaBuy.is_filled (DcaBuy.ev_X evt) = true ->
  DcaBuy.side_is (DcaBuy.ev_S evt) "BUY" = true ->
  DcaSell.buyBack st = Some cur ->
  DcaBuy.orderId cur = DcaBuy.ev_i evt ->
  DcaSell.sellStats (DcaSell.filledSells st) = Some t ->
  let st' := DcaSell.onExecutionReport cfg ev evt st in
  DcaSell.buyBack st' = None
  /\ DcaSell.filledSells st' = []
  /\ BotManager.stats (DcaSell.bot st')
     = BotManager.mkStats
         (BotManager.add_delta
            (BotManager.completedRounds (BotManager.stats (DcaSell.bot st)))
            1%float)
         (BotManager.add_delta
            (BotManager.realizedPnl (BotManager.stats (DcaSell.bot st)))
            (DcaBuy.totalValue t - DcaBuy.price cur * DcaBuy.qty cur)%float)
         (BotManager.lastDurationMs (BotManager.stats (DcaSell.bot st))).
Proof.
  intros Hs HX Hbuy Hcur Hid Hstats st'. subst st'.
  unfold DcaSell.onExecutionReport. rewrite Hs, HX, (buy_is_not_sell _ Hbuy), Hbuy.
  cbn [negb orb]. unfold DcaSell.on_buy_filled. rewrite Hcur, Hid, Z.eqb_refl, Hstats.
  unfold BotManager.updateStats. rewrite sell_cancelAll_is_idle. cbv zeta.
  match goal with |- context [DcaSell.placeSells cfg ?e ?s] =>
    destruct (placeSells_frame cfg e s) as (-> & -> & ->)
  end.
  cbn. repeat split; reflexivity.
Qed.

Lemma dca_sell_round_completion_witness :
  DcaSell.buyBack
    (DcaSell.onExecutionReport S3_settings (sell_env 4000 12)
       (DcaBuy.mkReport (Some "BTCUSDT") (Some "FILLED") (Some "BUY") 11)
       sell_after_fill)
  = None.
Proof.
  assert (Hbb : DcaSell.buyBack sell_after_fill
                = Some (DcaBuy.mkPlacement 11 "9a1b-3000-B-BB" 95%float 1%float))
    by (vm_compute; reflexivity).
  assert (Hstats : DcaSell.sellStats (DcaSell.filledSells sell_after_fill)
                   = Some (DcaBuy.mkTotals 100%float 1%float 100%float))
    by (vm_compute; reflexivity).
  exact (proj1 (dca_sell_round_completion S3_settings (sell_env 4000 12)
                  (DcaBuy.mkReport (Some "BTCUSDT") (Some "FILLED") (Some "BUY") 11)
                  sell_after_fill
                  (DcaBuy.mkPlacement 11 "9a1b-3000-B-BB" 95%float 1%float)
                  (DcaBuy.mkTotals 100%float 1%float 100%float)
                  eq_refl eq_refl eq_refl Hbb eq_refl Hstats)).
Defined.

(** ** The stream client *)

Lemma assoc_app_last {V} (key : string) (v : V) (l : list (string * V)) :
  Js.assoc key l = None -> Js.assoc key (l ++ [(key, v)]) = Some v.
Proof.
  induction l as [| [k x] l IH]; simpl.
  - rewrite String.eqb_refl. reflexivity.
  - destruct (String.eqb k key); [discriminate | exact IH].
Qed.

(** X23: subscribing again to a market stream changes nothing, also
    when the symbol is written in another case. *)
Theorem subscribeMarketSymbol_idempotent (symbol symbol' streamType : string)
  (st : WsClient.state) :
  WsClient.toLowerCase symbol' = WsClient.toLowerCase symbol ->
  WsClient.subscribeMarketSymbol symbol' streamType
    (WsClient.subscribeMarketSymbol symbol streamType st)
  = WsClient.subscribeMarketSymbol symbol streamType st.
Proof.
  intros Hlow.
  assert (Hstream : WsClient.stream_of symbol' streamType
                    = WsClient.stream_of symbol streamType).
  { unfold WsClient.stream_of. rewrite Hlow. reflexivity. }
  unfold WsClient.subscribeMarketSymbol at 1. rewrite Hstream.
  unfold WsClient.subscribeMarketSymbol.
  destruct (Js.assoc _ (WsClient.marketWss st)) as [n |] eqn:Hfound.
  - rewrite Hfound. reflexivity.
  - cbn [WsClient.marketWss]. rewrite (assoc_app_last _ _ _ Hfound). reflexivity.
Qed.

Lemma subscribeMarketSymbol_idempotent_witness :
  WsClient.subscribeMarketSymbol "btcusdt" "kline_1m"
    (WsClient.subscribeMarketSymbol "BTCUSDT" "kline_1m" WsClient.init)
  = WsClient.subscribeMarketSymbol "BTCUSDT" "kline_1m" WsClient.init.
Proof.
  apply (subscribeMarketSymbol_idempotent "BTCUSDT" "btcusdt" "kline_1m"
           WsClient.init).
  reflexivity.
Defined.

(** X24: no event of the stream client stops a keepalive timer, except
    [closeAll], which stops the one [_keepAliveTimer] refers to. *)
Theorem keepalive_timers_pile_up (e : WsClient.event) (st : WsClient.state)
  (t : nat) :
  In t (WsClient.intervals st) ->
  (e = WsClient.CallCloseAll /\ WsClient.keepAliveTimer st = Some t)
  \/ In t (WsClient.intervals (WsClient.step e st)).
Proof.
  intros Hin. destruct e as [| answer | symbol streamType | i | k | t' |]; simpl.
  - right. exact Hin.
  - right. unfold WsClient.listenKeyArrived.
    destruct (WsClient.in_flight st); [exact Hin |].
    destruct answer; [| exact Hin]. unfold WsClient.openUserWS. cbn.
    apply in_or_app. left. exact Hin.
  - right. unfold WsClient.subscribeMarketSymbol.
    destruct (Js.assoc _ _); exact Hin.
  - right. unfold WsClient.socketClosed.
    destruct (nth_error _ _) as [s |]; [| exact Hin].
    destruct (WsClient.phase_of s); try exact Hin;
      destruct (WsClient.opened_for s); exact Hin.
  - right. unfold WsClient.timeoutFired.
    destruct (nth_error _ _) as [cb |]; [| exact Hin].
    destruct cb as [| symbol streamType].
    + unfold WsClient.recreateUserStream. cbn.
      destruct (WsClient.closed st); exact Hin.
    + unfold WsClient.subscribeMarketSymbol. cbn.
      destruct (Js.assoc _ _); exact Hin.
  - right. unfold WsClient.intervalFired, WsClient.keepAlive.
    destruct (existsb _ _); [| exact Hin].
    destruct (WsClient.userListenKey st); exact Hin.
  - unfold WsClient.closeAll. cbn.
    destruct (WsClient.keepAliveTimer st) as [t0 |]; [| right; exact Hin].
    destruct (Nat.eqb_spec t0 t) as [-> | Hne]; [left; auto | right].
    apply filter_In. split; [exact Hin |].
    apply negb_true_iff, Nat.eqb_neq, Hne.
Qed.

Lemma keepalive_timers_pile_up_witness :
  (WsClient.SocketClose 0 = WsClient.CallCloseAll
   /\ WsClient.keepAliveTimer user_stream_up = Some 0%nat)
  \/ In 0%nat
       (WsClient.intervals (WsClient.step (WsClient.SocketClose 0) user_stream_up)).
Proof.
  apply (keepalive_timers_pile_up (WsClient.SocketClose 0) user_stream_up 0%nat).
  left. reflexivity.
Defined.

Lemma nth_error_snoc {A} (l : list A) (x : A) :
  nth_error (l ++ [x]) (length l) = Some x.
Proof. induction l as [| y l IH]; [reflexivity | exact IH]. Qed.

Lemma remove_nth_snoc {A} (l : list A) (x : A) :
  WsClient.remove_nth (length l) (l ++ [x]) = l.
Proof. induction l as [| y l IH]; [reflexivity | simpl; rewrite IH; reflexivity]. Qed.

Lemma existsb_eqb_In (t : nat) (l : list nat) :
  In t l -> existsb (Nat.eqb t) l = true.
Proof.
  intros H. apply existsb_exists. exists t. split; [exact H | apply Nat.eqb_refl].
Qed.

(** X25: when the socket of the user stream closes and the stream is
    recreated, a new keepalive timer is started and the old ones keep
    running; each of them then sends the keepalive of the new listen
    key. *)
Theorem user_stream_reconnection_leaks_timer (st : WsClient.state) (i : nat)
  (key key' : string) :
  WsClient.closed st = false ->
  nth_error (WsClient.sockets st) i
  = Some (WsClient.mkSocket (WsClient.UserStream key) WsClient.Live) ->
  let st' :=
    WsClient.run
      [ WsClient.SocketClose i;
        WsClient.TimeoutFires (length (WsClient.timeouts st));
        WsClient.ListenKeyAnswer (Js.Return key') ] st in
  WsClient.intervals st'
  = (WsClient.intervals st ++ [WsClient.next_interval st])%list
  /\ WsClient.userListenKey st' = Some key'
  /\ (forall t, In t (WsClient.intervals st) ->
        WsClient.activity (WsClient.intervalFired t st')
        = (WsClient.activity st' ++ [WsClient.KeepAlive key'])%list).
Proof.
  intros Hopen Hsock st'.
  assert (Hst' : WsClient.intervals st'
                 = (WsClient.intervals st ++ [WsClient.next_interval st])%list
                 /\ WsClient.userListenKey st' = Some key').
  { subst st'. unfold WsClient.run. cbn [fold_left WsClient.step].
    unfold WsClient.socketClosed. rewrite Hsock.
    cbn [WsClient.phase_of WsClient.opened_for WsClient.on_close].
    unfold WsClient.schedule. cbn.
    unfold WsClient.timeoutFired. cbn [WsClient.timeouts].
    rewrite nth_error_snoc, remove_nth_snoc.
    unfold WsClient.recreateUserStream. cbn [WsClient.closed]. rewrite Hopen.
    unfold WsClient.startUserStream. cbn.
    unfold WsClient.listenKeyArrived. cbn. split; reflexivity. }
  destruct Hst' as [Hint Hkey]. split; [exact Hint | split; [exact Hkey |]].
  intros t Ht. unfold WsClient.intervalFired.
  rewrite existsb_eqb_In by (rewrite Hint; apply in_or_app; left; exact Ht).
  unfold WsClient.keepAlive. rewrite Hkey. reflexivity.
Qed.

Lemma user_stream_reconnection_leaks_timer_witness :
  WsClient.intervals
    (WsClient.run
       [ WsClient.SocketClose 0; WsClient.TimeoutFires 0;
         WsClient.ListenKeyAnswer (Js.Return "lk2") ] user_stream_up)
  = [0%nat; 1%nat].
Proof.
  apply (user_stream_reconnection_leaks_timer user_stream_up 0%nat "lk1" "lk2");
    reflexivity.
Defined.

(** X26: a listen key that arrives after [closeAll] still opens the
    user stream: the client is closed, yet a socket is connected and a
    keepalive timer started. *)
Theorem listen_key_after_closeAll (st : WsClient.state) (key : string) (n : nat) :
  WsClient.in_flight st = S n ->
  let st' := WsClient.listenKeyArrived (Js.Return key) (WsClient.closeAll st) in
  WsClient.closed st' = true
  /\ WsClient.userListenKey st' = Some key
  /\ WsClient.activity st'
     = (WsClient.activity st ++ [WsClient.Connect (WsClient.UserStream key)])%list
  /\ WsClient.sockets st'
     = (WsClient.sockets (WsClient.closeAll st)
          ++ [WsClient.mkSocket (WsClient.UserStream key) WsClient.Live])%list
  /\ WsClient.keepAliveTimer st' = Some (WsClient.next_interval st)
  /\ In (WsClient.next_interval st) (WsClient.intervals st').
Proof.
  intros Hflight st'. subst st'.
  unfold WsClient.listenKeyArrived.
  cbn [WsClient.closeAll WsClient.in_flight]. rewrite Hflight.
  unfold WsClient.openUserWS. cbn.
  repeat split. apply in_or_app. right. left. reflexivity.
Qed.

Lemma listen_key_after_closeAll_witness :
  WsClient.activity
    (WsClient.listenKeyArrived (Js.Return "lk1")
       (WsClient.closeAll (WsClient.startUserStream WsClient.init)))
  = [WsClient.RequestListenKey; WsClient.Connect (WsClient.UserStream "lk1")].
Proof.
  apply (listen_key_after_closeAll (WsClient.startUserStream WsClient.init)
           "lk1" 0%nat).
  reflexivity.
Defined.

(** ** Numbers that are not numbers *)

Lemma nan_add (y : float) : (nan + y)%float = nan.
Proof. apply Prim2SF_inj. rewrite add_spec. reflexivity. Qed.

Lemma nan_div (y : float) : (nan / y)%float = nan.
Proof. apply Prim2SF_inj. rewrite div_spec. reflexivity. Qed.

Lemma div_nan (x : float) : (x / nan)%float = nan.
Proof.
  apply Prim2SF_inj. rewrite div_spec.
  change (Prim2SF nan) with S754_nan. destruct (Prim2SF x) as [s | s | | s m e];
    reflexivity.
Qed.

Lemma nan_mul (y : float) : (nan * y)%float = nan.
Proof. apply Prim2SF_inj. rewrite mul_spec. reflexivity. Qed.

Lemma toFixed_nan (p : nat) : JsNumber.toFixed nan p = "NaN".
Proof. reflexivity. Qed.

(** X27: [roundToTickSize] and [roundToStepSize] return NaN when the
    increment is NaN, and when the value is NaN and the increment is
    positive: the guard [<= 0] lets NaN through. *)
Theorem rounding_propagates_nan (v t : JsNumber.number) :
  MathUtil.roundToTickSize v nan = nan
  /\ MathUtil.roundToStepSize v nan = nan
  /\ ((t <=? 0)%float = false ->
      MathUtil.roundToTickSize nan t = nan
      /\ MathUtil.roundToStepSize nan t = nan).
Proof.
  split; [| split].
  - unfold MathUtil.roundToTickSize. change (nan <=? 0)%float with false.
    cbv iota zeta. rewrite div_nan.
    change (JsNumber.floor nan) with nan. rewrite nan_mul. reflexivity.
  - unfold MathUtil.roundToStepSize. change (nan <=? 0)%float with false.
    cbv iota zeta. rewrite div_nan.
    change (JsNumber.floor nan) with nan. rewrite nan_mul. reflexivity.
  - intros Ht. unfold MathUtil.roundToTickSize, MathUtil.roundToStepSize.
    rewrite Ht, nan_div. change (JsNumber.floor nan) with nan.
    rewrite nan_mul, toFixed_nan. split; reflexivity.
Qed.

Lemma add_delta_missing (d : JsNumber.number) :
  BotManager.add_delta None d = Some nan.
Proof. reflexivity. Qed.

Lemma add_delta_nan (d : JsNumber.number) :
  BotManager.add_delta (Some nan) d = Some nan.
Proof. unfold BotManager.add_delta. rewrite nan_add. reflexivity. Qed.

Lemma updateStats_each_nan (deltas : list (JsNumber.number * JsNumber.number))
  (b : BotManager.bot) :
  BotManager.completedRounds (BotManager.stats b) = Some nan ->
  BotManager.realizedPnl (BotManager.stats b) = Some nan ->
  BotManager.completedRounds (BotManager.stats (updateStats_each deltas b))
  = Some nan
  /\ BotManager.realizedPnl (BotManager.stats (updateStats_each deltas b))
     = Some nan.
Proof.
  revert b. induction deltas as [| [dr dp] deltas IH]; intros b Hr Hp;
    [split; assumption |].
  unfold updateStats_each. cbn [fold_left]. apply IH; cbn.
  - rewrite Hr. apply add_delta_nan.
  - rewrite Hp. apply add_delta_nan.
Qed.

(** X28: a bot loaded from a file without [stats] has no
    [completedRounds] and no [realizedPnl]; from the first [updateStats] on
    both are NaN, whatever is added. *)
Theorem missing_stats_turn_into_nan (runnerFactory : BotManager.bot -> bool)
  (botId name : string) (saved : BotManager.snapshot) (restartedAt : Z)
  (deltas : list (JsNumber.number * JsNumber.number)) :
  (forall b, runnerFactory b = true) ->
  BotManager.s_name saved = Some name -> name <> "" ->
  BotManager.s_stats saved = None ->
  deltas <> [] ->
  exists b,
    BotRegistry.getBot botId
      (BotManager.loadBotsFromDisk runnerFactory
         [BotManager.mkEntry botId (Some saved) restartedAt] BotManager.empty)
    = Some b
    /\ BotManager.completedRounds (BotManager.stats b) = None
    /\ BotManager.completedRounds (BotManager.stats (updateStats_each deltas b))
       = Some nan
    /\ BotManager.realizedPnl (BotManager.stats (updateStats_each deltas b))
       = Some nan.
Proof.
  intros Hrf Hname Hne Hstats Hdeltas.
  cbn [BotManager.loadBotsFromDisk BotManager.loaded BotManager.file_id
       BotManager.read_at].
  rewrite Hname. destruct (String.eqb_spec name "") as [E | _]; [contradiction |].
  rewrite Hrf, Hstats.
  destruct (if BotManager.saved_running saved then _ else _) as [b' effs] eqn:Hb.
  assert (Hnone : BotManager.completedRounds (BotManager.stats b') = None
                  /\ BotManager.realizedPnl (BotManager.stats b') = None).
  { destruct (BotManager.saved_running saved); injection Hb as <- _;
      split; reflexivity. }
  destruct Hnone as [Hr Hp].
  exists b'. split.
  - unfold BotRegistry.getBot. cbn. rewrite String.eqb_refl. reflexivity.
  - split; [exact Hr |].
    destruct deltas as [| [dr dp] deltas]; [contradiction |].
    unfold updateStats_each. cbn [fold_left].
    apply updateStats_each_nan; cbn.
    + rewrite Hr. reflexivity.
    + rewrite Hp. reflexivity.
Qed.

Lemma missing_stats_turn_into_nan_witness :
  exists b,
    BotRegistry.getBot "b1"
      (BotManager.loadBotsFromDisk (fun _ => true)
         [BotManager.mkEntry "b1" (Some bare_snapshot) 5000] BotManager.empty)
    = Some b
    /\ BotManager.completedRounds (BotManager.stats b) = None
    /\ BotManager.completedRounds
         (BotManager.stats (updateStats_each [(1%float, 0.25%float)] b))
       = Some nan
    /\ BotManager.realizedPnl
         (BotManager.stats (updateStats_each [(1%float, 0.25%float)] b))
       = Some nan.
Proof.
  apply (missing_stats_turn_into_nan (fun _ => true) "b1" "btc grid"
           bare_snapshot 5000 [(1%float, 0.25%float)]).
  - reflexivity.
  - reflexivity.
  - discriminate.
  - reflexivity.
  - discriminate.
Defined.
